(** * pipecat-dictation: window control tool functions

    A shallow embedding of [pipecat_window_functions.py]: the tool
    functions an LLM calls to type into remembered windows, to run and
    save UI action sequences, and to start and stop the action recorder.

    The module imports three classes that live in sibling files
    ([window_control.WindowController], [action_runner.ActionRunner],
    [sequence_recorder.SequenceRecorder]).  The window controller is an
    interface here (a type class); the runner and the recorder are
    modelled from the specification, each marked as such.

    Conventions: Python [str] is [string] restricted to ASCII text;
    numbers are integers ([Z]), times are in milliseconds and
    coordinates in pixels; a Python dict is an association list in
    insertion order; an exception is the [Raise] outcome. *)

From Stdlib Require Import ZArith Ascii String List Lia.
From stdpp Require Import base option list strings gmap pretty.
Import ListNotations.

Local Open Scope Z_scope.
Set Warnings "-register-all".

(* ================================================================== *)
(** * Python values                                                    *)
(* ================================================================== *)

(** The values that travel through tool-call arguments, JSON files and
    tool responses. *)
Inductive pyval : Type :=
| PNone
| PBool (b : bool)
| PInt (z : Z)
| PStr (s : string)
| PList (l : list pyval)
| PDict (d : list (string * pyval)).

(** [d.get(k)] on an association list. *)
Fixpoint assoc_get {A : Type} (k : string) (d : list (string * A)) : option A :=
  match d with
  | [] => None
  | (k', v) :: d' => if String.eqb k' k then Some v else assoc_get k d'
  end.

(** [d[k] = v]: overwrite in place when the key exists, append otherwise. *)
Fixpoint assoc_set {A : Type} (k : string) (v : A) (d : list (string * A))
  : list (string * A) :=
  match d with
  | [] => [(k, v)]
  | (k', v') :: d' =>
      if String.eqb k' k then (k, v) :: d' else (k', v') :: assoc_set k v d'
  end.

(** Truth value of a Python object. *)
Definition py_truthy (v : pyval) : bool :=
  match v with
  | PNone => false
  | PBool b => b
  | PInt z => negb (z =? 0)
  | PStr s => negb (bool_decide (s = ""))
  | PList l => negb (bool_decide (l = []))
  | PDict d => negb (bool_decide (d = []))
  end.

(** Truth value of [Optional[str]]: [None] and [""] are false. *)
Definition str_truthy (o : option string) : bool :=
  match o with
  | Some s => negb (bool_decide (s = ""))
  | None => false
  end.

(** Outcome of a call that may raise. *)
Inductive outcome (A : Type) : Type :=
| Ret (a : A)
| Raise (msg : string).
Arguments Ret {A} a.
Arguments Raise {A} msg.

(* ------------------------------------------------------------------ *)
(** ** Strings                                                          *)
(* ------------------------------------------------------------------ *)

Definition chars (s : string) : list ascii := list_ascii_of_string s.
Definition of_chars (l : list ascii) : string := string_of_list_ascii l.

(** [str.isspace] on ASCII: TAB..CR, FS..US and the blank. *)
Definition is_space (c : ascii) : bool :=
  let n := nat_of_ascii c in
  ((9 <=? n)%nat && (n <=? 13)%nat) || ((28 <=? n)%nat && (n <=? 32)%nat).

Definition is_digit (c : ascii) : bool :=
  let n := nat_of_ascii c in (48 <=? n)%nat && (n <=? 57)%nat.

Definition is_lower (c : ascii) : bool :=
  let n := nat_of_ascii c in (97 <=? n)%nat && (n <=? 122)%nat.

Definition is_upper (c : ascii) : bool :=
  let n := nat_of_ascii c in (65 <=? n)%nat && (n <=? 90)%nat.

Definition to_lower (c : ascii) : ascii :=
  if is_upper c then ascii_of_nat (nat_of_ascii c + 32) else c.

Fixpoint lstrip (l : list ascii) : list ascii :=
  match l with
  | c :: l' => if is_space c then lstrip l' else l
  | [] => []
  end.

(** [s.strip()] *)
Definition strip (s : string) : string :=
  of_chars (rev (lstrip (rev (lstrip (chars s))))).

(** [s.lower()] *)
Definition lower (s : string) : string := of_chars (map to_lower (chars s)).

(** [int(s)] for a string: optional blanks around an optional sign and
    decimal digits, where single underscores may separate digits. *)
Fixpoint digits_value (acc : Z) (prev_digit : bool) (l : list ascii) : option Z :=
  match l with
  | [] => if prev_digit then Some acc else None
  | c :: l' =>
      if is_digit c
      then digits_value (10 * acc + (Z.of_nat (nat_of_ascii c) - 48)) true l'
      else if (bool_decide (c = "_"%char)) && prev_digit
           then digits_value acc false l'
           else None
  end.

Definition int_of_string (s : string) : option Z :=
  match chars (strip s) with
  | c :: l =>
      if bool_decide (c = "-"%char) then Z.opp <$> digits_value 0 false l
      else if bool_decide (c = "+"%char) then digits_value 0 false l
      else digits_value 0 false (c :: l)
  | [] => None
  end.

(** [int(v)]: raises [TypeError] on [None] and containers and
    [ValueError] on a string that is not a number. *)
Definition py_int (v : pyval) : outcome Z :=
  match v with
  | PInt z => Ret z
  | PBool b => Ret (if b then 1 else 0)
  | PStr s =>
      match int_of_string s with
      | Some z => Ret z
      | None => Raise "ValueError: invalid literal for int()"
      end
  | _ => Raise "TypeError: int() argument must be a string or a number"
  end.

(** [repr(s)] of a string: single quotes unless the string has a single
    quote and no double quote; backslash, the quote and control
    characters are escaped. *)
Definition hex_digit (n : nat) : ascii :=
  if (n <? 10)%nat then ascii_of_nat (48 + n) else ascii_of_nat (87 + n).

Definition repr_char (q : ascii) (c : ascii) : list ascii :=
  let n := nat_of_ascii c in
  if bool_decide (c = q) || bool_decide (c = "\"%char) then ["\"%char; c]
  else if (n =? 9)%nat then ["\"%char; "t"%char]
  else if (n =? 10)%nat then ["\"%char; "n"%char]
  else if (n =? 13)%nat then ["\"%char; "r"%char]
  else if (n <? 32)%nat || (n =? 127)%nat
       then ["\"%char; "x"%char; hex_digit (n / 16); hex_digit (n mod 16)]
       else [c].

Definition dquote : ascii := ascii_of_nat 34.

Definition has_char (c : ascii) (l : list ascii) : bool :=
  existsb (fun c' => bool_decide (c' = c)) l.

Definition repr_string (s : string) : string :=
  let l := chars s in
  let q := if has_char "'"%char l && negb (has_char dquote l)
           then dquote else "'"%char in
  of_chars (q :: flat_map (repr_char q) l ++ [q]).

Definition join_comma (parts : list string) : string :=
  match parts with
  | [] => ""
  | p :: ps => fold_left (fun acc x => acc +:+ ", " +:+ x) ps p
  end.

(** [repr(v)] *)
Fixpoint py_repr (v : pyval) : string :=
  match v with
  | PNone => "None"
  | PBool b => if b then "True" else "False"
  | PInt z => pretty z
  | PStr s => repr_string s
  | PList l => "[" +:+ join_comma (map py_repr l) +:+ "]"
  | PDict d =>
      "{" +:+ join_comma
                (map (fun kv => repr_string (fst kv) +:+ ": " +:+ py_repr (snd kv)) d)
          +:+ "}"
  end.

(** [str(v)] *)
Definition py_str (v : pyval) : string :=
  match v with
  | PStr s => s
  | _ => py_repr v
  end.

(* ================================================================== *)
(** * Action model                                                     *)
(* ================================================================== *)

(** Modelled from the spec: a point of the data model, in screen
    coordinates.  The runner that reads points is in [action_runner.py],
    a sibling file. *)
Record Point : Type := mkPoint { px : Z; py : Z }.

(** Modelled from the spec: the target of a pointer action, a literal
    point or a reference to a variable ([action_runner.py]). *)
Inductive Target : Type :=
| AtPoint (p : Point)
| AtVar (var : string).

(** Modelled from the spec: the closed variant of UI actions that
    [action_runner.py] interprets.  The discriminators and the field
    names are the ones [run_actions_schema] lists: focus_window,
    move_mouse, hover, click, send_text, key, wait, prompt_point.  A
    click count is at least one and an interval is never negative, which
    the types enforce. *)
Inductive Action : Type :=
| FocusWindow (name : string)
| MoveMouse (to : Target)
| Hover (to : Target) (seconds : Z)
| Click (to : option Target) (button : string) (count : positive) (interval : N)
| SendText (txt : string) (window : option string) (send_newline : bool)
| Key (key : string) (window : option string)
| Wait (seconds : Z)
| PromptPoint (var : string) (message : option string).

Definition is_wait (a : Action) : bool :=
  match a with Wait _ => true | _ => false end.

(* ------------------------------------------------------------------ *)
(** ** Records: the dict form of an action                              *)
(* ------------------------------------------------------------------ *)

Definition opt_field (k : string) (o : option pyval) : list (string * pyval) :=
  match o with
  | Some v => [(k, v)]
  | None => []
  end.

Definition target_to_record (t : Target) : pyval :=
  match t with
  | AtPoint p => PDict [("x", PInt (px p)); ("y", PInt (py p))]
  | AtVar v => PDict [("var", PStr v)]
  end.

(** Modelled from the spec: the dict of an action as the recorder
    ([sequence_recorder.py]) hands it over and the runner reads it.  One
    record per action: the type discriminator, then the fields of that
    variant only; an absent optional field is left out. *)
Definition action_to_record (a : Action) : pyval :=
  match a with
  | FocusWindow name =>
      PDict [("type", PStr "focus_window"); ("name", PStr name)]
  | MoveMouse to =>
      PDict [("type", PStr "move_mouse"); ("to", target_to_record to)]
  | Hover to seconds =>
      PDict [("type", PStr "hover"); ("to", target_to_record to);
             ("seconds", PInt seconds)]
  | Click to button count interval =>
      PDict (("type", PStr "click")
               :: opt_field "to" (target_to_record <$> to)
               ++ [("button", PStr button); ("count", PInt (Z.pos count));
                   ("interval", PInt (Z.of_N interval))])
  | SendText txt window send_newline =>
      PDict (("type", PStr "send_text") :: ("text", PStr txt)
               :: opt_field "window" (PStr <$> window)
               ++ [("send_newline", PBool send_newline)])
  | Key key window =>
      PDict (("type", PStr "key") :: ("key", PStr key)
               :: opt_field "window" (PStr <$> window))
  | Wait seconds =>
      PDict [("type", PStr "wait"); ("seconds", PInt seconds)]
  | PromptPoint var message =>
      PDict (("type", PStr "prompt_point") :: ("var", PStr var)
               :: opt_field "message" (PStr <$> message))
  end.

Definition records_of_actions (s : list Action) : list pyval :=
  map action_to_record s.

Definition get_str (k : string) (d : list (string * pyval)) : option string :=
  match assoc_get k d with
  | Some (PStr s) => Some s
  | _ => None
  end.

Definition get_int (k : string) (d : list (string * pyval)) : option Z :=
  match assoc_get k d with
  | Some (PInt z) => Some z
  | _ => None
  end.

Definition get_bool (k : string) (d : list (string * pyval)) : option bool :=
  match assoc_get k d with
  | Some (PBool b) => Some b
  | _ => None
  end.

(** An optional string field: absent and null both read as [None]. *)
Definition get_opt_str (k : string) (d : list (string * pyval))
  : option (option string) :=
  match assoc_get k d with
  | None | Some PNone => Some None
  | Some (PStr s) => Some (Some s)
  | Some _ => None
  end.

Definition target_of_record (v : pyval) : option Target :=
  match v with
  | PDict d =>
      match assoc_get "var" d with
      | Some (PStr name) => Some (AtVar name)
      | Some _ => None
      | None =>
          x ← get_int "x" d; y ← get_int "y" d; Some (AtPoint (mkPoint x y))
      end
  | _ => None
  end.

Definition get_target (k : string) (d : list (string * pyval)) : option Target :=
  assoc_get k d ≫= target_of_record.

Definition get_opt_target (k : string) (d : list (string * pyval))
  : option (option Target) :=
  match assoc_get k d with
  | None | Some PNone => Some None
  | Some v => Some <$> target_of_record v
  end.

(** Modelled from the spec: the construction of an action from a
    record, as the runner of [action_runner.py] validates it.  An
    unknown or missing type, a missing required field, a click count
    below one and a negative interval are rejected. *)
Definition action_of_record (v : pyval) : option Action :=
  match v with
  | PDict d =>
      ty ← get_str "type" d;
      if String.eqb ty "focus_window" then
        name ← get_str "name" d; Some (FocusWindow name)
      else if String.eqb ty "move_mouse" then
        to ← get_target "to" d; Some (MoveMouse to)
      else if String.eqb ty "hover" then
        to ← get_target "to" d; seconds ← get_int "seconds" d;
        Some (Hover to seconds)
      else if String.eqb ty "click" then
        to ← get_opt_target "to" d; button ← get_str "button" d;
        count ← get_int "count" d; interval ← get_int "interval" d;
        if (1 <=? count) && (0 <=? interval)
        then Some (Click to button (Z.to_pos count) (Z.to_N interval))
        else None
      else if String.eqb ty "send_text" then
        txt ← get_str "text" d; window ← get_opt_str "window" d;
        send_newline ← get_bool "send_newline" d;
        Some (SendText txt window send_newline)
      else if String.eqb ty "key" then
        key ← get_str "key" d; window ← get_opt_str "window" d;
        Some (Key key window)
      else if String.eqb ty "wait" then
        seconds ← get_int "seconds" d; Some (Wait seconds)
      else if String.eqb ty "prompt_point" then
        var ← get_str "var" d; message ← get_opt_str "message" d;
        Some (PromptPoint var message)
      else None
  | _ => None
  end.

Definition actions_of_records (l : list pyval) : option (list Action) :=
  mapM action_of_record l.

(** Modelled from the spec: the validation before a run of
    [action_runner.py]: the typed sequence, or the index of the first
    record that is not an action. *)
Fixpoint validate_from (i : nat) (l : list pyval) : nat + list Action :=
  match l with
  | [] => inr []
  | v :: l' =>
      match action_of_record v with
      | None => inl i
      | Some a =>
          match validate_from (S i) l' with
          | inl j => inl j
          | inr s => inr (a :: s)
          end
      end
  end.

Definition validate (l : list pyval) : nat + list Action := validate_from 0 l.

(* ================================================================== *)
(** * The window controller                                            *)
(* ================================================================== *)

(** What the controller remembers about a window. *)
Record WindowInfo : Type := mkWindowInfo {
  title : option string;
  wm_class : option string;
  position : option (Z * Z)
}.

(** The members of [WindowController] this module uses.  The class is
    defined in [window_control.py]; here it is an interface over a state
    [W], and every method returns the state it leaves behind together
    with its result or the exception it raised. *)
Class WindowController (W : Type) : Type := {
  window_map : W → list (string * WindowInfo);
  last_used_window : W → option string;
  ctl_focus_window : option string → W → outcome bool * W;
  ctl_send_keystrokes_to_window : string → option string → W → outcome unit * W;
  ctl_send_key_to_window : string → option string → W → outcome unit * W
}.

(** Calls on the controller, as data. *)
Inductive Call : Type :=
| CallFocus (window_name : option string)
| CallKeystrokes (txt : string) (window_name : option string)
| CallKey (key : string) (window_name : option string).

Definition call `{WindowController W} (c : Call) (w : W) : outcome unit * W :=
  match c with
  | CallFocus n =>
      match ctl_focus_window n w with
      | (Ret _, w') => (Ret (), w')
      | (Raise e, w') => (Raise e, w')
      end
  | CallKeystrokes t n => ctl_send_keystrokes_to_window t n w
  | CallKey k n => ctl_send_key_to_window k n w
  end.

(** A script of calls, performed in order up to the first that raises. *)
Fixpoint perform `{WindowController W} (script : list Call) (w : W)
  : outcome unit * W :=
  match script with
  | [] => (Ret (), w)
  | c :: script' =>
      match call c w with
      | (Ret _, w') => perform script' w'
      | (Raise e, w') => (Raise e, w')
      end
  end.

Definition keys {A : Type} (d : list (string * A)) : list string := map fst d.

(** [k in d] *)
Definition has_key {A : Type} (k : string) (d : list (string * A)) : bool :=
  existsb (String.eqb k) (keys d).

(** The [success] flag of a response dict. *)
Definition py_success (v : pyval) : bool :=
  match v with
  | PDict d => match assoc_get "success" d with
               | Some (PBool b) => b
               | _ => false
               end
  | _ => false
  end.

Definition opt_str (o : option string) : pyval :=
  match o with
  | Some s => PStr s
  | None => PNone
  end.

Definition failure (msg : string) : pyval :=
  PDict [("success", PBool false); ("error", PStr msg)].

(** [a or b or "default"] on optional strings. *)
Definition first_truthy (a b : option string) (d : string) : string :=
  match a with
  | Some s => if bool_decide (s = "") then
                match b with
                | Some s' => if bool_decide (s' = "") then d else s'
                | None => d
                end
              else s
  | None => match b with
            | Some s' => if bool_decide (s' = "") then d else s'
            | None => d
            end
  end.

Section Controller.
Context {W : Type} `{WindowController W}.

(** [send_text_to_window(text, window_name, send_newline)] *)
Definition send_text_to_window (text : string) (window_name : option string)
    (send_newline : bool) (controller : W) : pyval * W :=
  if bool_decide (window_map controller = []) then
    (failure "No windows remembered. Use remember_window first.", controller)
  else if str_truthy window_name
          && negb (has_key (default "" window_name) (window_map controller)) then
    (PDict [("success", PBool false);
            ("error", PStr ("Window '" +:+ default "" window_name +:+ "' not found"));
            ("available_windows", PList (map PStr (keys (window_map controller))))],
     controller)
  else if String.eqb text "escape" then
    match ctl_send_key_to_window "escape" window_name controller with
    | (Raise e, c1) => (failure e, c1)
    | (Ret _, c1) =>
        (PDict [("success", PBool true);
                ("message", PStr "Escape sent to window");
                ("window_used", opt_str window_name)], c1)
    end
  else
    match ctl_send_keystrokes_to_window text window_name controller with
    | (Raise e, c1) => (failure e, c1)
    | (Ret _, c1) =>
        match (if send_newline
               then ctl_send_key_to_window "enter" window_name c1
               else (Ret (), c1)) with
        | (Raise e, c2) => (failure e, c2)
        | (Ret _, c2) =>
            let target_window :=
              first_truthy window_name (last_used_window c2) "default" in
            (PDict [("success", PBool true);
                    ("message", PStr ("Sent text to window '" +:+ target_window +:+ "'"));
                    ("window_used", PStr target_window);
                    ("text_length", PInt (Z.of_nat (String.length text)));
                    ("newline_sent", PBool send_newline)], c2)
        end
    end.

(** [focus_window(window_name)] *)
Definition focus_window (window_name : option string) (controller : W)
  : pyval * W :=
  if bool_decide (window_map controller = []) then
    (failure "No windows remembered", controller)
  else if str_truthy window_name
          && negb (has_key (default "" window_name) (window_map controller)) then
    (PDict [("success", PBool false);
            ("error", PStr ("Window '" +:+ default "" window_name +:+ "' not found"));
            ("available_windows", PList (map PStr (keys (window_map controller))))],
     controller)
  else
    match ctl_focus_window window_name controller with
    | (Raise e, c1) => (failure e, c1)
    | (Ret ok, c1) =>
        let target := first_truthy window_name (last_used_window c1) "default" in
        if ok then
          (PDict [("success", PBool true);
                  ("message", PStr ("Focused window '" +:+ target +:+ "'"));
                  ("window_focused", PStr target)], c1)
        else (failure ("Failed to focus window '" +:+ target +:+ "'"), c1)
    end.

End Controller.

(* ================================================================== *)
(** * The sequence execution engine                                    *)
(* ================================================================== *)

(** Modelled from the spec: the pointer, delay and prompt collaborators
    of [action_runner.ActionRunner], which the module imports and whose
    source is a sibling file.  A prompt that times out answers [None]. *)
Class InputInjector (W : Type) : Type := {
  inj_move_to : Point → W → outcome unit * W;
  inj_click : string → W → outcome unit * W;
  inj_sleep : Z → W → W;
  inj_prompt_point : string → option string → W → option Point * W
}.

(** Modelled from the spec: the error kinds of a run of
    [action_runner.py]. *)
Inductive Error : Type :=
| UnboundVariable (name : string)
| InvalidAction (reason : string)
| CollaboratorFailure (cause : string)
| PromptTimeout.

(** Modelled from the spec: one entry of the report of
    [ActionRunner.run]: the index, the action as its record, whether it
    succeeded and the error when it did not. *)
Record StepReport : Type := mkStep {
  step_index : nat;
  step_action : pyval;
  step_success : bool;
  step_error : option Error
}.

(** Modelled from the spec: the report of [ActionRunner.run]. *)
Record ExecutionReport : Type := mkReport {
  success : bool;
  steps : list StepReport;
  failedAt : option nat
}.

(** Modelled from the spec: the variable resolver of
    [action_runner.py].  A literal point is itself; a variable is looked
    up by its exact name. *)
Definition resolve (ref : Target) (env : gmap string Point) : Error + Point :=
  match ref with
  | AtPoint p => inr p
  | AtVar name =>
      match env !! name with
      | Some p => inr p
      | None => inl (UnboundVariable name)
      end
  end.

Section Engine.
Context {W : Type} `{WindowController W} `{InputInjector W}.

(** Modelled from the spec: an exception of a collaborator becomes the
    error of the step ([action_runner.py]). *)
Definition collaborator (r : outcome unit * W) : option Error * W :=
  match r with
  | (Ret _, w) => (None, w)
  | (Raise e, w) => (Some (CollaboratorFailure e), w)
  end.

(** Modelled from the spec: the pointer is moved to a target after the
    target is resolved ([action_runner.py]). *)
Definition move_to (to : Target) (env : gmap string Point) (w : W)
  : option Error * W :=
  match resolve to env with
  | inl e => (Some e, w)
  | inr p => collaborator (inj_move_to p w)
  end.

(** Modelled from the spec: [n] clicks of one button, [interval] apart
    ([action_runner.py]). *)
Fixpoint clicks (n : nat) (button : string) (interval : Z) (w : W)
  : option Error * W :=
  match n with
  | O => (None, w)
  | S n' =>
      match inj_click button w with
      | (Raise e, w1) => (Some (CollaboratorFailure e), w1)
      | (Ret _, w1) =>
          match n' with
          | O => (None, w1)
          | S _ => clicks n' button interval (inj_sleep interval w1)
          end
      end
  end.

(** Modelled from the spec: the dispatch of one action of
    [ActionRunner.run] to the collaborators.  The result is the error
    of the action, if any, the variable environment and the state of the
    desktop afterwards. *)
Definition exec_action (a : Action) (env : gmap string Point) (w : W)
  : option Error * gmap string Point * W :=
  match a with
  | FocusWindow name =>
      match ctl_focus_window (Some name) w with
      | (Ret true, w1) => (None, env, w1)
      | (Ret false, w1) =>
          (Some (CollaboratorFailure ("Failed to focus window '" +:+ name +:+ "'")),
           env, w1)
      | (Raise e, w1) => (Some (CollaboratorFailure e), env, w1)
      end
  | MoveMouse to =>
      let '(e, w1) := move_to to env w in (e, env, w1)
  | Hover to seconds =>
      match move_to to env w with
      | (Some e, w1) => (Some e, env, w1)
      | (None, w1) => (None, env, inj_sleep seconds w1)
      end
  | Click to button count interval =>
      match (match to with
             | Some t => move_to t env w
             | None => (None, w)
             end) with
      | (Some e, w1) => (Some e, env, w1)
      | (None, w1) =>
          let '(e, w2) := clicks (Pos.to_nat count) button (Z.of_N interval) w1 in
          (e, env, w2)
      end
  | SendText txt window send_newline =>
      match ctl_send_keystrokes_to_window txt window w with
      | (Raise e, w1) => (Some (CollaboratorFailure e), env, w1)
      | (Ret _, w1) =>
          if send_newline
          then let '(e, w2) := collaborator (ctl_send_key_to_window "enter" window w1)
               in (e, env, w2)
          else (None, env, w1)
      end
  | Key key window =>
      let '(e, w1) := collaborator (ctl_send_key_to_window key window w) in
      (e, env, w1)
  | Wait seconds => (None, env, inj_sleep seconds w)
  | PromptPoint var message =>
      match inj_prompt_point var message w with
      | (Some p, w1) => (None, <[var := p]> env, w1)
      | (None, w1) => (Some PromptTimeout, env, w1)
      end
  end.

(** Modelled from the spec: the loop of [ActionRunner.run].  Actions
    run strictly in order against one environment; the first error is
    reported with its index and ends the run. *)
Fixpoint run_steps (i : nat) (s : list Action) (env : gmap string Point) (w : W)
  : list StepReport * option nat * W :=
  match s with
  | [] => ([], None, w)
  | a :: s' =>
      match exec_action a env w with
      | (Some e, _, w1) =>
          ([mkStep i (action_to_record a) false (Some e)], Some i, w1)
      | (None, env1, w1) =>
          let '(rest, f, w2) := run_steps (S i) s' env1 w1 in
          (mkStep i (action_to_record a) true None :: rest, f, w2)
      end
  end.

(** Modelled from the spec: the report of a run of [ActionRunner.run]
    on a validated sequence; the run succeeded when no step failed. *)
Definition run (s : list Action) (initial_vars : gmap string Point) (w : W)
  : ExecutionReport * W :=
  let '(st, f, w') := run_steps 0 s initial_vars w in
  (mkReport (bool_decide (f = None)) st f, w').

(** Modelled from the spec: [ActionRunner(controller).run(actions,
    initial_vars)] on action dicts: validate, then run.  A record that
    is not an action is reported at its index before anything runs. *)
Definition ActionRunner_run (actions : list pyval)
    (initial_vars : gmap string Point) (w : W) : ExecutionReport * W :=
  match validate actions with
  | inl i =>
      (mkReport false
         [mkStep i (default PNone (actions !! i)) false
            (Some (InvalidAction "not an action"))]
         (Some i), w)
  | inr s => run s initial_vars w
  end.

(** [variables or {}] *)
Definition or_empty (variables : option (gmap string Point)) : gmap string Point :=
  match variables with
  | Some m => if bool_decide (m = ∅) then ∅ else m
  | None => ∅
  end.

(** [run_actions(actions, variables)] *)
Definition run_actions (actions : list pyval)
    (variables : option (gmap string Point)) (controller : W)
  : ExecutionReport * W :=
  ActionRunner_run actions (or_empty variables) controller.

End Engine.

(* ================================================================== *)
(** * The recorder                                                     *)
(* ================================================================== *)

(** Modelled from the spec: the identity of a key in a raw event of
    [sequence_recorder.py]: a function key, a printable character or a
    named key such as enter or escape. *)
Inductive KeyId : Type :=
| FKey (fn : Z)
| CharKey (c : ascii)
| NamedKey (name : string).

(** Modelled from the spec: the payload of a raw input event. *)
Inductive Payload : Type :=
| Move (p : Point)
| ButtonDown (button : string) (p : Point)
| ButtonUp (button : string) (p : Point)
| KeyDown (k : KeyId)
| KeyUp (k : KeyId).

(** Modelled from the spec: a raw input event of the capture source. *)
Record Event : Type := mkEvent { payload : Payload; timestamp : Z }.

(** Modelled from the spec: the configuration of a recording session;
    the fields are the arguments [start_action_recording] passes to
    [SequenceRecorder]. *)
Record Config : Type := mkConfig {
  default_window : option string;
  window_key_map : gmap Z string;
  min_wait : Z;
  double_click_window : Z
}.

(** Modelled from the spec: what the coalescer of
    [sequence_recorder.py] is still holding back: a burst of moves, a
    click that may still grow, or a run of typed characters. *)
Inductive Pending : Type :=
| NoPending
| PendingMove (p : Point) (ts : Z)
| PendingClick (button : string) (p : Point) (count : positive) (interval : N) (ts : Z)
| PendingText (txt : string) (window : option string) (ts : Z).

(** Modelled from the spec: the accumulation state of the Temporal
    Coalescer of [sequence_recorder.py]: the actions emitted so far, the
    timestamp of the last of them, the pending buffer, the button that
    is held down, and the window that typed input is tagged with. *)
Record Coalescer : Type := mkCoalescer {
  emitted : list Action;
  last_ts : option Z;
  pending : Pending;
  pressed : option (string * Point * Z);
  target_window : option string
}.

(** Modelled from the spec: the coalescer of a session that starts. *)
Definition init_coalescer (cfg : Config) : Coalescer :=
  mkCoalescer [] None NoPending None (default_window cfg).

Definition point_eqb (p q : Point) : bool :=
  (px p =? px q) && (py p =? py q).

Definition set_pending (pd : Pending) (st : Coalescer) : Coalescer :=
  mkCoalescer (emitted st) (last_ts st) pd (pressed st) (target_window st).

Definition set_pressed (b : option (string * Point * Z)) (st : Coalescer) : Coalescer :=
  mkCoalescer (emitted st) (last_ts st) (pending st) b (target_window st).

(** Modelled from the spec: an action that happened at time [ts] is
    emitted ([sequence_recorder.py]). *)
Definition emit (a : Action) (ts : Z) (st : Coalescer) : Coalescer :=
  mkCoalescer (emitted st ++ [a]) (Some ts) NoPending (pressed st) (target_window st).

(** Modelled from the spec: a wait is never emitted behind a wait; the
    new gap is added to the one that is already there. *)
Definition emit_wait (gap : Z) (l : list Action) : list Action :=
  match last l with
  | Some (Wait s) => removelast l ++ [Wait (s + gap)]
  | _ => l ++ [Wait gap]
  end.

(** Modelled from the spec: the idle-gap rule.  A gap since the
    previous emitted action that exceeds [min_wait] becomes a wait. *)
Definition idle_gap (cfg : Config) (t : Z) (st : Coalescer) : Coalescer :=
  match last_ts st with
  | Some t0 =>
      if min_wait cfg <? t - t0
      then mkCoalescer (emit_wait (t - t0) (emitted st)) (last_ts st)
             (pending st) (pressed st) (target_window st)
      else st
  | None => st
  end.

(** Modelled from the spec: the flush of the pending buffer.  A burst
    of moves is one move to its final point, a pending click is one
    click with its count, one typed character is a key and a longer run
    is a text. *)
Definition flush (st : Coalescer) : Coalescer :=
  match pending st with
  | NoPending => st
  | PendingMove p ts => emit (MoveMouse (AtPoint p)) ts st
  | PendingClick b p n iv ts => emit (Click (Some (AtPoint p)) b n iv) ts st
  | PendingText s w ts =>
      emit (if (String.length s =? 1)%nat then Key s w else SendText s w false) ts st
  end.

(** Modelled from the spec: an event that starts a new action first
    closes what is pending and then accounts for the idle time before
    it ([sequence_recorder.py]). *)
Definition begin (cfg : Config) (t : Z) (st : Coalescer) : Coalescer :=
  idle_gap cfg t (flush st).

(** Modelled from the spec: the window a configured function key
    stands for ([sequence_recorder.py]). *)
Definition hotkey (cfg : Config) (k : KeyId) : option string :=
  match k with
  | FKey fn => window_key_map cfg !! fn
  | _ => None
  end.

(** Modelled from the spec: the name under which a key is recorded. *)
Definition key_name (k : KeyId) : string :=
  match k with
  | FKey fn => "f" +:+ pretty fn
  | CharKey c => String c ""
  | NamedKey name => name
  end.

(** Modelled from the spec: one raw event through the Temporal
    Coalescer (idle gap, click merge, move coalescing, key and text
    passthrough, hotkey interception).  An event that merges into the
    pending buffer is absorbed there; any other event begins a new
    action.  A click is a button-down and the button-up of the same
    button that follows it, at the point of the button-down; the gap
    between two clicks runs from the button-up of the first to the
    button-down of the second. *)
Definition on_event (cfg : Config) (ev : Event) (st : Coalescer) : Coalescer :=
  let t := timestamp ev in
  match payload ev with
  | Move p =>
      match pending st with
      | PendingMove _ _ => set_pending (PendingMove p t) st
      | _ => set_pending (PendingMove p t) (begin cfg t st)
      end
  | ButtonDown b p => set_pressed (Some (b, p, t)) st
  | ButtonUp b _ =>
      match pressed st with
      | Some (b', p, td) =>
          if String.eqb b b' then
            let st1 := set_pressed None st in
            match pending st1 with
            | PendingClick pb pp n _ ts =>
                if String.eqb pb b && point_eqb pp p
                   && (td - ts <? double_click_window cfg)
                then set_pending
                       (PendingClick b p (Pos.succ n) (Z.to_N (td - ts)) t) st1
                else set_pending (PendingClick b p 1 0 t) (begin cfg td st1)
            | _ => set_pending (PendingClick b p 1 0 t) (begin cfg td st1)
            end
          else st
      | None => st
      end
  | KeyDown k =>
      match hotkey cfg k with
      | Some name =>
          let st1 := emit (FocusWindow name) t (begin cfg t st) in
          mkCoalescer (emitted st1) (last_ts st1) (pending st1) (pressed st1)
            (Some name)
      | None =>
          match k with
          | CharKey c =>
              match pending st with
              | PendingText s w ts =>
                  if t - ts <? min_wait cfg
                  then set_pending (PendingText (s +:+ String c "") w t) st
                  else set_pending (PendingText (String c "") (target_window st) t)
                         (begin cfg t st)
              | _ => set_pending (PendingText (String c "") (target_window st) t)
                       (begin cfg t st)
              end
          | _ =>
              let st1 := begin cfg t st in
              emit (Key (key_name k) (target_window st1)) t st1
          end
      end
  | KeyUp _ => st
  end.

(** Modelled from the spec: the events of a stream go through the
    coalescer in order ([sequence_recorder.py]). *)
Definition feed (cfg : Config) (events : list Event) (st : Coalescer) : Coalescer :=
  fold_left (fun s ev => on_event cfg ev s) events st.

(** Modelled from the spec: the output of the coalescer of
    [sequence_recorder.py] for a whole event stream, the pending buffer
    flushed at the end. *)
Definition coalesce (cfg : Config) (events : list Event) : list Action :=
  emitted (flush (feed cfg events (init_coalescer cfg))).

(** Two waits next to each other somewhere in a sequence. *)
Fixpoint adjacent_waits (l : list Action) : bool :=
  match l with
  | a :: l' =>
      match l' with
      | b :: _ => (is_wait a && is_wait b) || adjacent_waits l'
      | [] => false
      end
  | [] => false
  end.

(* ------------------------------------------------------------------ *)
(** ** The recording session                                            *)
(* ------------------------------------------------------------------ *)

(** Modelled from the spec: the states of a recording session. *)
Inductive SessionState : Type := Idle | Recording | Stopped.

(** Modelled from the spec: the Recording Session of
    [sequence_recorder.SequenceRecorder]: its configuration, its state
    and the coalescer it owns. *)
Record SequenceRecorder : Type := mkRecorder {
  config : Config;
  state : SessionState;
  coalescer : Coalescer
}.

(** Modelled from the spec: [SequenceRecorder(default_window,
    window_key_map, min_wait, double_click_window)], a session that is
    idle. *)
Definition new_recorder (cfg : Config) : SequenceRecorder :=
  mkRecorder cfg Idle (init_coalescer cfg).

(** Modelled from the spec: [is_running()] is true iff the state is
    [Recording]. *)
Definition is_running (r : SequenceRecorder) : bool :=
  match state r with
  | Recording => true
  | _ => false
  end.

(** Modelled from the spec: [start()] fails with AlreadyRecording
    unless the session is idle. *)
Definition recorder_start (r : SequenceRecorder) : outcome unit * SequenceRecorder :=
  match state r with
  | Idle => (Ret (), mkRecorder (config r) Recording (init_coalescer (config r)))
  | _ => (Raise "AlreadyRecording", r)
  end.

(** Modelled from the spec: [stop()] fails with NotRecording unless the
    session is recording; otherwise it flushes the coalescer, goes back
    to idle and returns the sequence, as records. *)
Definition recorder_stop (r : SequenceRecorder)
  : outcome (list pyval) * SequenceRecorder :=
  match state r with
  | Recording =>
      (Ret (records_of_actions (emitted (flush (coalescer r)))),
       mkRecorder (config r) Idle (init_coalescer (config r)))
  | _ => (Raise "NotRecording", r)
  end.

(** Modelled from the spec: the capture source hands an event to a
    session of [sequence_recorder.py] that is recording. *)
Definition recorder_event (ev : Event) (r : SequenceRecorder) : SequenceRecorder :=
  if is_running r
  then mkRecorder (config r) (state r) (on_event (config r) ev (coalescer r))
  else r.

(* ================================================================== *)
(** * Files                                                            *)
(* ================================================================== *)

(** The content of a file: a JSON document or text that is not JSON. *)
Inductive file_data : Type :=
| JsonFile (v : pyval)
| TextFile (s : string).

(** The file system: the files by path, and the paths that refuse what
    is asked of them: a file in [denied] cannot be opened for writing,
    a directory in [denied] is missing and cannot be created. *)
Record FileSystem : Type := mkFS {
  files : gmap string file_data;
  denied : gset string
}.

(** [path.exists()] *)
Definition path_exists (path : string) (fs : FileSystem) : bool :=
  bool_decide (is_Some (files fs !! path)).

(** [dir / name] *)
Definition path_join (dir name : string) : string := dir +:+ "/" +:+ name.

(** [dir.mkdir(parents=True, exist_ok=True)]: it raises only for a
    directory that is missing and cannot be created; a directory that
    exists passes, whether it can be written to or not. *)
Definition mkdir (dir : string) (fs : FileSystem) : outcome unit :=
  if bool_decide (dir ∈ denied fs)
  then Raise ("PermissionError: " +:+ dir)
  else Ret ().

(** [with open(path, 'w') as f: json.dump(v, f, indent=2)]: an open
    that is refused leaves the file as it is; the value is a JSON
    document, which [json.dump] always serialises. *)
Definition write_json (path : string) (v : pyval) (fs : FileSystem)
  : outcome unit * FileSystem :=
  if bool_decide (path ∈ denied fs)
  then (Raise ("PermissionError: " +:+ path), fs)
  else (Ret (), mkFS (<[path := JsonFile v]> (files fs)) (denied fs)).

(** [with open(path, 'r') as f: json.load(f)] *)
Definition read_json (path : string) (fs : FileSystem) : outcome pyval :=
  match files fs !! path with
  | Some (JsonFile v) => Ret v
  | Some (TextFile _) => Raise "JSONDecodeError"
  | None => Raise ("FileNotFoundError: " +:+ path)
  end.

(** The slug alphabet: [a-z0-9\-_. ] *)
Definition slug_char (c : ascii) : bool :=
  is_lower c || is_digit c
  || bool_decide (c = "-"%char) || bool_decide (c = "_"%char)
  || bool_decide (c = "."%char) || bool_decide (c = " "%char).

(** [re.sub(r'\s+', '-', s)] *)
Fixpoint dash_spaces (in_run : bool) (l : list ascii) : list ascii :=
  match l with
  | [] => []
  | c :: l' =>
      if is_space c
      then if in_run then dash_spaces true l' else "-"%char :: dash_spaces true l'
      else c :: dash_spaces false l'
  end.

(** [_slugify(name)] *)
Definition _slugify (name : string) : string :=
  let s := lower (strip name) in
  let s := of_chars (filter (fun c => slug_char c = true) (chars s)) in
  let s := of_chars (dash_spaces false (chars s)) in
  if bool_decide (s = "") then "sequence" else s.

(* ================================================================== *)
(** * The process                                                      *)
(* ================================================================== *)

(** The state of the process: every recorder object created so far, the
    global [_recorder] as a reference to one of them, the global
    [_last_recorded_actions], and the file system. *)
Record Process : Type := mkProcess {
  sessions : list SequenceRecorder;
  _recorder : option nat;
  _last_recorded_actions : option (list pyval);
  fs : FileSystem
}.

Definition initial_process (fs0 : FileSystem) : Process :=
  mkProcess [] None None fs0.

(** The object [_recorder] refers to. *)
Definition current_recorder (p : Process) : option SequenceRecorder :=
  _recorder p ≫= fun i => sessions p !! i.

(** [_recorder and _recorder.is_running()] *)
Definition recording (p : Process) : bool :=
  match current_recorder p with
  | Some r => is_running r
  | None => false
  end.

(** The number of sessions that are recording, process-wide. *)
Definition active_sessions (p : Process) : nat :=
  length (filter (fun r => is_running r = true) (sessions p)).

(** The capture source delivers an event to the sessions that record. *)
Definition deliver (ev : Event) (p : Process) : Process :=
  mkProcess (map (recorder_event ev) (sessions p)) (_recorder p)
    (_last_recorded_actions p) (fs p).

(** The body of the [try] for one entry of [focus_hotkeys]:
    [fn = int(item.get('fn'))], [name = str(item.get('window'))] and the
    range test; the entry to add, or nothing. *)
Definition hotkey_entry (item : pyval) : outcome (option (Z * string)) :=
  match item with
  | PDict d =>
      match py_int (default PNone (assoc_get "fn" d)) with
      | Raise e => Raise e
      | Ret fn =>
          let name := py_str (default PNone (assoc_get "window" d)) in
          if (1 <=? fn) && (fn <=? 12) && negb (bool_decide (name = ""))
          then Ret (Some (fn, name))
          else Ret None
      end
  | _ => Raise "AttributeError: object has no attribute 'get'"
  end.

(** One turn of the loop over [focus_hotkeys]; an exception is passed
    over. *)
Definition add_hotkey (key_map : gmap Z string) (item : pyval) : gmap Z string :=
  match hotkey_entry item with
  | Ret (Some (fn, name)) => <[fn := name]> key_map
  | Ret None => key_map
  | Raise _ => key_map
  end.

Definition hotkeys_to_map (focus_hotkeys : option (list pyval)) : gmap Z string :=
  match focus_hotkeys with
  | Some items => fold_left add_hotkey items ∅
  | None => ∅
  end.

(** The response of [start_action_recording]: the dict with [success]
    false and an [error], or the dict with [success] true, a [message],
    the [default_window] and the [focus_hotkeys] map. *)
Inductive StartResponse : Type :=
| StartFailed (error : string)
| StartOk (message : string) (default_window : option string)
    (focus_hotkeys : gmap Z string).


(** [start_action_recording(default_window, focus_hotkeys, min_wait,
    double_click_window)] *)
Definition start_action_recording (default_window : option string)
    (focus_hotkeys : option (list pyval)) (min_wait double_click_window : Z)
    (p : Process) : outcome StartResponse * Process :=
  if recording p then
    (Ret (StartFailed "Recording already in progress"), p)
  else
    let key_map := hotkeys_to_map focus_hotkeys in
    let r := new_recorder (mkConfig default_window key_map min_wait double_click_window) in
    let '(res, r') := recorder_start r in
    let p' := mkProcess (sessions p ++ [r']) (Some (length (sessions p)))
                (_last_recorded_actions p) (fs p) in
    match res with
    | Raise e => (Raise e, p')
    | Ret _ =>
        (Ret (StartOk "Recording started. Call stop_action_recording to finish."
                default_window key_map), p')
    end.

(** [stop_action_recording(save_to_file, append)] *)
Definition stop_action_recording (save_to_file : option string) (append : bool)
    (p : Process) : outcome pyval * Process :=
  match _recorder p, current_recorder p with
  | Some i, Some r =>
      if is_running r then
        match recorder_stop r with
        | (Raise e, r') =>
            (Raise e, mkProcess (<[i := r']> (sessions p)) (_recorder p)
                        (_last_recorded_actions p) (fs p))
        | (Ret actions, r') =>
            let stopped fs' :=
              mkProcess (<[i := r']> (sessions p)) None (Some actions) fs' in
            if str_truthy save_to_file then
              let path := default "" save_to_file in
              let to_write :=
                if append && path_exists path (fs p) then
                  match read_json path (fs p) with
                  | Raise e => Raise e
                  | Ret (PList existing) => Ret (existing ++ actions)
                  | Ret _ => Ret ([] ++ actions)
                  end
                else Ret actions in
              let save_failed e :=
                (Ret (PDict [("success", PBool false);
                             ("error", PStr ("Failed to save file: " +:+ e));
                             ("actions", PList actions)]), stopped (fs p)) in
              match to_write with
              | Raise e => save_failed e
              | Ret l =>
                  match write_json path (PList l) (fs p) with
                  | (Raise e, _) => save_failed e
                  | (Ret _, fs') =>
                      (Ret (PDict [("success", PBool true);
                                   ("count", PInt (Z.of_nat (length actions)));
                                   ("actions", PList actions);
                                   ("file", PStr path)]), stopped fs')
                  end
              end
            else
              (Ret (PDict [("success", PBool true);
                           ("count", PInt (Z.of_nat (length actions)));
                           ("actions", PList actions);
                           ("file", PNone)]), stopped (fs p))
        end
      else (Ret (failure "No active recording"), p)
  | _, _ => (Ret (failure "No active recording"), p)
  end.

(* ================================================================== *)
(** * Named sequences                                                  *)
(* ================================================================== *)

Section Storage.
(** The directories the module fixes when it is loaded. *)
Variable CACHE_DIR : string.
Variable SEQUENCES_DIR : string.

Definition SEQUENCES_INDEX_FILE : string := path_join CACHE_DIR "sequences_index.json".

Definition empty_index (now : string) : pyval :=
  PDict [("sequences", PDict []); ("updated", PStr now)].

(** [_load_sequences_index()] *)
Definition _load_sequences_index (now : string) (fs : FileSystem) : pyval :=
  if negb (path_exists SEQUENCES_INDEX_FILE fs) then empty_index now
  else match read_json SEQUENCES_INDEX_FILE fs with
       | Ret v => v
       | Raise _ => empty_index now
       end.

(** [_save_sequences_index(data)] *)
Definition _save_sequences_index (data : list (string * pyval)) (now : string)
    (fs : FileSystem) : outcome unit * FileSystem :=
  match mkdir CACHE_DIR fs with
  | Raise e => (Raise e, fs)
  | Ret _ =>
      write_json SEQUENCES_INDEX_FILE (PDict (assoc_set "updated" (PStr now) data)) fs
  end.

(** The first suffix from [i] on whose file does not exist; the loop
    [while (SEQUENCES_DIR / f'{slug}-{i}.json').exists(): i += 1]. *)
Fixpoint free_suffix (fuel : nat) (slug : string) (i : Z) (fs : FileSystem) : Z :=
  match fuel with
  | O => i
  | S fuel' =>
      if path_exists (path_join SEQUENCES_DIR (slug +:+ "-" +:+ pretty i +:+ ".json")) fs
      then free_suffix fuel' slug (i + 1) fs
      else i
  end.

(** The file a sequence saved under [name] goes to when no path is
    given. *)
Definition default_path (name : string) (overwrite : bool) (fs : FileSystem) : string :=
  let slug := _slugify name in
  let path := path_join SEQUENCES_DIR (slug +:+ ".json") in
  if path_exists path fs && negb overwrite then
    let i := free_suffix (S (size (files fs))) slug 2 fs in
    path_join SEQUENCES_DIR (slug +:+ "-" +:+ pretty i +:+ ".json")
  else path.

(** The index update of [save_sequence]: the entry of [name] is created
    or updated, and the index is written back. *)
Definition update_index (name path now : string) (fs : FileSystem)
  : outcome unit * FileSystem :=
  match _load_sequences_index now fs with
  | PDict idx =>
      match default (PDict []) (assoc_get "sequences" idx) with
      | PDict seqs =>
          let entry := default (PDict []) (assoc_get name seqs) in
          let entry' :=
            if negb (py_truthy entry)
            then Ret (PDict [("file", PStr path); ("created", PStr now);
                             ("updated", PStr now)])
            else match entry with
                 | PDict e =>
                     Ret (PDict (assoc_set "updated" (PStr now)
                                   (assoc_set "file" (PStr path) e)))
                 | _ => Raise "AttributeError: object has no attribute 'update'"
                 end in
          match entry' with
          | Raise e => (Raise e, fs)
          | Ret e =>
              _save_sequences_index
                (assoc_set "sequences" (PDict (assoc_set name e seqs)) idx) now fs
          end
      | _ => (Raise "AttributeError: object has no attribute 'get'", fs)
      end
  | _ => (Raise "AttributeError: object has no attribute 'get'", fs)
  end.

(** The length reported by [save_sequence]: the file is read back. *)
Definition saved_count (path : string) (fs : FileSystem) : pyval :=
  match read_json path fs with
  | Ret (PList data) => PInt (Z.of_nat (length data))
  | _ => PNone
  end.

(** [save_sequence(name, actions, file_path, overwrite)]; [now] is the
    reading of the clock during the call. *)
Definition save_sequence (name : string) (actions : option (list pyval))
    (file_path : option string) (overwrite : bool) (now : string) (p : Process)
  : outcome pyval * Process :=
  let with_fs fs' :=
    mkProcess (sessions p) (_recorder p) (_last_recorded_actions p) fs' in
  let name := strip name in
  if bool_decide (name = "") then (Ret (failure "Name is required"), p)
  else
    let chosen :=
      match actions with
      | Some a => Ret (Some a)
      | None =>
          match file_path with
          | None =>
              match _last_recorded_actions p with
              | Some ((_ :: _) as a) => Ret (Some a)
              | _ => Raise "No actions provided and no recent recording available"
              end
          | Some _ => Ret None
          end
      end in
    match chosen with
    | Raise e => (Ret (failure e), p)
    | Ret actions =>
        let target :=
          if str_truthy file_path then Ret (default "" file_path)
          else match mkdir SEQUENCES_DIR (fs p) with
               | Raise e => Raise e
               | Ret _ => Ret (default_path name overwrite (fs p))
               end in
        match target with
        | Raise e => (Raise e, p)
        | Ret path =>
            let written :=
              match actions with
              | Some a => write_json path (PList a) (fs p)
              | None => (Ret (), fs p)
              end in
            match written with
            | (Raise e, _) => (Ret (failure ("Failed to write file: " +:+ e)), p)
            | (Ret _, fs1) =>
                match update_index name path now fs1 with
                | (Raise e, fs2) => (Raise e, with_fs fs2)
                | (Ret _, fs2) =>
                    (Ret (PDict [("success", PBool true); ("name", PStr name);
                                 ("file", PStr path);
                                 ("count", saved_count path fs2)]), with_fs fs2)
                end
            end
        end
    end.

Section Runner.
Context {W : Type} `{WindowController W} `{InputInjector W}.

(** [run_actions_file(file_path, variables)] *)
Definition run_actions_file (file_path : string)
    (variables : option (gmap string Point)) (fs : FileSystem) (controller : W)
  : (pyval + ExecutionReport) * W :=
  if negb (path_exists file_path fs)
  then (inl (failure ("File not found: " +:+ file_path)), controller)
  else match read_json file_path fs with
       | Raise e => (inl (failure ("Failed to read file: " +:+ e)), controller)
       | Ret (PList actions) =>
           let '(r, c) := run_actions actions variables controller in (inr r, c)
       | Ret _ =>
           (inl (failure "Invalid sequence file (expected a list)"), controller)
       end.

End Runner.
End Storage.

(* ================================================================== *)
(** * The history of a process                                         *)
(* ================================================================== *)

Section Lifecycle.
Variable CACHE_DIR : string.
Variable SEQUENCES_DIR : string.

(** What can happen to the process state: a tool call that touches it,
    or an input event from the capture source. *)
Inductive Op : Type :=
| OpStart (default_window : option string) (focus_hotkeys : option (list pyval))
    (min_wait double_click_window : Z)
| OpStop (save_to_file : option string) (append : bool)
| OpSave (name : string) (actions : option (list pyval))
    (file_path : option string) (overwrite : bool) (now : string)
| OpEvent (ev : Event).

Definition apply_op (p : Process) (op : Op) : Process :=
  match op with
  | OpStart dw hk mw dcw => snd (start_action_recording dw hk mw dcw p)
  | OpStop save append => snd (stop_action_recording save append p)
  | OpSave name actions file_path overwrite now =>
      snd (save_sequence CACHE_DIR SEQUENCES_DIR name actions file_path overwrite now p)
  | OpEvent ev => deliver ev p
  end.

(** The state a fresh process reaches through a history. *)
Definition after (history : list Op) (fs0 : FileSystem) : Process :=
  fold_left apply_op history (initial_process fs0).

End Lifecycle.

(* ================================================================== *)
(** * A reference desktop                                              *)
(* ================================================================== *)

(** What a desktop was asked to do, in order. *)
Inductive Input : Type :=
| InCall (c : Call)
| InMove (p : Point)
| InClick (button : string)
| InSleep (ms : Z)
| InPrompt (var : string).

(** A desktop that keeps a log of its inputs.  It focuses a window it
    knows, accepts every key, and answers prompts from a list of points
    until the list runs out. *)
Record Desk : Type := mkDesk {
  desk_windows : list (string * WindowInfo);
  desk_last : option string;
  desk_log : list Input;
  desk_points : list Point
}.

Definition desk_target (n : option string) (d : Desk) : option string :=
  if str_truthy n then n else desk_last d.

Definition desk_logged (i : Input) (last : option string) (d : Desk) : Desk :=
  mkDesk (desk_windows d) last (desk_log d ++ [i]) (desk_points d).

Definition desk_focus (n : option string) (d : Desk) : outcome bool * Desk :=
  if has_key (default "" (desk_target n d)) (desk_windows d)
  then (Ret true, desk_logged (InCall (CallFocus n)) (desk_target n d) d)
  else (Ret false, desk_logged (InCall (CallFocus n)) (desk_last d) d).

Definition desk_prompt (var : string) (d : Desk) : option Point * Desk :=
  match desk_points d with
  | p :: ps =>
      (Some p, mkDesk (desk_windows d) (desk_last d)
                 (desk_log d ++ [InPrompt var]) ps)
  | [] => (None, desk_logged (InPrompt var) (desk_last d) d)
  end.

#[export] Instance desk_controller : WindowController Desk := {|
  window_map := desk_windows;
  last_used_window := desk_last;
  ctl_focus_window := desk_focus;
  ctl_send_keystrokes_to_window t n d :=
    (Ret (), desk_logged (InCall (CallKeystrokes t n)) (desk_target n d) d);
  ctl_send_key_to_window k n d :=
    (Ret (), desk_logged (InCall (CallKey k n)) (desk_target n d) d)
|}.

#[export] Instance desk_injector : InputInjector Desk := {|
  inj_move_to p d := (Ret (), desk_logged (InMove p) (desk_last d) d);
  inj_click b d := (Ret (), desk_logged (InClick b) (desk_last d) d);
  inj_sleep ms d := desk_logged (InSleep ms) (desk_last d) d;
  inj_prompt_point var _ d := desk_prompt var d
|}.

Definition no_info : WindowInfo := mkWindowInfo None None None.

(** A desktop that remembers one window, named editor. *)
Definition editor_desk : Desk := mkDesk [("editor", no_info)] None [] [].

(* ================================================================== *)
(** * Properties of reports and sequences                              *)
(* ================================================================== *)

(** A report of a run in which each of [n] steps succeeded. *)
Definition every_step_succeeded (n : nat) (r : ExecutionReport) : Prop :=
  success r = true ∧ failedAt r = None
  ∧ map step_index (steps r) = seq 0 n
  ∧ forallb step_success (steps r) = true.

(** A report of a run that failed at index [i]: the failing step is the
    last one reported, with its index and its error, and every step
    reported before it succeeded. *)
Definition failed_at (i : nat) (r : ExecutionReport) : Prop :=
  success r = false ∧ failedAt r = Some i
  ∧ ∃ good bad, steps r = good ++ [bad]
      ∧ forallb step_success good = true
      ∧ step_index bad = i ∧ step_success bad = false
      ∧ is_Some (step_error bad).

(** The report entry of the action at index [i] when it was carried
    out without error. *)
Definition step_ok (i : nat) (a : Action) : StepReport :=
  mkStep i (action_to_record a) true None.

(** The report entries of a list of actions that were all carried out
    without error, numbered from [i]. *)
Definition steps_ok (i : nat) (s : list Action) : list StepReport :=
  zip_with step_ok (seq i (length s)) s.

Section Attempts.
Context {W : Type} `{WindowController W} `{InputInjector W}.

(** The actions of a list are attempted one after the other, each in
    the environment and on the desktop the one before it left, and none
    of them fails: the environment and the desktop afterwards.  There is
    no result when one of them fails. *)
Fixpoint attempt_all (s : list Action) (env : gmap string Point) (w : W)
  : option (gmap string Point * W) :=
  match s with
  | [] => Some (env, w)
  | a :: s' =>
      match exec_action a env w with
      | (None, env1, w1) => attempt_all s' env1 w1
      | (Some _, _, _) => None
      end
  end.

End Attempts.

(** The calls that type a literal text into a window: the keystrokes of
    the text, then Enter when a newline is asked for. *)
Definition literal_text_script (text : string) (window_name : option string)
    (send_newline : bool) : list Call :=
  CallKeystrokes text window_name
    :: (if send_newline then [CallKey "enter" window_name] else []).

(** The window named in a call, if any, is one the controller knows. *)
Definition known_window `{WindowController W} (window_name : option string)
    (controller : W) : bool :=
  negb (str_truthy window_name)
  || has_key (default "" window_name) (window_map controller).

(** A whole recording: a new session is started, receives the events
    and is stopped; the result of the stop. *)
Definition record_session (cfg : Config) (events : list Event) : outcome (list pyval) :=
  fst (recorder_stop
         (fold_left (fun r ev => recorder_event ev r) events
            (snd (recorder_start (new_recorder cfg))))).

(** A click, as the recorder emits it. *)
Definition click_at (p : Point) (button : string) (count : positive) (interval : N)
  : Action :=
  Click (Some (AtPoint p)) button count interval.

(** Two presses of one button at one point: down and up, then down and
    up again. *)
Definition two_clicks (button : string) (p : Point) (d1 u1 d2 u2 : Z) : list Event :=
  [mkEvent (ButtonDown button p) d1; mkEvent (ButtonUp button p) u1;
   mkEvent (ButtonDown button p) d2; mkEvent (ButtonUp button p) u2].

(** Every session that records is the one [_recorder] refers to. *)
Definition sole_recorder (p : Process) : Prop :=
  ∀ i r, sessions p !! i = Some r → is_running r = true → _recorder p = Some i.

(** The response that rejects a second start. *)
Definition already_recording : StartResponse :=
  StartFailed "Recording already in progress".

(** The response that accepts a start. *)
Definition recording_started (default_window : option string)
    (focus_hotkeys : option (list pyval)) : StartResponse :=
  StartOk "Recording started. Call stop_action_recording to finish."
    default_window (hotkeys_to_map focus_hotkeys).

(** A field of a response dict. *)
Definition response_get (k : string) (resp : pyval) : option pyval :=
  match resp with
  | PDict d => assoc_get k d
  | _ => None
  end.

(** The sequence a session would hand over if it were stopped now. *)
Definition recorded (r : SequenceRecorder) : list pyval :=
  records_of_actions (emitted (flush (coalescer r))).

(** Saving the recording to [path] cannot succeed: the path cannot be
    written, or the list is to be appended to a file that is not JSON. *)
Definition save_fails (path : string) (append : bool) (fs : FileSystem) : Prop :=
  path ∈ denied fs
  ∨ (append = true ∧ ∃ s, files fs !! path = Some (TextFile s)).

(** The response of a stop whose save failed with error [e]. *)
Definition save_failed_response (e : string) (actions : list pyval) : pyval :=
  PDict [("success", PBool false);
         ("error", PStr ("Failed to save file: " +:+ e));
         ("actions", PList actions)].

(** The response of a [save_sequence] that went through. *)
Definition saved_response (name file : string) (count : pyval) : pyval :=
  PDict [("success", PBool true); ("name", PStr name); ("file", PStr file);
         ("count", count)].

(** A sequence of two actions, and a session that recorded one key. *)
Definition demo_sequence : list Action :=
  [FocusWindow "editor"; SendText "hi" None true].

Definition demo_recording : Process :=
  after "cache" "sequences"
    [OpStart None None 250 350;
     OpEvent (mkEvent (KeyDown (NamedKey "enter")) 10)]
    (mkFS ∅ ∅).

(** The session of [demo_recording]. *)
Definition demo_recorder : SequenceRecorder :=
  mkRecorder (mkConfig None ∅ 250 350) Recording
    (on_event (mkConfig None ∅ 250 350) (mkEvent (KeyDown (NamedKey "enter")) 10)
       (init_coalescer (mkConfig None ∅ 250 350))).

(** A session that was started and stopped with no input between. *)
Definition empty_recording : Process :=
  after "cache" "sequences" [OpStart None None 250 350; OpStop None false] (mkFS ∅ ∅).

(** The file tried for suffix [i] by the loop of [save_sequence]. *)
Definition suffixed (SEQUENCES_DIR slug : string) (i : Z) : string :=
  path_join SEQUENCES_DIR (slug +:+ "-" +:+ pretty i +:+ ".json").

(** The discriminator of a variant, and the fields it has. *)
Definition type_name (a : Action) : string :=
  match a with
  | FocusWindow _ => "focus_window"
  | MoveMouse _ => "move_mouse"
  | Hover _ _ => "hover"
  | Click _ _ _ _ => "click"
  | SendText _ _ _ => "send_text"
  | Key _ _ => "key"
  | Wait _ => "wait"
  | PromptPoint _ _ => "prompt_point"
  end.

Definition variant_fields (a : Action) : list string :=
  match a with
  | FocusWindow _ => ["name"]
  | MoveMouse _ => ["to"]
  | Hover _ _ => ["to"; "seconds"]
  | Click _ _ _ _ => ["to"; "button"; "count"; "interval"]
  | SendText _ _ _ => ["text"; "window"; "send_newline"]
  | Key _ _ => ["key"; "window"]
  | Wait _ => ["seconds"]
  | PromptPoint _ _ => ["var"; "message"]
  end.

(** A record carries the discriminator of the action and, besides it,
    fields of that variant only, none of them null. *)
Definition own_fields (a : Action) (v : pyval) : bool :=
  match v with
  | PDict d =>
      match assoc_get "type" d with
      | Some (PStr t) => String.eqb t (type_name a)
      | _ => false
      end
      && forallb (fun kv => String.eqb (fst kv) "type"
                            || (existsb (String.eqb (fst kv)) (variant_fields a)
                                && match snd kv with PNone => false | _ => true end))
           d
  | _ => false
  end.

(** The calls [send_text_to_window] makes once its guards have passed:
    the word escape stands for the Escape key, any other text is typed. *)
Definition sent_script (text : string) (window_name : option string)
    (send_newline : bool) : list Call :=
  if String.eqb text "escape" then [CallKey "escape" window_name]
  else literal_text_script text window_name send_newline.

(* ================================================================== *)
(** * Listing and remembering windows                                  *)
(* ================================================================== *)

(** [s or d] on an optional string. *)
Definition or_str (o : option string) (d : string) : string :=
  if str_truthy o then default "" o else d.

(** The dict [list_windows] builds for one remembered window. *)
Definition window_dict (last : option string) (entry : string * WindowInfo) : pyval :=
  PDict [("name", PStr (fst entry));
         ("title", PStr (or_str (title (snd entry)) "Unknown"));
         ("class", PStr (or_str (wm_class (snd entry)) "Unknown"));
         ("is_last_used", PBool (bool_decide (Some (fst entry) = last)))].

(** [x['is_last_used']], the sort key of [list_windows]. *)
Definition is_last_used (x : pyval) : bool :=
  match response_get "is_last_used" x with
  | Some (PBool b) => b
  | _ => false
  end.

(** [l.sort(key=key, reverse=True)] for a boolean key.  The sort of
    Python is stable, also when reversed; any stable sort gives the
    result of this insertion sort, which puts an element behind the
    elements whose key is not smaller. *)
Fixpoint insert_desc {A : Type} (key : A → bool) (x : A) (l : list A) : list A :=
  match l with
  | [] => [x]
  | y :: l' =>
      if negb (key y) && key x then x :: y :: l' else y :: insert_desc key x l'
  end.

Definition sort_desc {A : Type} (key : A → bool) (l : list A) : list A :=
  fold_left (fun sorted x => insert_desc key x sorted) l [].

Section Windows.
Context {W : Type} `{WindowController W}.

(** [list_windows()] *)
Definition list_windows (controller : W) : pyval :=
  let windows :=
    sort_desc is_last_used
      (map (window_dict (last_used_window controller)) (window_map controller)) in
  PDict [("success", PBool true);
         ("windows", PList windows);
         ("count", PInt (Z.of_nat (length windows)));
         ("last_used", PStr (or_str (last_used_window controller) "none"))].

End Windows.

(** The method [remember_window(name, wait_seconds)] of the controller
    of [window_control.py], as an interface: it answers whether the
    focused window was captured, or raises. *)
Class WindowCapture (W : Type) : Type := {
  ctl_remember_window : string → Z → W → outcome bool * W
}.

(** [list(info.position) if info.position else None] *)
Definition position_value (info : WindowInfo) : pyval :=
  match position info with
  | Some (x, y) => PList [PInt x; PInt y]
  | None => PNone
  end.

Section Remember.
Context {W : Type} `{WindowController W} `{WindowCapture W}.

(** [remember_window(name, wait_seconds)] *)
Definition remember_window (name : string) (wait_seconds : Z) (controller : W)
  : pyval * W :=
  let name := strip name in
  if bool_decide (name = "") then
    (failure "Window name cannot be empty", controller)
  else
    match ctl_remember_window name wait_seconds controller with
    | (Raise e, c1) => (failure e, c1)
    | (Ret ok, c1) =>
        match (if ok then assoc_get name (window_map c1) else None) with
        | Some info =>
            (PDict [("success", PBool true);
                    ("name", PStr name);
                    ("window",
                     PDict [("title", PStr (or_str (title info) "Unknown"));
                            ("class", PStr (or_str (wm_class info) "Unknown"));
                            ("position", position_value info)]);
                    ("message", PStr ("Successfully saved window '" +:+ name +:+ "'"))],
             c1)
        | None => (failure "Failed to capture window information", c1)
        end
    end.

End Remember.

(* ================================================================== *)
(** * Running and deleting named sequences                             *)
(* ================================================================== *)

(** [path.unlink()].  Whether a file may be removed is a matter of the
    directory that holds it, not of the file: [locked] are the paths
    whose removal is refused, whatever may be written to them. *)
Definition unlink (locked : gset string) (path : string) (fs : FileSystem)
  : outcome unit * FileSystem :=
  if bool_decide (path ∈ locked)
  then (Raise ("PermissionError: " +:+ path), fs)
  else (Ret (), mkFS (delete path (files fs)) (denied fs)).

(** [d.pop(k)]: the dict without the key.  The keys of a dict are
    unique; every binding of the key goes. *)
Fixpoint assoc_del {A : Type} (k : string) (d : list (string * A))
  : list (string * A) :=
  match d with
  | [] => []
  | (k', v) :: d' =>
      if String.eqb k' k then assoc_del k d' else (k', v) :: assoc_del k d'
  end.

(** [s in t] on strings: [s] occurs in [t]. *)
Fixpoint occurs (s t : string) : bool :=
  String.prefix s t
  || match t with
     | String _ t' => occurs s t'
     | EmptyString => false
     end.

(** [name in seqs] for whatever the index holds under [sequences]: a
    key of a dict, an element of a list, a part of a string; anything
    else cannot be searched. *)
Definition py_contains (name : string) (seqs : pyval) : outcome bool :=
  match seqs with
  | PDict d => Ret (has_key name d)
  | PList l =>
      Ret (existsb (fun v => match v with
                             | PStr s => String.eqb s name
                             | _ => false
                             end) l)
  | PStr s => Ret (occurs name s)
  | _ => Raise "TypeError: argument is not iterable"
  end.

Section NamedSequences.
Variable CACHE_DIR : string.

(** [delete_sequence(name, remove_file)]; [now] is the reading of the
    clock during the call, [locked] the paths that cannot be removed. *)
Definition delete_sequence (locked : gset string) (name : string)
    (remove_file : bool) (now : string) (fs : FileSystem)
  : outcome pyval * FileSystem :=
  match _load_sequences_index CACHE_DIR now fs with
  | PDict idx =>
      let seqs := default (PDict []) (assoc_get "sequences" idx) in
      match py_contains name seqs with
      | Raise e => (Raise e, fs)
      | Ret false => (Ret (failure ("No sequence named '" +:+ name +:+ "'")), fs)
      | Ret true =>
          match seqs with
          | PDict d =>
              let entry := default PNone (assoc_get name d) in
              match _save_sequences_index CACHE_DIR
                      (assoc_set "sequences" (PDict (assoc_del name d)) idx) now fs with
              | (Raise e, fs1) => (Raise e, fs1)
              | (Ret _, fs1) =>
                  if remove_file then
                    match entry with
                    | PDict e =>
                        let file := default PNone (assoc_get "file" e) in
                        if py_truthy file then
                          match file with
                          | PStr path =>
                              match (if path_exists path fs1
                                     then unlink locked path fs1
                                     else (Ret (), fs1)) with
                              | (Raise err, fs2) =>
                                  (Ret (failure ("Failed to delete file: " +:+ err)), fs2)
                              | (Ret _, fs2) =>
                                  (Ret (PDict [("success", PBool true);
                                               ("name", PStr name);
                                               ("removed_file", PStr path)]), fs2)
                              end
                          | _ => (Raise "TypeError: expected str or os.PathLike", fs1)
                          end
                        else
                          (Ret (PDict [("success", PBool true); ("name", PStr name);
                                       ("removed_file", PNone)]), fs1)
                    | _ => (Raise "AttributeError: object has no attribute 'get'", fs1)
                    end
                  else
                    (Ret (PDict [("success", PBool true); ("name", PStr name);
                                 ("removed_file", PNone)]), fs1)
              end
          | PList _ =>
              (Raise "TypeError: 'str' object cannot be interpreted as an integer", fs)
          | _ => (Raise "AttributeError: object has no attribute 'pop'", fs)
          end
      end
  | _ => (Raise "AttributeError: object has no attribute 'get'", fs)
  end.

Section NamedRunner.
Context {W : Type} `{WindowController W} `{InputInjector W}.

(** [run_sequence(name, variables)] *)
Definition run_sequence (name : string) (variables : option (gmap string Point))
    (now : string) (fs : FileSystem) (controller : W)
  : outcome (pyval + ExecutionReport) * W :=
  match _load_sequences_index CACHE_DIR now fs with
  | PDict idx =>
      match default (PDict []) (assoc_get "sequences" idx) with
      | PDict seqs =>
          let entry := default PNone (assoc_get name seqs) in
          if negb (py_truthy entry) then
            (Ret (inl (failure ("No sequence named '" +:+ name +:+ "'"))), controller)
          else
            match entry with
            | PDict e =>
                let file_path := default PNone (assoc_get "file" e) in
                if negb (py_truthy file_path) then
                  (Ret (inl (failure ("Sequence '" +:+ name +:+ "' has no file path"))),
                   controller)
                else
                  match file_path with
                  | PStr path =>
                      let '(r, c) := run_actions_file path variables fs controller in
                      (Ret r, c)
                  | _ => (Raise "TypeError: expected str or os.PathLike", controller)
                  end
            | _ => (Raise "AttributeError: object has no attribute 'get'", controller)
            end
      | _ => (Raise "AttributeError: object has no attribute 'get'", controller)
      end
  | _ => (Raise "AttributeError: object has no attribute 'get'", controller)
  end.

End NamedRunner.
End NamedSequences.

(* ================================================================== *)
(** * Properties of names and windows                                  *)
(* ================================================================== *)

(** The characters a slug is made of: [a-z0-9], the dash, the
    underscore and the dot. *)
Definition name_char (c : ascii) : bool :=
  slug_char c && negb (is_space c).

(** A reference desktop captures the focused window under the name it
    is given, unless the name is taken. *)
#[export] Instance desk_capture : WindowCapture Desk := {|
  ctl_remember_window name _ d :=
    if has_key name (desk_windows d) then (Ret false, d)
    else (Ret true,
          mkDesk (desk_windows d ++ [(name, no_info)]) (Some name)
            (desk_log d) (desk_points d))
|}.

(** The entry the sequences index holds for a name, if the index is a
    dict of dicts. *)
Definition index_entry (CACHE_DIR name now : string) (fs : FileSystem)
  : option pyval :=
  match _load_sequences_index CACHE_DIR now fs with
  | PDict idx =>
      match default (PDict []) (assoc_get "sequences" idx) with
      | PDict seqs => assoc_get name seqs
      | _ => None
      end
  | _ => None
  end.

(** The creation time an index entry gets when a sequence is saved at
    [now]: that of the entry it replaces, if there is one. *)
Definition created_after (old : option pyval) (now : string) : option pyval :=
  match old with
  | Some (PDict ((_ :: _) as e)) => assoc_get "created" e
  | _ => Some (PStr now)
  end.

(** The file [save_sequence] writes the actions to: the path it is
    given, or the default path of the name. *)
Definition save_target (SEQUENCES_DIR name : string) (file_path : option string)
    (overwrite : bool) (fs : FileSystem) : string :=
  if str_truthy file_path then default "" file_path
  else default_path SEQUENCES_DIR (strip name) overwrite fs.

(** A process in which the demo sequence has been saved under the name
    My Seq, and one in which the file out.json cannot be written. *)
Definition demo_saved : Process :=
  snd (save_sequence "cache" "sequences" " My Seq "
         (Some (records_of_actions demo_sequence)) None false "now"
         (initial_process (mkFS ∅ ∅))).

Definition protected_process : Process :=
  initial_process (mkFS ∅ {["out.json"]}).

(** The response of a [delete_sequence] that went through. *)
Definition deleted_response (name : string) (removed_file : pyval) : pyval :=
  PDict [("success", PBool true); ("name", PStr name);
         ("removed_file", removed_file)].


Definition two_saved : Process :=
  snd (save_sequence "cache" "sequences" "my seq" (Some []) None false "later"
         demo_saved).

(** [existing] after [if not isinstance(existing, list): existing = []] *)
Definition existing_list (v : pyval) : list pyval :=
  match v with
  | PList l => l
  | _ => []
  end.

(** A process that saved the demo sequence, then started a session
    that has seen one key. *)
Definition recording_after_save : Process :=
  after "cache" "sequences"
    [OpSave " My Seq " (Some (records_of_actions demo_sequence)) None false "now";
     OpStart None None 250 350;
     OpEvent (mkEvent (KeyDown (NamedKey "enter")) 10)]
    (mkFS ∅ ∅).

(** A call of [stop_action_recording]. *)
Definition is_stop (op : Op) : bool :=
  match op with
  | OpStop _ _ => true
  | _ => false
  end.

(** A process that has recorded one key and stopped. *)
Definition stopped_demo : Process :=
  after "cache" "sequences"
    [OpStart None None 250 350;
     OpEvent (mkEvent (KeyDown (NamedKey "enter")) 10);
     OpStop None false]
    (mkFS ∅ ∅).

(** A process whose sequences index cannot be opened for writing. *)
Definition index_protected : Process :=
  initial_process (mkFS ∅ {["cache/sequences_index.json"]}).

(* ================================================================== *)
(** * Records and actions                                              *)
(* ================================================================== *)

Lemma target_roundtrip (t : Target) :
  target_of_record (target_to_record t) = Some t.
Proof. destruct t as [[x y]|v]; reflexivity. Qed.

Lemma action_roundtrip (a : Action) :
  action_of_record (action_to_record a) = Some a.
Proof.
  destruct a as [name|to|to s|[to|] b c i|txt [w|] nl|k [w|]|s|v [m|]];
    cbn; rewrite ?target_roundtrip; cbn; try reflexivity.
  all: replace (0 <=? Z.of_N i) with true by (symmetry; apply Z.leb_le; lia).
  all: replace (1 <=? Z.pos c) with true by (symmetry; apply Z.leb_le; lia).
  all: cbn; rewrite N2Z.id; try destruct to as [[x y]|v]; reflexivity.
Qed.

Lemma actions_roundtrip (s : list Action) :
  actions_of_records (records_of_actions s) = Some s.
Proof.
  unfold actions_of_records, records_of_actions.
  induction s as [|a s IH]; [reflexivity|].
  cbn. rewrite action_roundtrip. cbn.
  by rewrite IH.
Qed.

Lemma validate_from_roundtrip (s : list Action) (i : nat) :
  validate_from i (records_of_actions s) = inr s.
Proof.
  revert i. induction s as [|a s IH]; intros i; [reflexivity|].
  cbn. rewrite action_roundtrip. unfold records_of_actions in IH.
  by rewrite IH.
Qed.

(* ================================================================== *)
(** * The execution engine                                             *)
(* ================================================================== *)

Lemma validate_from_inl (l : list pyval) (i j : nat) :
  validate_from i l = inl j →
  ∃ k, j = (i + k)%nat ∧ (k < length l)%nat
       ∧ validate_from i (take (S k) l) = inl j.
Proof.
  revert i. induction l as [|v l IH]; intros i Hv; [discriminate|].
  cbn in Hv. destruct (action_of_record v) as [a|] eqn:Ha.
  - destruct (validate_from (S i) l) as [j'|s] eqn:Hl; [|discriminate].
    injection Hv as ->. destruct (IH _ Hl) as (k & -> & Hk & Ht).
    exists (S k). split; [lia|]. split; [cbn; lia|].
    change (take (S (S k)) (v :: l)) with (v :: take (S k) l).
    cbn [validate_from]. rewrite Ha, Ht. f_equal.
  - injection Hv as <-. exists 0%nat. split; [lia|]. split; [cbn; lia|].
    cbn. by rewrite Ha.
Qed.

Lemma validate_from_inr (l : list pyval) (i : nat) (s : list Action) :
  validate_from i l = inr s →
  length s = length l
  ∧ ∀ n, validate_from i (take n l) = inr (take n s).
Proof.
  revert i s. induction l as [|v l IH]; intros i s Hv.
  - injection Hv as <-. split; [done|]. by intros [|n].
  - cbn in Hv. destruct (action_of_record v) as [a|] eqn:Ha; [|discriminate].
    destruct (validate_from (S i) l) as [j'|s'] eqn:Hl; [discriminate|].
    injection Hv as <-. destruct (IH _ _ Hl) as [Hlen Ht].
    split; [cbn; lia|]. intros [|n]; [done|].
    cbn. by rewrite Ha, Ht.
Qed.

Section EngineFacts.
Context {W : Type} `{WindowController W} `{InputInjector W}.

Lemma run_steps_ok (s : list Action) (i : nat) (env : gmap string Point)
    (w w' : W) (st : list StepReport) :
  run_steps i s env w = (st, None, w') →
  map step_index st = seq i (length s) ∧ forallb step_success st = true.
Proof.
  revert i env w st. induction s as [|a s IH]; intros i env w st Hr.
  - by injection Hr as <- _.
  - cbn in Hr. destruct (exec_action a env w) as [[[e|] env1] w1]; [discriminate|].
    destruct (run_steps (S i) s env1 w1) as [[rest f] w2] eqn:Hrest.
    injection Hr as <- -> ->. destruct (IH _ _ _ _ Hrest) as [Hi Hs].
    cbn. by rewrite Hi, Hs.
Qed.

Lemma run_steps_fail (s : list Action) (i j : nat) (env : gmap string Point)
    (w w' : W) (st : list StepReport) :
  run_steps i s env w = (st, Some j, w') →
  ∃ k good bad, j = (i + k)%nat ∧ (k < length s)%nat
    ∧ st = good ++ [bad] ∧ forallb step_success good = true
    ∧ step_index bad = j ∧ step_success bad = false ∧ is_Some (step_error bad)
    ∧ run_steps i (take (S k) s) env w = (st, Some j, w').
Proof.
  revert i env w st. induction s as [|a s IH]; intros i env w st Hr; [discriminate|].
  cbn in Hr. destruct (exec_action a env w) as [[[e|] env1] w1] eqn:Ha.
  - injection Hr as <- <- <-.
    exists 0%nat, [], (mkStep i (action_to_record a) false (Some e)).
    split_and!; try done; [cbn; lia|].
    cbn. by rewrite Ha.
  - destruct (run_steps (S i) s env1 w1) as [[rest f] w2] eqn:Hrest.
    injection Hr as <- -> ->.
    destruct (IH _ _ _ _ Hrest) as (k & good & bad & -> & Hk & -> & Hg & Hi & Hb & He & Ht).
    exists (S k), (mkStep i (action_to_record a) true None :: good), bad.
    split_and!; try done; try lia; [cbn; lia|].
    change (take (S (S k)) (a :: s)) with (a :: take (S k) s).
    cbn [run_steps]. by rewrite Ha, Ht.
Qed.

(** A run without a failure has attempted every action, in order, and
    reports each of them as carried out. *)
Lemma run_steps_clean (s : list Action) (i : nat) (env : gmap string Point)
    (w w' : W) (st : list StepReport) :
  run_steps i s env w = (st, None, w') →
  ∃ env', attempt_all s env w = Some (env', w') ∧ st = steps_ok i s.
Proof.
  revert i env w st. induction s as [|a s IH]; intros i env w st Hr.
  - injection Hr as <- <-. by exists env.
  - cbn in Hr. destruct (exec_action a env w) as [[[e|] env1] w1] eqn:Ha;
      [discriminate|].
    destruct (run_steps (S i) s env1 w1) as [[rest f] w2] eqn:Hrest.
    injection Hr as <- -> ->. destruct (IH _ _ _ _ Hrest) as (env' & Hall & ->).
    exists env'. cbn [attempt_all]. by rewrite Ha.
Qed.

(** A run with a failure has attempted the actions before the failing
    one without error, then the failing one, and nothing else: the
    desktop is as the failing action left it. *)
Lemma run_steps_first_failure (s : list Action) (i j : nat)
    (env : gmap string Point) (w w' : W) (st : list StepReport) :
  run_steps i s env w = (st, Some j, w') →
  ∃ k a env1 w1 e env2,
    j = (i + k)%nat ∧ s !! k = Some a
    ∧ attempt_all (take k s) env w = Some (env1, w1)
    ∧ exec_action a env1 w1 = (Some e, env2, w')
    ∧ st = steps_ok i (take k s) ++ [mkStep j (action_to_record a) false (Some e)].
Proof.
  revert i env w st. induction s as [|a s IH]; intros i env w st Hr; [discriminate|].
  cbn in Hr. destruct (exec_action a env w) as [[[e|] env1] w1] eqn:Ha.
  - injection Hr as <- <- <-. exists 0%nat, a, env, w, e, env1.
    split_and!; try done; lia.
  - destruct (run_steps (S i) s env1 w1) as [[rest f] w2] eqn:Hrest.
    injection Hr as <- -> ->.
    destruct (IH _ _ _ _ Hrest) as (k & b & env2 & w3 & e & env3 & -> & Hb & Hall & He & ->).
    exists (S k), b, env2, w3, e, env3. split_and!; try done; try lia.
    cbn [take attempt_all]. by rewrite Ha.
Qed.

(** C1 (modelled from the spec, [run_actions] delegating to the
    runner).  A run either reports success for every step: then every
    action was attempted in order, each on the desktop the one before
    left, and none failed.  Or it reports failure at the index of the
    first failing action: the actions before it were attempted without
    error, the action at the index failed with the error reported (or
    the record at the index is no action and nothing was attempted), and
    the desktop is as that action left it; the run is the run of the
    sequence cut off right behind that action, so nothing behind it was
    attempted. *)
Theorem run_actions_fail_fast (actions : list pyval)
    (variables : option (gmap string Point)) (w : W) :
  (every_step_succeeded (length actions) (fst (run_actions actions variables w))
   ∧ ∃ s env',
       validate actions = inr s
       ∧ attempt_all s (or_empty variables) w
         = Some (env', snd (run_actions actions variables w))
       ∧ steps (fst (run_actions actions variables w)) = steps_ok 0 s)
  ∨ ∃ i, (i < length actions)%nat
       ∧ failed_at i (fst (run_actions actions variables w))
       ∧ run_actions (take (S i) actions) variables w
         = run_actions actions variables w
       ∧ ((validate actions = inl i
           ∧ snd (run_actions actions variables w) = w
           ∧ steps (fst (run_actions actions variables w))
             = [mkStep i (default PNone (actions !! i)) false
                  (Some (InvalidAction "not an action"))])
          ∨ ∃ s a env1 w1 e env2,
              validate actions = inr s ∧ s !! i = Some a
              ∧ attempt_all (take i s) (or_empty variables) w = Some (env1, w1)
              ∧ exec_action a env1 w1
                = (Some e, env2, snd (run_actions actions variables w))
              ∧ steps (fst (run_actions actions variables w))
                = steps_ok 0 (take i s)
                  ++ [mkStep i (action_to_record a) false (Some e)]).
Proof.
  unfold run_actions, ActionRunner_run.
  destruct (validate actions) as [i|s] eqn:Hv; unfold validate in Hv.
  - right. destruct (validate_from_inl _ _ _ Hv) as (k & -> & Hk & Ht).
    cbn [Nat.add] in *. exists k. split; [done|]. split; [|split].
    + split_and!; try done. eexists [], _. split_and!; try done; by eexists.
    + unfold validate. rewrite Ht. do 3 f_equal.
      by rewrite lookup_take_lt by lia.
    + by left.
  - destruct (validate_from_inr _ _ _ Hv) as [Hlen Ht]. unfold run.
    destruct (run_steps 0 s (or_empty variables) w) as [[st [j|]] w'] eqn:Hr.
    + right. destruct (run_steps_first_failure _ _ _ _ _ _ _ Hr)
        as (k' & a & env1 & w1 & e & env2 & Hk' & Ha & Hall & He' & Hst).
      cbn [Nat.add] in Hk'. subst k'.
      destruct (run_steps_fail _ _ _ _ _ _ _ Hr)
        as (k & good & bad & Hjk & Hk & Hgb & Hg & Hi & Hb & He & Hcut).
      cbn [Nat.add] in Hjk. subst k.
      exists j. split; [lia|]. split; [|split].
      * split_and!; try done. by exists good, bad.
      * unfold validate. rewrite Ht. unfold run. by rewrite Hcut.
      * right. by exists s, a, env1, w1, e, env2.
    + left. destruct (run_steps_ok _ _ _ _ _ _ Hr) as [Hi Hs].
      split.
      * split_and!; try done. cbn. by rewrite Hi, Hlen.
      * destruct (run_steps_clean _ _ _ _ _ _ Hr) as (env' & Hall & ->).
        by exists s, env'.
Qed.

End EngineFacts.

(** The scenarios of the specification.  With the editor present both
    steps succeed; without it the run fails at index 0; an unbound
    variable fails the move at index 0 and nothing reaches the desktop. *)
Example run_editor_present :
  fst (run_actions (records_of_actions demo_sequence) None editor_desk)
  = mkReport true
      [mkStep 0 (action_to_record (FocusWindow "editor")) true None;
       mkStep 1 (action_to_record (SendText "hi" None true)) true None]
      None.
Proof. reflexivity. Qed.

Example run_editor_missing :
  fst (run_actions (records_of_actions demo_sequence) None
         (mkDesk [("other", no_info)] None [] []))
  = mkReport false
      [mkStep 0 (action_to_record (FocusWindow "editor")) false
         (Some (CollaboratorFailure "Failed to focus window 'editor'"))]
      (Some 0%nat)
  ∧ desk_log (snd (run_actions (records_of_actions demo_sequence) None
                     (mkDesk [("other", no_info)] None [] [])))
    = [InCall (CallFocus (Some "editor"))].
Proof. split; reflexivity. Qed.

Example run_unbound_variable :
  run_actions [action_to_record (MoveMouse (AtVar "p1"))] None editor_desk
  = (mkReport false
       [mkStep 0 (action_to_record (MoveMouse (AtVar "p1"))) false
          (Some (UnboundVariable "p1"))]
       (Some 0%nat), editor_desk).
Proof. reflexivity. Qed.

(* ================================================================== *)
(** * Sending text                                                     *)
(* ================================================================== *)

Section ControllerFacts.
Context {W : Type} `{WindowController W}.

Lemma known_window_passes (window_name : option string) (c : W) :
  known_window window_name c = true →
  str_truthy window_name
  && negb (has_key (default "" window_name) (window_map c)) = false.
Proof.
  unfold known_window. intros [Hk|Hk]%orb_true_iff.
  - apply negb_true_iff in Hk. by rewrite Hk.
  - rewrite Hk. by rewrite andb_false_r.
Qed.

Lemma send_text_guards (text : string) (window_name : option string)
    (send_newline : bool) (c : W) :
  window_map c = [] ∨ known_window window_name c = false →
  snd (send_text_to_window text window_name send_newline c) = c
  ∧ py_success (fst (send_text_to_window text window_name send_newline c)) = false.
Proof.
  unfold send_text_to_window, known_window. intros [Hm|Hk].
  - by rewrite bool_decide_true.
  - case_bool_decide; [done|].
    apply orb_false_iff in Hk as [Hs Hk]. apply negb_false_iff in Hs.
    by rewrite Hs, Hk.
Qed.

Lemma send_text_sent (text : string) (window_name : option string)
    (send_newline : bool) (c : W) :
  window_map c ≠ [] → known_window window_name c = true →
  snd (send_text_to_window text window_name send_newline c)
  = snd (perform (sent_script text window_name send_newline) c)
  ∧ (py_success (fst (send_text_to_window text window_name send_newline c)) = true
     ↔ fst (perform (sent_script text window_name send_newline) c) = Ret ()).
Proof.
  unfold send_text_to_window, sent_script, literal_text_script.
  intros Hm Hk. rewrite bool_decide_false by done.
  rewrite (known_window_passes _ _ Hk).
  destruct (String.eqb text "escape"); cbn.
  - by destruct (ctl_send_key_to_window "escape" window_name c) as [[[]|e] c1].
  - destruct (ctl_send_keystrokes_to_window text window_name c) as [[[]|e] c1];
      [|by split].
    destruct send_newline; cbn; [|by split].
    by destruct (ctl_send_key_to_window "enter" window_name c1) as [[[]|e] c2].
Qed.

(** C2, as amended.  When no window is remembered or the named window
    is unknown, nothing is sent and the call fails.  Otherwise the call
    has the effect of its script on the controller and reports success
    iff no call of the script raised; and for every text other than the
    word escape the script types the literal text and then presses Enter
    iff a newline was asked for, while for the word escape it is the
    Escape key alone. *)
Theorem send_text_types_literal_text (text : string)
    (window_name : option string) (send_newline : bool) (c : W) :
  (window_map c = [] ∨ known_window window_name c = false →
   snd (send_text_to_window text window_name send_newline c) = c
   ∧ py_success (fst (send_text_to_window text window_name send_newline c)) = false)
  ∧ (window_map c ≠ [] → known_window window_name c = true →
     snd (send_text_to_window text window_name send_newline c)
     = snd (perform (sent_script text window_name send_newline) c)
     ∧ (py_success (fst (send_text_to_window text window_name send_newline c)) = true
        ↔ fst (perform (sent_script text window_name send_newline) c) = Ret ()))
  ∧ (text ≠ "escape" →
     sent_script text window_name send_newline
     = literal_text_script text window_name send_newline)
  ∧ sent_script "escape" window_name send_newline = [CallKey "escape" window_name].
Proof.
  split_and!; [apply send_text_guards|apply send_text_sent| |done].
  intros Ht%String.eqb_neq. unfold sent_script. by rewrite Ht.
Qed.

End ControllerFacts.

(** The amended C2 at work: the text hi goes to the editor, followed by
    Enter. *)
Lemma send_text_types_literal_text_witness :
  "hi" ≠ "escape" ∧ window_map editor_desk ≠ []
  ∧ known_window (Some "editor") editor_desk = true
  ∧ desk_log (snd (send_text_to_window "hi" (Some "editor") true editor_desk))
    = [InCall (CallKeystrokes "hi" (Some "editor"));
       InCall (CallKey "enter" (Some "editor"))]
  ∧ py_success (fst (send_text_to_window "hi" (Some "editor") true editor_desk))
    = true.
Proof.
  destruct (send_text_types_literal_text "hi" (Some "editor") true editor_desk)
    as (_ & Hsent & Hscript & _).
  destruct (Hsent ltac:(done) eq_refl) as [Heffect Hok].
  rewrite (Hscript ltac:(done)) in Heffect, Hok.
  split_and!; [done|done|done| |].
  - rewrite Heffect. reflexivity.
  - apply Hok. reflexivity.
Defined.

(** C2, as stated, fails for the text escape: it is not typed, and no
    Enter is pressed although a newline was asked for. *)
Lemma send_text_escape_counterexample :
  desk_log (snd (send_text_to_window "escape" (Some "editor") true editor_desk))
  = [InCall (CallKey "escape" (Some "editor"))]
  ∧ desk_log (snd (perform (literal_text_script "escape" (Some "editor") true)
                     editor_desk))
    = [InCall (CallKeystrokes "escape" (Some "editor"));
       InCall (CallKey "enter" (Some "editor"))]
  ∧ snd (send_text_to_window "escape" (Some "editor") true editor_desk)
    ≠ snd (perform (literal_text_script "escape" (Some "editor") true) editor_desk).
Proof. split_and!; [reflexivity|reflexivity|discriminate]. Qed.

(* ================================================================== *)
(** * The coalescer                                                    *)
(* ================================================================== *)

Lemma adjacent_waits_snoc (l : list Action) (a : Action) :
  adjacent_waits (l ++ [a])
  = adjacent_waits l
    || match last l with
       | Some b => is_wait b && is_wait a
       | None => false
       end.
Proof.
  induction l as [|b l IH]; [reflexivity|].
  destruct l as [|c l].
  - cbn. by rewrite !orb_false_r.
  - change (adjacent_waits ((b :: c :: l) ++ [a]))
      with ((is_wait b && is_wait c) || adjacent_waits ((c :: l) ++ [a])).
    rewrite IH. change (last (b :: c :: l)) with (last (c :: l)).
    change (adjacent_waits (b :: c :: l))
      with ((is_wait b && is_wait c) || adjacent_waits (c :: l)).
    by rewrite orb_assoc.
Qed.

Lemma adjacent_waits_snoc_action (l : list Action) (a : Action) :
  is_wait a = false → adjacent_waits l = false →
  adjacent_waits (l ++ [a]) = false.
Proof.
  intros Ha Hl. rewrite adjacent_waits_snoc, Hl, Ha.
  destruct (last l); [by rewrite andb_false_r|done].
Qed.

Lemma adjacent_waits_emit_wait (gap : Z) (l : list Action) :
  adjacent_waits l = false → adjacent_waits (emit_wait gap l) = false.
Proof.
  intros Hl. unfold emit_wait. destruct (last l) as [b|] eqn:Hlast.
  - destruct (is_wait b) eqn:Hb.
    + destruct b; try discriminate.
      apply last_Some in Hlast as [l' ->]. rewrite removelast_last.
      rewrite adjacent_waits_snoc in Hl |- *. exact Hl.
    + assert (adjacent_waits (l ++ [Wait gap]) = false) as Hgoal.
      { rewrite adjacent_waits_snoc, Hl, Hlast, Hb. done. }
      by destruct b.
  - by rewrite adjacent_waits_snoc, Hl, Hlast.
Qed.

Lemma flush_no_adjacent_waits (st : Coalescer) :
  adjacent_waits (emitted st) = false →
  adjacent_waits (emitted (flush st)) = false.
Proof.
  intros Hst. unfold flush.
  destruct (pending st) as [|p ts|b p n iv ts|s w ts]; [done|..]; cbn;
    apply adjacent_waits_snoc_action; try done.
  by destruct (String.length s =? 1)%nat.
Qed.

Lemma idle_gap_no_adjacent_waits (cfg : Config) (t : Z) (st : Coalescer) :
  adjacent_waits (emitted st) = false →
  adjacent_waits (emitted (idle_gap cfg t st)) = false.
Proof.
  intros Hst. unfold idle_gap. destruct (last_ts st) as [t0|]; [|done].
  destruct (min_wait cfg <? t - t0); [|done].
  by apply adjacent_waits_emit_wait.
Qed.

Lemma begin_no_adjacent_waits (cfg : Config) (t : Z) (st : Coalescer) :
  adjacent_waits (emitted st) = false →
  adjacent_waits (emitted (begin cfg t st)) = false.
Proof.
  intros Hst. by apply idle_gap_no_adjacent_waits, flush_no_adjacent_waits.
Qed.

Lemma on_event_no_adjacent_waits (cfg : Config) (ev : Event) (st : Coalescer) :
  adjacent_waits (emitted st) = false →
  adjacent_waits (emitted (on_event cfg ev st)) = false.
Proof.
  intros Hst. unfold on_event.
  pose proof (begin_no_adjacent_waits cfg) as Hb.
  destruct (payload ev) as [p|b p|b p|k|k]; try done.
  - destruct (pending st); cbn; by try apply Hb.
  - destruct (pressed st) as [[[b' p'] td]|]; [|done].
    destruct (String.eqb b b'); [|done]. cbn.
    destruct (pending st) as [|?|pb pp n iv ts|?]; cbn; try by apply Hb.
    destruct (String.eqb pb b && point_eqb pp p' && (td - ts <? double_click_window cfg));
      cbn; [done|by apply Hb].
  - destruct (hotkey cfg k) as [name|].
    + cbn. apply adjacent_waits_snoc_action; [done|by apply Hb].
    + destruct k as [fn|c|name]; cbn.
      * apply adjacent_waits_snoc_action; [done|by apply Hb].
      * destruct (pending st) as [| | |s w ts]; cbn; try by apply Hb.
        destruct (timestamp ev - ts <? min_wait cfg); cbn; [done|by apply Hb].
      * apply adjacent_waits_snoc_action; [done|by apply Hb].
Qed.

Lemma feed_no_adjacent_waits (cfg : Config) (events : list Event) (st : Coalescer) :
  adjacent_waits (emitted st) = false →
  adjacent_waits (emitted (feed cfg events st)) = false.
Proof.
  revert st. induction events as [|ev events IH]; intros st Hst; [done|].
  apply IH. by apply on_event_no_adjacent_waits.
Qed.

(** The recording scenario of the specification, in milliseconds: a
    move, two quick clicks and, after a long pause, a key. *)
Example coalesce_scenario :
  coalesce (mkConfig None ∅ 250 350)
    [mkEvent (Move (mkPoint 10 10)) 0;
     mkEvent (ButtonDown "left" (mkPoint 10 10)) 100;
     mkEvent (ButtonUp "left" (mkPoint 10 10)) 100;
     mkEvent (ButtonDown "left" (mkPoint 10 10)) 200;
     mkEvent (ButtonUp "left" (mkPoint 10 10)) 200;
     mkEvent (KeyDown (CharKey "a")) 2000]
  = [MoveMouse (AtPoint (mkPoint 10 10)); click_at (mkPoint 10 10) "left" 2 100;
     Wait 1800; Key "a" None].
Proof. reflexivity. Qed.

(** A configured function key becomes a focus action, never a key, and
    tags the keys that follow with its window. *)
Example coalesce_hotkey :
  coalesce (mkConfig None {[1 := "bot"]} 250 350)
    [mkEvent (KeyDown (FKey 1)) 0; mkEvent (KeyDown (NamedKey "enter")) 100]
  = [FocusWindow "bot"; Key "enter" (Some "bot")].
Proof. reflexivity. Qed.

Lemma adjacent_waits_spec (l : list Action) :
  adjacent_waits l = false
  ↔ ∀ i a b, l !! i = Some a → l !! S i = Some b → is_wait a && is_wait b = false.
Proof.
  induction l as [|a l IH]; [done|]. destruct l as [|b l].
  - split; [|done]. by intros _ [|i] ???.
  - change (adjacent_waits (a :: b :: l))
      with ((is_wait a && is_wait b) || adjacent_waits (b :: l)).
    rewrite orb_false_iff, IH. split.
    + intros [Hab Hl] [|i] x y Hx Hy.
      * by injection Hx as <-; injection Hy as <-.
      * by apply (Hl i).
    + intros Hl. split; [by apply (Hl 0%nat)|].
      intros i x y Hx Hy. by apply (Hl (S i)).
Qed.

Lemma recording_feed (cfg : Config) (events : list Event) (st : Coalescer) :
  fold_left (fun r ev => recorder_event ev r) events (mkRecorder cfg Recording st)
  = mkRecorder cfg Recording (feed cfg events st).
Proof.
  revert st. induction events as [|ev events IH]; intros st; [done|].
  cbn [fold_left].
  change (recorder_event ev (mkRecorder cfg Recording st))
    with (mkRecorder cfg Recording (on_event cfg ev st)).
  apply IH.
Qed.

Lemma record_session_coalesce (cfg : Config) (events : list Event) :
  record_session cfg events = Ret (records_of_actions (coalesce cfg events)).
Proof. unfold record_session. cbn. by rewrite recording_feed. Qed.

(** C5 (modelled from the spec).  Whatever the raw event stream, a
    recording session returns on stop the sequence the coalescer
    emitted, and that sequence has no two waits next to each other. *)
Theorem recording_no_adjacent_waits (cfg : Config) (events : list Event) :
  record_session cfg events = Ret (records_of_actions (coalesce cfg events))
  ∧ adjacent_waits (coalesce cfg events) = false.
Proof.
  split; [apply record_session_coalesce|].
  unfold coalesce. by apply flush_no_adjacent_waits, feed_no_adjacent_waits.
Qed.

Lemma point_eqb_refl (p : Point) : point_eqb p p = true.
Proof. unfold point_eqb. by rewrite !Z.eqb_refl. Qed.

(** C6 (modelled from the spec).  Two presses of one button at one
    point, the second starting [g] after the first ended: below the
    double-click window they are one click of count two; from the
    window on they are two clicks of count one, with a wait between
    them when the gap also exceeds the idle threshold. *)
Theorem click_merge (cfg : Config) (button : string) (p : Point) (d1 u1 d2 u2 : Z) :
  (d2 - u1 < double_click_window cfg →
   coalesce cfg (two_clicks button p d1 u1 d2 u2)
   = [click_at p button 2 (Z.to_N (d2 - u1))])
  ∧ (double_click_window cfg ≤ d2 - u1 →
     coalesce cfg (two_clicks button p d1 u1 d2 u2)
     = click_at p button 1 0
         :: (if min_wait cfg <? d2 - u1 then [Wait (d2 - u1)] else [])
         ++ [click_at p button 1 0]).
Proof.
  unfold coalesce, two_clicks, feed, click_at. cbn.
  rewrite !String.eqb_refl. cbn. rewrite String.eqb_refl, point_eqb_refl. cbn.
  split; intros Hg.
  - apply Z.ltb_lt in Hg. rewrite Hg. reflexivity.
  - apply Z.ltb_ge in Hg. rewrite Hg. cbn.
    unfold idle_gap. cbn. by destruct (min_wait cfg <? d2 - u1).
Qed.

(** C6 at the numbers of the specification: a window of 350 ms, and
    gaps of 100 ms and of 400 ms. *)
Lemma click_merge_witness :
  coalesce (mkConfig None ∅ 250 350) (two_clicks "left" (mkPoint 10 10) 100 100 200 200)
  = [click_at (mkPoint 10 10) "left" 2 100]
  ∧ coalesce (mkConfig None ∅ 250 350) (two_clicks "left" (mkPoint 10 10) 100 100 500 500)
    = [click_at (mkPoint 10 10) "left" 1 0; Wait 400;
       click_at (mkPoint 10 10) "left" 1 0].
Proof.
  split.
  - apply (proj1 (click_merge (mkConfig None ∅ 250 350) "left" (mkPoint 10 10)
                    100 100 200 200)). done.
  - apply (proj2 (click_merge (mkConfig None ∅ 250 350) "left" (mkPoint 10 10)
                    100 100 500 500)). done.
Defined.

(* ================================================================== *)
(** * The recording lifecycle                                          *)
(* ================================================================== *)

Lemma recorder_stop_running (r : SequenceRecorder) :
  is_running r = true →
  recorder_stop r
  = (Ret (recorded r), mkRecorder (config r) Idle (init_coalescer (config r))).
Proof.
  unfold is_running, recorder_stop, recorded. by destruct (state r).
Qed.

Lemma recorder_event_running (ev : Event) (r : SequenceRecorder) :
  is_running (recorder_event ev r) = is_running r.
Proof.
  unfold recorder_event. by destruct (is_running r) eqn:Hr.
Qed.

Lemma recording_current (p : Process) :
  recording p = true →
  ∃ i r, _recorder p = Some i ∧ sessions p !! i = Some r ∧ is_running r = true.
Proof.
  unfold recording, current_recorder.
  destruct (_recorder p) as [i|]; [|done]. cbn.
  destruct (sessions p !! i) as [r|] eqn:Hr; [|done]. by exists i, r.
Qed.

Lemma current_recorder_Some (p : Process) (r : SequenceRecorder) :
  current_recorder p = Some r →
  ∃ i, _recorder p = Some i ∧ sessions p !! i = Some r.
Proof.
  unfold current_recorder. destruct (_recorder p) as [i|]; [|done].
  by exists i.
Qed.

Lemma sole_recorder_idle (p : Process) :
  sole_recorder p → recording p = false →
  ∀ i r, sessions p !! i = Some r → is_running r = false.
Proof.
  intros Hsole Hrec i r Hi. destruct (is_running r) eqn:Hr; [|done].
  pose proof (Hsole i r Hi Hr) as Hcur.
  unfold recording, current_recorder in Hrec. rewrite Hcur in Hrec. cbn in Hrec.
  rewrite Hi in Hrec. congruence.
Qed.

Lemma start_when_recording (dw : option string) (hk : option (list pyval))
    (mw dcw : Z) (p : Process) :
  recording p = true →
  start_action_recording dw hk mw dcw p = (Ret already_recording, p).
Proof. unfold start_action_recording. by intros ->. Qed.

Lemma start_when_idle (dw : option string) (hk : option (list pyval))
    (mw dcw : Z) (p : Process) :
  recording p = false →
  start_action_recording dw hk mw dcw p
  = (Ret (recording_started dw hk),
     mkProcess
       (sessions p
          ++ [mkRecorder (mkConfig dw (hotkeys_to_map hk) mw dcw) Recording
                (init_coalescer (mkConfig dw (hotkeys_to_map hk) mw dcw))])
       (Some (length (sessions p))) (_last_recorded_actions p) (fs p)).
Proof. unfold start_action_recording. by intros ->. Qed.

Lemma stop_when_idle (save : option string) (append : bool) (p : Process) :
  recording p = false →
  stop_action_recording save append p = (Ret (failure "No active recording"), p).
Proof.
  unfold stop_action_recording, recording, current_recorder.
  destruct (_recorder p) as [i|]; [|done]. cbn.
  destruct (sessions p !! i) as [r|]; [|done]. by intros ->.
Qed.

(** What a stop leaves behind when a session records: the session is
    idle again, [_recorder] is cleared and the sequence is kept. *)
Lemma stop_when_recording (save : option string) (append : bool) (p : Process)
    (i : nat) (r : SequenceRecorder) :
  _recorder p = Some i → sessions p !! i = Some r → is_running r = true →
  ∃ resp fs',
    stop_action_recording save append p
    = (Ret resp,
       mkProcess
         (<[i := mkRecorder (config r) Idle (init_coalescer (config r))]> (sessions p))
         None (Some (recorded r)) fs')
    ∧ response_get "actions" resp = Some (PList (recorded r)).
Proof.
  intros Hi Hr Hrun. unfold stop_action_recording, current_recorder.
  rewrite Hi. cbn. rewrite Hr, Hrun, (recorder_stop_running _ Hrun).
  destruct (str_truthy save); [|by eexists _, _].
  destruct (if append && path_exists (default "" save) (fs p) then _ else _)
    as [l|e]; [|by eexists _, _].
  destruct (write_json (default "" save) (PList l) (fs p)) as [[[]|e] fs'];
    by eexists _, _.
Qed.

Lemma save_sequence_fs (CACHE_DIR SEQUENCES_DIR name : string)
    (actions : option (list pyval)) (file_path : option string)
    (overwrite : bool) (now : string) (p : Process) :
  ∃ fs', snd (save_sequence CACHE_DIR SEQUENCES_DIR name actions file_path
                overwrite now p)
         = mkProcess (sessions p) (_recorder p) (_last_recorded_actions p) fs'.
Proof.
  unfold save_sequence. destruct p as [ss rc la f]. cbn.
  repeat case_match; cbn; by eexists.
Qed.

Section Invariant.
Variable CACHE_DIR : string.
Variable SEQUENCES_DIR : string.

Lemma apply_op_sole_recorder (op : Op) (p : Process) :
  sole_recorder p → sole_recorder (apply_op CACHE_DIR SEQUENCES_DIR p op).
Proof.
  intros Hsole. destruct op as [dw hk mw dcw|save append|name acts path ow now|ev]; cbn.
  - destruct (recording p) eqn:Hrec.
    + by rewrite start_when_recording.
    + rewrite start_when_idle by done. intros i r Hi Hrun. cbn in *.
      destruct (decide (i < length (sessions p))%nat) as [Hlt|Hge].
      * rewrite lookup_app_l in Hi by done.
        by rewrite (sole_recorder_idle p Hsole Hrec i r Hi) in Hrun.
      * rewrite lookup_app_r in Hi by lia.
        destruct (i - length (sessions p))%nat as [|n] eqn:Hn; [|done].
        f_equal. lia.
  - destruct (recording p) eqn:Hrec.
    + destruct (recording_current p Hrec) as (i & r & Hi & Hr & Hrun).
      destruct (stop_when_recording save append p i r Hi Hr Hrun)
        as (resp & fs' & -> & _).
      intros j r' Hj Hrun'. cbn in *.
      destruct (decide (i = j)) as [->|Hne].
      * rewrite list_lookup_insert_eq in Hj by (by eapply lookup_lt_Some).
        by injection Hj as <-.
      * rewrite list_lookup_insert_ne in Hj by done.
        pose proof (Hsole j r' Hj Hrun') as Hcur. congruence.
    + by rewrite stop_when_idle.
  - destruct (save_sequence_fs CACHE_DIR SEQUENCES_DIR name acts path ow now p)
      as [fs' ->].
    exact Hsole.
  - intros i r Hi Hrun. cbn in *.
    rewrite list_lookup_fmap in Hi.
    destruct (sessions p !! i) as [r0|] eqn:Hr0; [|done].
    injection Hi as <-. rewrite recorder_event_running in Hrun.
    by apply (Hsole i r0).
Qed.

Lemma after_sole_recorder (history : list Op) (fs0 : FileSystem) :
  sole_recorder (after CACHE_DIR SEQUENCES_DIR history fs0).
Proof.
  unfold after.
  assert (sole_recorder (initial_process fs0)) as Hinit by (by intros i r Hi).
  revert Hinit. generalize (initial_process fs0).
  induction history as [|op history IH]; intros p Hp; [done|].
  cbn. apply IH. by apply apply_op_sole_recorder.
Qed.

End Invariant.

Lemma filter_at_most_one {A : Type} (P : A → Prop) `{∀ x, Decision (P x)}
    (l : list A) (i : nat) :
  (∀ j x, l !! j = Some x → P x → j = i) → (length (filter P l) ≤ 1)%nat.
Proof.
  revert i. induction l as [|a l IH]; intros i Hl; [cbn; lia|].
  rewrite filter_cons. destruct (decide (P a)) as [Ha|Ha].
  - assert (filter P l = []) as ->; [|cbn; lia].
    destruct (filter P l) as [|x l'] eqn:Hf; [done|].
    assert (x ∈ filter P l) as Hx by (rewrite Hf; left).
    apply list_elem_of_filter in Hx as [Px Hx].
    apply list_elem_of_lookup in Hx as [j Hj].
    pose proof (Hl 0%nat a eq_refl Ha) as H0.
    pose proof (Hl (S j) x Hj Px) as HS. lia.
  - apply (IH (pred i)). intros j x Hj Px.
    pose proof (Hl (S j) x Hj Px) as HS. lia.
Qed.

Lemma sole_recorder_active (p : Process) :
  sole_recorder p →
  (active_sessions p ≤ 1)%nat
  ∧ (recording p = true ↔ active_sessions p = 1%nat).
Proof.
  intros Hsole. unfold active_sessions.
  assert (length (filter (λ r, is_running r = true) (sessions p)) ≤ 1)%nat as Hle.
  { destruct (_recorder p) as [i|] eqn:Hrec.
    - apply (filter_at_most_one _ _ i). intros j r Hj Hr.
      pose proof (Hsole j r Hj Hr). congruence.
    - apply (filter_at_most_one _ _ 0%nat). intros j r Hj Hr.
      pose proof (Hsole j r Hj Hr). congruence. }
  split; [done|]. split.
  - intros Hrec. destruct (recording_current p Hrec) as (i & r & Hi & Hr & Hrun).
    assert (r ∈ filter (λ r, is_running r = true) (sessions p)) as Hin.
    { apply list_elem_of_filter. split; [done|]. by eapply list_elem_of_lookup_2. }
    destruct (filter _ (sessions p)); [by apply not_elem_of_nil in Hin|].
    cbn in *. lia.
  - intros Hone.
    destruct (filter (λ r, is_running r = true) (sessions p)) as [|r l] eqn:Hf;
      [done|].
    assert (r ∈ filter (λ r, is_running r = true) (sessions p)) as Hin
        by (rewrite Hf; left).
    apply list_elem_of_filter in Hin as [Hrun Hin].
    apply list_elem_of_lookup in Hin as [i Hi].
    unfold recording, current_recorder. rewrite (Hsole i r Hi Hrun). cbn.
    by rewrite Hi.
Qed.

(** C3.  In every state a process can reach, at most one session is
    recording, and it is the one the guard of [start_action_recording]
    looks at; while it records, a start is rejected and leaves the
    process as it is: no session is created, [_recorder] is not
    replaced, and the active session keeps recording. *)
Theorem start_rejected_while_recording (CACHE_DIR SEQUENCES_DIR : string)
    (history : list Op) (fs0 : FileSystem)
    (dw : option string) (hk : option (list pyval)) (mw dcw : Z) :
  (active_sessions (after CACHE_DIR SEQUENCES_DIR history fs0) ≤ 1)%nat
  ∧ (recording (after CACHE_DIR SEQUENCES_DIR history fs0) = true
     ↔ active_sessions (after CACHE_DIR SEQUENCES_DIR history fs0) = 1%nat)
  ∧ (recording (after CACHE_DIR SEQUENCES_DIR history fs0) = true →
     start_action_recording dw hk mw dcw (after CACHE_DIR SEQUENCES_DIR history fs0)
     = (Ret already_recording, after CACHE_DIR SEQUENCES_DIR history fs0)).
Proof.
  pose proof (after_sole_recorder CACHE_DIR SEQUENCES_DIR history fs0) as Hsole.
  destruct (sole_recorder_active _ Hsole) as [Hle Hiff].
  split_and!; [done|done|]. apply start_when_recording.
Qed.

(** C3 at work: a session is started and has seen a key; a second start
    is rejected and changes nothing. *)
Lemma start_rejected_while_recording_witness :
  recording (after "cache" "sequences"
               [OpStart None None 250 350;
                OpEvent (mkEvent (KeyDown (NamedKey "enter")) 10)]
               (mkFS ∅ ∅)) = true
  ∧ start_action_recording (Some "bot") None 100 100
      (after "cache" "sequences"
         [OpStart None None 250 350;
          OpEvent (mkEvent (KeyDown (NamedKey "enter")) 10)]
         (mkFS ∅ ∅))
    = (Ret already_recording,
       after "cache" "sequences"
         [OpStart None None 250 350;
          OpEvent (mkEvent (KeyDown (NamedKey "enter")) 10)]
         (mkFS ∅ ∅)).
Proof.
  split; [reflexivity|].
  apply (proj2 (proj2 (start_rejected_while_recording "cache" "sequences"
                         [OpStart None None 250 350;
                          OpEvent (mkEvent (KeyDown (NamedKey "enter")) 10)]
                         (mkFS ∅ ∅) (Some "bot") None 100 100))).
  reflexivity.
Defined.

Lemma sole_recorder_idle_iff (p : Process) :
  sole_recorder p → (recording p = false ↔ active_sessions p = 0%nat).
Proof.
  intros Hsole. destruct (sole_recorder_active p Hsole) as [Hle Hiff].
  destruct (recording p); split; intros Hx; try done.
  - destruct Hiff as [Hone _]. rewrite Hone in Hx; done.
  - destruct (decide (active_sessions p = 1%nat)) as [H1|H1]; [|lia].
    apply Hiff in H1. done.
Qed.

Lemma after_snoc (CACHE_DIR SEQUENCES_DIR : string) (history : list Op) (op : Op)
    (fs0 : FileSystem) :
  after CACHE_DIR SEQUENCES_DIR (history ++ [op]) fs0
  = apply_op CACHE_DIR SEQUENCES_DIR (after CACHE_DIR SEQUENCES_DIR history fs0) op.
Proof. unfold after. by rewrite fold_left_app. Qed.

(** C4.  In every state a process can reach: when no session is
    recording, a stop fails with the error No active recording and
    leaves the process as it is; when one is, the stop returns the
    sequence that session recorded and clears [_recorder], no session is
    recording afterwards, and whatever start follows is accepted. *)
Theorem stop_contract (CACHE_DIR SEQUENCES_DIR : string) (history : list Op)
    (fs0 : FileSystem) (save : option string) (append : bool) :
  (active_sessions (after CACHE_DIR SEQUENCES_DIR history fs0) = 0%nat →
   stop_action_recording save append (after CACHE_DIR SEQUENCES_DIR history fs0)
   = (Ret (failure "No active recording"),
      after CACHE_DIR SEQUENCES_DIR history fs0))
  ∧ (active_sessions (after CACHE_DIR SEQUENCES_DIR history fs0) ≠ 0%nat →
     ∃ r resp p',
       current_recorder (after CACHE_DIR SEQUENCES_DIR history fs0) = Some r
       ∧ is_running r = true
       ∧ stop_action_recording save append
           (after CACHE_DIR SEQUENCES_DIR history fs0) = (Ret resp, p')
       ∧ response_get "actions" resp = Some (PList (recorded r))
       ∧ _recorder p' = None ∧ active_sessions p' = 0%nat
       ∧ ∀ dw hk mw dcw,
           fst (start_action_recording dw hk mw dcw p')
           = Ret (recording_started dw hk)).
Proof.
  pose proof (after_sole_recorder CACHE_DIR SEQUENCES_DIR history fs0) as Hsole.
  pose proof (after_sole_recorder CACHE_DIR SEQUENCES_DIR
                (history ++ [OpStop save append]) fs0) as Hsole'.
  rewrite after_snoc in Hsole'. cbn [apply_op] in Hsole'.
  revert Hsole Hsole'. generalize (after CACHE_DIR SEQUENCES_DIR history fs0).
  intros p Hsole Hsole'. split.
  - intros Hidle. by apply stop_when_idle, sole_recorder_idle_iff.
  - intros Hbusy.
    assert (recording p = true) as Hrec.
    { destruct (recording p) eqn:Hrec; [done|].
      by apply sole_recorder_idle_iff in Hrec. }
    destruct (recording_current p Hrec) as (i & r & Hi & Hr & Hrun).
    destruct (stop_when_recording save append p i r Hi Hr Hrun)
      as (resp & fs' & Hstop & Hacts).
    rewrite Hstop in Hsole'. cbn [snd] in Hsole'.
    eexists r, resp, _. split_and!; [|exact Hrun|exact Hstop|exact Hacts|done| |].
    + unfold current_recorder. rewrite Hi. exact Hr.
    + by apply sole_recorder_idle_iff.
    + intros dw hk mw dcw. by rewrite start_when_idle.
Qed.

(** C4 at work: nothing records in a fresh process, so a stop fails; a
    session that has seen one key is stopped and returns that key. *)
Lemma stop_contract_witness :
  active_sessions (after "cache" "sequences" [] (mkFS ∅ ∅)) = 0%nat
  ∧ stop_action_recording None false (after "cache" "sequences" [] (mkFS ∅ ∅))
    = (Ret (failure "No active recording"), after "cache" "sequences" [] (mkFS ∅ ∅))
  ∧ active_sessions demo_recording ≠ 0%nat
  ∧ ∃ resp p',
      stop_action_recording None false demo_recording = (Ret resp, p')
      ∧ response_get "actions" resp
        = Some (PList [action_to_record (Key "enter" None)])
      ∧ active_sessions p' = 0%nat.
Proof.
  split_and!; [reflexivity| |by vm_compute|].
  - apply (proj1 (stop_contract "cache" "sequences" [] (mkFS ∅ ∅) None false)).
    reflexivity.
  - destruct (proj2 (stop_contract "cache" "sequences"
                       [OpStart None None 250 350;
                        OpEvent (mkEvent (KeyDown (NamedKey "enter")) 10)]
                       (mkFS ∅ ∅) None false) ltac:(by vm_compute))
      as (r & resp & p' & Hcur & _ & Hstop & Hacts & _ & Hidle & _).
    exists resp, p'. split_and!; [exact Hstop| |exact Hidle].
    rewrite Hacts. vm_compute in Hcur. injection Hcur as <-.
    vm_compute. reflexivity.
Defined.

(** C10.  When a session records and the save asked for cannot succeed,
    the stop reports failure and carries the captured actions in its
    response; yet the recording is over, the actions are kept as the
    last recorded ones, the file system is untouched, and a second stop
    finds no active recording. *)
Theorem stop_not_atomic_on_save_error (path : string) (append : bool)
    (p : Process) (r : SequenceRecorder) :
  current_recorder p = Some r → is_running r = true →
  path ≠ "" → save_fails path append (fs p) →
  ∃ e p',
    stop_action_recording (Some path) append p
    = (Ret (save_failed_response e (recorded r)), p')
    ∧ py_success (save_failed_response e (recorded r)) = false
    ∧ _recorder p' = None
    ∧ _last_recorded_actions p' = Some (recorded r)
    ∧ fs p' = fs p
    ∧ ∀ save' append',
        stop_action_recording save' append' p'
        = (Ret (failure "No active recording"), p').
Proof.
  intros Hcur Hrun Hpath Hfail.
  destruct (current_recorder_Some _ _ Hcur) as (i & Hi & Hr).
  unfold stop_action_recording, save_failed_response.
  rewrite Hcur, Hi, Hrun, (recorder_stop_running _ Hrun).
  assert (str_truthy (Some path) = true) as ->.
  { cbn. by rewrite bool_decide_false. }
  change (default "" (Some path)) with path.
  assert (∀ fs' save' append',
            stop_action_recording save' append'
              (mkProcess
                 (<[i := mkRecorder (config r) Idle (init_coalescer (config r))]>
                    (sessions p)) None (Some (recorded r)) fs')
            = (Ret (failure "No active recording"),
               mkProcess
                 (<[i := mkRecorder (config r) Idle (init_coalescer (config r))]>
                    (sessions p)) None (Some (recorded r)) fs')) as Hagain.
  { intros fs' save' append'. by apply stop_when_idle. }
  destruct Hfail as [Hden|[-> [s Hs]]].
  - destruct (if append && path_exists path (fs p) then _ else _) as [l|e].
    + unfold write_json. rewrite bool_decide_true by done.
      eexists _, _. split_and!; try done; by apply Hagain.
    + eexists _, _. split_and!; try done; by apply Hagain.
  - unfold path_exists, read_json. rewrite Hs.
    rewrite bool_decide_true by (by eexists). cbn.
    eexists _, _. split_and!; try done; by apply Hagain.
Qed.

(** C10 at work: the target of the save is write-protected. *)
Lemma stop_not_atomic_on_save_error_witness :
  fst (stop_action_recording (Some "out.json") false
         (after "cache" "sequences"
            [OpStart None None 250 350;
             OpEvent (mkEvent (KeyDown (NamedKey "enter")) 10)]
            (mkFS ∅ {["out.json"]})))
  = Ret (save_failed_response "PermissionError: out.json"
           [action_to_record (Key "enter" None)])
  ∧ fst (stop_action_recording None false
           (snd (stop_action_recording (Some "out.json") false
                   (after "cache" "sequences"
                      [OpStart None None 250 350;
                       OpEvent (mkEvent (KeyDown (NamedKey "enter")) 10)]
                      (mkFS ∅ {["out.json"]})))))
    = Ret (failure "No active recording").
Proof.
  destruct (stop_not_atomic_on_save_error "out.json" false
              (after "cache" "sequences"
                 [OpStart None None 250 350;
                  OpEvent (mkEvent (KeyDown (NamedKey "enter")) 10)]
                 (mkFS ∅ {["out.json"]}))
              (mkRecorder (mkConfig None ∅ 250 350) Recording
                 (on_event (mkConfig None ∅ 250 350)
                    (mkEvent (KeyDown (NamedKey "enter")) 10)
                    (init_coalescer (mkConfig None ∅ 250 350))))
              eq_refl eq_refl ltac:(done) ltac:(left; set_solver))
    as (e & p' & Hstop & _ & _ & _ & _ & Hagain).
  rewrite Hstop. cbn [fst snd]. rewrite Hagain. cbn [fst].
  split; [|reflexivity].
  vm_compute in Hstop. by injection Hstop as <- _.
Defined.

(* ================================================================== *)
(** * Focus hotkeys                                                    *)
(* ================================================================== *)











(* ================================================================== *)
(** * Saving and loading sequences                                     *)
(* ================================================================== *)

Lemma write_json_ok (path : string) (v : pyval) (fs0 : FileSystem) :
  path ∉ denied fs0 →
  write_json path v fs0 = (Ret (), mkFS (<[path := JsonFile v]> (files fs0)) (denied fs0)).
Proof. intros Hp. unfold write_json. by rewrite bool_decide_false. Qed.

Lemma write_json_inv (path : string) (v : pyval) (fs0 fs1 : FileSystem) :
  write_json path v fs0 = (Ret (), fs1) →
  fs1 = mkFS (<[path := JsonFile v]> (files fs0)) (denied fs0).
Proof. unfold write_json. case_bool_decide; [done|]. by intros [= <-]. Qed.

Section StorageFacts.
Variable CACHE_DIR : string.
Variable SEQUENCES_DIR : string.

#[local] Abbreviation INDEX := (SEQUENCES_INDEX_FILE CACHE_DIR).

(** The index update writes the index file and nothing else. *)
Lemma update_index_other (name path now : string) (fs0 : FileSystem) (q : string) :
  q ≠ INDEX →
  files (snd (update_index CACHE_DIR name path now fs0)) !! q = files fs0 !! q.
Proof.
  intros Hq. unfold update_index, _save_sequences_index, write_json.
  repeat case_match; cbn; try done; simplify_eq; cbn;
    by rewrite lookup_insert_ne.
Qed.

(** An index update that returns has left a saved list in place: had
    the list been written over the index, loading the index would have
    produced a list, on which the update raises. *)
Lemma update_index_keeps_list (name path now : string) (fs0 fs1 : FileSystem)
    (l : list pyval) :
  update_index CACHE_DIR name path now fs0 = (Ret (), fs1) →
  files fs0 !! path = Some (JsonFile (PList l)) →
  files fs1 !! path = Some (JsonFile (PList l)).
Proof.
  intros Hup Hl. destruct (decide (path = INDEX)) as [->|Hne].
  - exfalso. revert Hup. unfold update_index, _load_sequences_index.
    unfold path_exists, read_json. rewrite Hl.
    by rewrite bool_decide_true by (by eexists).
  - pose proof (update_index_other name path now fs0 path Hne) as Hq.
    rewrite Hup in Hq. cbn in Hq. by rewrite Hq.
Qed.

Lemma read_back (path : string) (l : list pyval) (fs0 : FileSystem) :
  files fs0 !! path = Some (JsonFile (PList l)) →
  path_exists path fs0 = true
  ∧ read_json path fs0 = Ret (PList l)
  ∧ saved_count path fs0 = PInt (Z.of_nat (length l)).
Proof.
  intros Hl. unfold path_exists, saved_count, read_json. rewrite Hl.
  split_and!; try done.
Qed.

(** A successful save of given actions: the response names the file,
    and the file holds the actions. *)
Lemma save_sequence_saved (name : string) (actions : list pyval)
    (file_path : option string) (overwrite : bool) (now : string)
    (p p' : Process) (resp : pyval) :
  save_sequence CACHE_DIR SEQUENCES_DIR name (Some actions) file_path overwrite now p
  = (Ret resp, p') →
  py_success resp = true →
  ∃ file, response_get "file" resp = Some (PStr file)
        ∧ files (fs p') !! file = Some (JsonFile (PList actions)).
Proof.
  unfold save_sequence. case_bool_decide; [by intros [= <- _]|].
  destruct (if str_truthy file_path then _ else _) as [path|e]; [|done].
  destruct (write_json path (PList actions) (fs p)) as [[[]|e] fs1] eqn:Hw;
    [|by intros [= <- _]].
  destruct (update_index CACHE_DIR (strip name) path now fs1) as [[[]|e] fs2] eqn:Hu;
    [|done].
  intros [= <- <-] _. exists path. split; [done|]. cbn.
  apply (update_index_keeps_list _ _ _ _ _ _ Hu).
  rewrite (write_json_inv _ _ _ _ Hw). cbn. by rewrite lookup_insert_eq.
Qed.

End StorageFacts.

Section RoundTrip.
Context {W : Type} `{WindowController W} `{InputInjector W}.

(** Running a file that holds the records of a sequence is running the
    sequence. *)
Lemma run_actions_file_records (file : string) (s : list Action)
    (variables : option (gmap string Point)) (fs0 : FileSystem) (c : W) :
  files fs0 !! file = Some (JsonFile (PList (records_of_actions s))) →
  run_actions_file file variables fs0 c
  = (inr (fst (run s (or_empty variables) c)), snd (run s (or_empty variables) c)).
Proof.
  intros Hf. destruct (read_back _ _ _ Hf) as (Hex & Hread & _).
  unfold run_actions_file. rewrite Hex, Hread. cbn.
  unfold run_actions, ActionRunner_run, validate.
  rewrite validate_from_roundtrip. by destruct (run s (or_empty variables) c).
Qed.

End RoundTrip.

Lemma action_to_record_own_fields (a : Action) :
  own_fields a (action_to_record a) = true.
Proof.
  destruct a as [name|to|to s|[to|] b c i|txt [w|] nl|k [w|]|s|v [m|]];
    try reflexivity; by destruct to.
Qed.

(** C7.  The records of a sequence read back as the same sequence,
    action for action and field for field, each record carrying its
    type discriminator and the fields of its variant only; and when
    [save_sequence] has saved them, the file it names holds them, so
    that [run_actions_file] on that file runs the sequence itself. *)
Theorem sequence_roundtrip (s : list Action) :
  actions_of_records (records_of_actions s) = Some s
  ∧ Forall2 (fun a v => own_fields a v = true) s (records_of_actions s)
  ∧ ∀ (CACHE_DIR SEQUENCES_DIR name : string) (file_path : option string)
      (overwrite : bool) (now : string) (p p' : Process) (resp : pyval),
      save_sequence CACHE_DIR SEQUENCES_DIR name (Some (records_of_actions s))
        file_path overwrite now p = (Ret resp, p') →
      py_success resp = true →
      ∃ file, response_get "file" resp = Some (PStr file)
        ∧ read_json file (fs p') = Ret (PList (records_of_actions s))
        ∧ ∀ (W : Type) (HC : WindowController W) (HI : InputInjector W)
            (variables : option (gmap string Point)) (c : W),
            run_actions_file file variables (fs p') c
            = (inr (fst (run s (or_empty variables) c)),
               snd (run s (or_empty variables) c)).
Proof.
  split_and!; [apply actions_roundtrip| |].
  { unfold records_of_actions. apply Forall2_fmap_r, Forall_Forall2_diag.
    apply Forall_forall. intros a _. apply action_to_record_own_fields. }
  intros CACHE_DIR SEQUENCES_DIR name file_path overwrite now p p' resp Hsave Hok.
  destruct (save_sequence_saved _ _ _ _ _ _ _ _ _ _ Hsave Hok) as (file & Hfile & Hf).
  exists file. split_and!; [done| |].
  - by destruct (read_back _ _ _ Hf) as (_ & Hread & _).
  - intros W HC HI variables c. by apply run_actions_file_records.
Qed.

(** C7 at work: a sequence of two actions is saved to a file and read
    back. *)
Lemma sequence_roundtrip_witness :
  fst (save_sequence "cache" "sequences" "demo" (Some (records_of_actions demo_sequence))
         (Some "seq.json") false "now" (initial_process (mkFS ∅ ∅)))
  = Ret (saved_response "demo" "seq.json" (PInt 2))
  ∧ read_json "seq.json"
      (fs (snd (save_sequence "cache" "sequences" "demo"
                  (Some (records_of_actions demo_sequence))
                  (Some "seq.json") false "now" (initial_process (mkFS ∅ ∅)))))
    = Ret (PList (records_of_actions demo_sequence))
  ∧ actions_of_records (records_of_actions demo_sequence) = Some demo_sequence.
Proof.
  assert (save_sequence "cache" "sequences" "demo"
            (Some (records_of_actions demo_sequence)) (Some "seq.json") false "now"
            (initial_process (mkFS ∅ ∅))
          = (Ret (saved_response "demo" "seq.json" (PInt 2)),
             snd (save_sequence "cache" "sequences" "demo"
                    (Some (records_of_actions demo_sequence)) (Some "seq.json")
                    false "now" (initial_process (mkFS ∅ ∅))))) as Hsave
      by (vm_compute; reflexivity).
  destruct (sequence_roundtrip demo_sequence) as (Hback & _ & Hfile).
  destruct (Hfile _ _ _ _ _ _ _ _ _ Hsave eq_refl) as (file & Hname & Hread & _).
  injection Hname as <-.
  split_and!; [by rewrite Hsave|exact Hread|exact Hback].
Defined.

(* ------------------------------------------------------------------ *)
(** ** The default file of a name                                       *)
(* ------------------------------------------------------------------ *)

Lemma string_length_app (s t : string) :
  String.length (s +:+ t) = (String.length s + String.length t)%nat.
Proof.
  induction s as [|c s IH]; [done|].
  change (String c s +:+ t) with (String c (s +:+ t)). cbn. by rewrite IH.
Qed.

Lemma string_app_inv_tail (s1 s2 t : string) :
  s1 +:+ t = s2 +:+ t → s1 = s2.
Proof.
  revert s2. induction s1 as [|c s1 IH]; intros [|c' s2] Heq; try done.
  - apply (f_equal String.length) in Heq.
    change (String.length t = S (String.length (s2 +:+ t))) in Heq.
    rewrite string_length_app in Heq. lia.
  - apply (f_equal String.length) in Heq.
    change (S (String.length (s1 +:+ t)) = String.length t) in Heq.
    rewrite string_length_app in Heq. lia.
  - change (String c (s1 +:+ t) = String c' (s2 +:+ t)) in Heq.
    injection Heq as -> Heq. f_equal. by apply IH.
Qed.

Lemma suffixed_inj (dir slug : string) (i j : Z) :
  suffixed dir slug i = suffixed dir slug j → i = j.
Proof.
  unfold suffixed, path_join. intros Heq.
  do 4 apply String.app_inj in Heq.
  apply string_app_inv_tail in Heq. by apply pretty_Z_inj in Heq.
Qed.

(** The loop over the suffixes stops at a file that does not exist:
    with more turns than there are files, one of the candidates is
    free. *)
Lemma free_suffix_free (dir slug : string) (fs0 : FileSystem) (fuel : nat) (i : Z)
    (m : gmap string file_data) :
  (∀ j, i ≤ j → is_Some (files fs0 !! suffixed dir slug j) →
        is_Some (m !! suffixed dir slug j)) →
  (size m < fuel)%nat →
  path_exists (suffixed dir slug (free_suffix dir fuel slug i fs0)) fs0 = false.
Proof.
  revert i m. induction fuel as [|fuel IH]; intros i m Hm Hsize; [lia|].
  cbn [free_suffix]. fold (suffixed dir slug i).
  destruct (path_exists (suffixed dir slug i) fs0) eqn:Hex; [|done].
  apply bool_decide_eq_true in Hex.
  pose proof (Hm i ltac:(lia) Hex) as Hin.
  apply (IH (i + 1) (delete (suffixed dir slug i) m)).
  - intros j Hj Hfile. rewrite lookup_delete_ne; [apply Hm; [lia|done]|].
    intros Heq%suffixed_inj. lia.
  - rewrite map_size_delete_Some by done.
    destruct (size m) eqn:Hs; [|cbn; lia].
    apply map_size_empty_inv in Hs. subst m. rewrite lookup_empty in Hin.
    by destruct Hin.
Qed.

(** Unless it is asked to overwrite, [save_sequence] picks a default
    file that does not exist yet. *)
Lemma default_path_fresh (dir name : string) (fs0 : FileSystem) :
  path_exists (default_path dir name false fs0) fs0 = false.
Proof.
  unfold default_path.
  destruct (path_exists (path_join dir (_slugify name +:+ ".json")) fs0) eqn:Hex;
    [|done].
  cbn [negb andb]. apply (free_suffix_free _ _ _ _ _ (files fs0)); [done|lia].
Qed.

(* ================================================================== *)
(** * The last recorded actions                                        *)
(* ================================================================== *)

(** C8, as amended.  A stop keeps the sequence it returns as the last
    recorded actions.  A [save_sequence] with a name that is not blank
    and with neither actions nor a path then saves nothing and fails
    when that sequence is empty, and otherwise writes exactly that
    sequence to the default file of the name, provided the sequences
    directory and the file can be written and the file is not the index;
    if the call returns, it reports that file and the length of the
    sequence. *)
Theorem save_last_recording (CACHE_DIR SEQUENCES_DIR : string)
    (save : option string) (append : bool) (p : Process) (r : SequenceRecorder)
    (name : string) (overwrite : bool) (now : string) :
  current_recorder p = Some r → is_running r = true → strip name ≠ "" →
  _last_recorded_actions (snd (stop_action_recording save append p))
  = Some (recorded r)
  ∧ (recorded r = [] →
     save_sequence CACHE_DIR SEQUENCES_DIR name None None overwrite now
       (snd (stop_action_recording save append p))
     = (Ret (failure "No actions provided and no recent recording available"),
        snd (stop_action_recording save append p)))
  ∧ (recorded r ≠ [] →
     SEQUENCES_DIR ∉ denied (fs (snd (stop_action_recording save append p))) →
     default_path SEQUENCES_DIR (strip name) overwrite
       (fs (snd (stop_action_recording save append p)))
       ∉ denied (fs (snd (stop_action_recording save append p))) →
     default_path SEQUENCES_DIR (strip name) overwrite
       (fs (snd (stop_action_recording save append p)))
       ≠ SEQUENCES_INDEX_FILE CACHE_DIR →
     files (fs (snd (save_sequence CACHE_DIR SEQUENCES_DIR name None None overwrite
                       now (snd (stop_action_recording save append p)))))
       !! default_path SEQUENCES_DIR (strip name) overwrite
            (fs (snd (stop_action_recording save append p)))
     = Some (JsonFile (PList (recorded r)))
     ∧ ∀ resp,
         fst (save_sequence CACHE_DIR SEQUENCES_DIR name None None overwrite now
                (snd (stop_action_recording save append p))) = Ret resp →
         resp = saved_response (strip name)
                  (default_path SEQUENCES_DIR (strip name) overwrite
                     (fs (snd (stop_action_recording save append p))))
                  (PInt (Z.of_nat (length (recorded r))))).
Proof.
  intros Hcur Hrun Hname.
  destruct (current_recorder_Some _ _ Hcur) as (i & Hi & Hr).
  destruct (stop_when_recording save append p i r Hi Hr Hrun)
    as (resp0 & fs1 & -> & _).
  cbn [snd fs _last_recorded_actions].
  set (path := default_path SEQUENCES_DIR (strip name) overwrite fs1).
  split_and!; [done| |].
  - intros Hnone. unfold save_sequence. rewrite bool_decide_false by done.
    cbn [_last_recorded_actions]. by rewrite Hnone.
  - intros Hacts Hdir Hpath Hindex.
    unfold save_sequence. rewrite bool_decide_false by done.
    cbn [_last_recorded_actions fs sessions _recorder].
    destruct (recorded r) as [|a l] eqn:Hrec; [done|].
    cbn [str_truthy]. unfold mkdir. rewrite bool_decide_false by done.
    fold path. rewrite write_json_ok by done.
    pose proof (update_index_other CACHE_DIR (strip name) path now
                  (mkFS (<[path := JsonFile (PList (a :: l))]> (files fs1))
                     (denied fs1))
                  path Hindex) as Hkeep.
    cbn [files] in Hkeep. rewrite lookup_insert_eq in Hkeep.
    destruct (update_index CACHE_DIR (strip name) path now _) as [[[]|e] fs2];
      cbn [snd fst fs] in *.
    + split; [done|]. intros resp [= <-].
      by destruct (read_back _ _ _ Hkeep) as (_ & _ & ->).
    + by split.
Qed.

(** The amended C8 at work: the key that was recorded is saved under
    the name My Seq. *)
Lemma save_last_recording_witness :
  _last_recorded_actions (snd (stop_action_recording None false demo_recording))
  = Some [action_to_record (Key "enter" None)]
  ∧ files (fs (snd (save_sequence "cache" "sequences" " My Seq " None None false "now"
                      (snd (stop_action_recording None false demo_recording)))))
      !! "sequences/my-seq.json"
    = Some (JsonFile (PList [action_to_record (Key "enter" None)]))
  ∧ fst (save_sequence "cache" "sequences" " My Seq " None None false "now"
           (snd (stop_action_recording None false demo_recording)))
    = Ret (saved_response "My Seq" "sequences/my-seq.json" (PInt 1)).
Proof.
  assert (fs (snd (stop_action_recording None false demo_recording)) = mkFS ∅ ∅)
    as Hfs by (vm_compute; reflexivity).
  assert (default_path "sequences" (strip " My Seq ") false (mkFS ∅ ∅)
          = "sequences/my-seq.json") as Hpath by (vm_compute; reflexivity).
  assert (recorded demo_recorder = [action_to_record (Key "enter" None)])
    as Hrec by (vm_compute; reflexivity).
  assert (strip " My Seq " = "My Seq") as Hname by (vm_compute; reflexivity).
  destruct (save_last_recording "cache" "sequences" None false demo_recording
              demo_recorder " My Seq " false "now") as (Hlast & _ & Hsave).
  - vm_compute; reflexivity.
  - reflexivity.
  - by rewrite Hname.
  - destruct Hsave as [Hfile Hresp].
    + by rewrite Hrec.
    + rewrite Hfs. cbn. set_solver.
    + rewrite Hfs. cbn. set_solver.
    + rewrite Hfs, Hpath. by vm_compute.
    + rewrite Hfs, Hpath, Hrec in *. split_and!; [done|done|].
      rewrite Hname in Hresp.
      destruct (fst (save_sequence "cache" "sequences" " My Seq " None None false
                       "now" (snd (stop_action_recording None false demo_recording))))
        as [resp|e] eqn:Hout.
      * by rewrite (Hresp resp eq_refl).
      * vm_compute in Hout. discriminate.
Defined.

(** C8, as stated, fails for a recording with no input: the stop
    succeeds and its empty sequence becomes the last recorded actions,
    but a [save_sequence] with neither actions nor a path finds no
    recording to save and writes nothing. *)
Lemma save_empty_recording_counterexample :
  fst (stop_action_recording None false
         (after "cache" "sequences" [OpStart None None 250 350] (mkFS ∅ ∅)))
  = Ret (PDict [("success", PBool true); ("count", PInt 0);
                ("actions", PList []); ("file", PNone)])
  ∧ _last_recorded_actions empty_recording = Some []
  ∧ save_sequence "cache" "sequences" "demo" None None false "now" empty_recording
    = (Ret (failure "No actions provided and no recent recording available"),
       empty_recording).
Proof. split_and!; vm_compute; reflexivity. Qed.

(* ================================================================== *)
(** * Slugs                                                            *)
(* ================================================================== *)

Lemma chars_of_chars (l : list ascii) : chars (of_chars l) = l.
Proof. apply list_ascii_of_string_of_list_ascii. Qed.

Lemma of_chars_chars (s : string) : of_chars (chars s) = s.
Proof. apply string_of_list_ascii_of_string. Qed.

Lemma name_char_facts (c : ascii) :
  name_char c = true →
  is_space c = false ∧ slug_char c = true ∧ to_lower c = c.
Proof.
  destruct c as [[] [] [] [] [] [] [] []]; vm_compute; intros Hc;
    (discriminate Hc || (split_and!; reflexivity)).
Qed.

Lemma dash_spaces_name_chars (l : list ascii) (in_run : bool) :
  Forall (λ c, slug_char c = true) l →
  Forall (λ c, name_char c = true) (dash_spaces in_run l).
Proof.
  intros Hl. revert in_run. induction Hl as [|c l Hc Hl IH]; intros in_run; [done|].
  cbn. destruct (is_space c) eqn:Hs.
  - destruct in_run; [apply IH|]. constructor; [done|apply IH].
  - constructor; [|apply IH]. unfold name_char. by rewrite Hc, Hs.
Qed.

Lemma lstrip_no_space (l : list ascii) :
  Forall (λ c, is_space c = false) l → lstrip l = l.
Proof. intros [|c l' Hc Hl]; [done|]. cbn. by rewrite Hc. Qed.

Lemma dash_spaces_no_space (l : list ascii) :
  Forall (λ c, is_space c = false) l → dash_spaces false l = l.
Proof.
  induction 1 as [|c l Hc Hl IH]; [done|]. cbn. by rewrite Hc, IH.
Qed.

(** A string of slug characters that is not empty is its own slug. *)
Lemma slugify_fixed (s : string) :
  s ≠ "" → Forall (λ c, name_char c = true) (chars s) → _slugify s = s.
Proof.
  intros Hne Hs.
  assert (Forall (λ c, is_space c = false) (chars s)) as Hnosp.
  { eapply Forall_impl; [exact Hs|]. intros c Hc. by apply name_char_facts. }
  assert (Forall (λ c, slug_char c = true) (chars s)) as Hslug.
  { eapply Forall_impl; [exact Hs|]. intros c Hc. by apply name_char_facts. }
  assert (strip s = s) as Hstrip.
  { unfold strip. rewrite (lstrip_no_space _ Hnosp).
    rewrite lstrip_no_space by (by apply Forall_rev).
    by rewrite rev_involutive, of_chars_chars. }
  assert (lower s = s) as Hlower.
  { unfold lower. rewrite <- (of_chars_chars s) at 2. f_equal.
    rewrite <- (map_id (chars s)) at 2. apply map_ext_Forall.
    eapply Forall_impl; [exact Hs|]. intros c Hc. by apply name_char_facts. }
  unfold _slugify. rewrite Hstrip, Hlower.
  assert (filter (λ c, slug_char c = true) (chars s) = chars s) as ->.
  { clear -Hslug. induction Hslug as [|c l Hc Hl IH]; [done|].
    rewrite filter_cons_True by done. by rewrite IH. }
  rewrite of_chars_chars, (dash_spaces_no_space _ Hnosp), of_chars_chars.
  by rewrite bool_decide_false.
Qed.

Lemma slugify_name_chars (name : string) :
  Forall (λ c, name_char c = true) (chars (_slugify name)).
Proof.
  unfold _slugify. case_bool_decide as Hempty.
  - repeat constructor.
  - rewrite chars_of_chars. apply dash_spaces_name_chars.
    rewrite chars_of_chars. apply list.Forall_forall. intros c Hc.
    by apply list_elem_of_filter in Hc as [Hc _].
Qed.

Lemma slugify_not_empty (name : string) : _slugify name ≠ "".
Proof. unfold _slugify. by case_bool_decide. Qed.

(** X1.  Whatever the name, its slug is not empty, consists of the
    characters [a-z0-9], dash, underscore and dot only, and is its own
    slug. *)
Theorem slugify_safe (name : string) :
  (0 < String.length (_slugify name))%nat
  ∧ forallb name_char (chars (_slugify name)) = true
  ∧ _slugify (_slugify name) = _slugify name.
Proof.
  pose proof (slugify_not_empty name) as Hne.
  pose proof (slugify_name_chars name) as Hchars.
  split_and!.
  - destruct (_slugify name); [done|cbn; lia].
  - apply forallb_forall. intros c Hc.
    by apply (proj1 (list.Forall_forall _ _) Hchars), list_elem_of_In.
  - by apply slugify_fixed.
Qed.

(* ================================================================== *)
(** * Windows                                                          *)
(* ================================================================== *)

Lemma insert_desc_split {A : Type} (key : A → bool) (x : A) (front back : list A) :
  Forall (λ y, key y = true) front → Forall (λ y, key y = false) back →
  insert_desc key x (front ++ back)
  = if key x then (front ++ [x]) ++ back else front ++ (back ++ [x]).
Proof.
  intros Hfront Hback. induction Hfront as [|y front Hy Hfront IH].
  - cbn [app]. induction Hback as [|y back Hy Hback IH].
    + cbn. by destruct (key x).
    + cbn. rewrite Hy. destruct (key x); [done|]. cbn in IH. by rewrite IH.
  - cbn. rewrite Hy. cbn. rewrite IH. by destruct (key x).
Qed.

Lemma sort_desc_from {A : Type} (key : A → bool) (l front back : list A) :
  Forall (λ y, key y = true) front → Forall (λ y, key y = false) back →
  fold_left (λ sorted x, insert_desc key x sorted) l (front ++ back)
  = (front ++ filter (λ y, key y = true) l)
      ++ (back ++ filter (λ y, key y = false) l).
Proof.
  revert front back. induction l as [|x l IH]; intros front back Hfront Hback.
  - cbn. by rewrite !app_nil_r.
  - cbn [fold_left]. rewrite insert_desc_split by done.
    rewrite !filter_cons. destruct (key x) eqn:Hx.
    + rewrite decide_True by done. rewrite decide_False by done.
      rewrite IH; [|apply Forall_app; by repeat constructor|done].
      by rewrite <- !app_assoc.
    + rewrite decide_False by done. rewrite decide_True by done.
      rewrite IH; [|done|apply Forall_app; by repeat constructor].
      by rewrite <- !app_assoc.
Qed.

(** The sort by a flag, largest first, moves the flagged elements to
    the front and keeps the order within both groups. *)
Lemma sort_desc_partition {A : Type} (key : A → bool) (l : list A) :
  sort_desc key l
  = filter (λ y, key y = true) l ++ filter (λ y, key y = false) l.
Proof. apply (sort_desc_from key l [] []); constructor. Qed.

Lemma filter_window_dicts (last : option string) (b : bool)
    (l : list (string * WindowInfo)) :
  filter (λ y, is_last_used y = b) (map (window_dict last) l)
  = map (window_dict last)
      (filter (λ e, bool_decide (Some (fst e) = last) = b) l).
Proof.
  induction l as [|e l IH]; [done|].
  cbn [map]. rewrite !filter_cons, IH.
  change (is_last_used (window_dict last e))
    with (bool_decide (Some (fst e) = last)).
  by repeat case_decide.
Qed.

Section WindowFacts.
Context {W : Type} `{WindowController W}.

(** X2.  [list_windows] always succeeds and lists every remembered window
    once: first the window last used, if it is remembered, then the
    others in the order of the window map; the count is the number of
    remembered windows. *)
Theorem list_windows_order (c : W) :
  list_windows c
  = PDict [("success", PBool true);
           ("windows",
            PList (map (window_dict (last_used_window c))
                     (filter (λ e, Some (fst e) = last_used_window c) (window_map c)
                      ++ filter (λ e, Some (fst e) ≠ last_used_window c)
                           (window_map c))));
           ("count", PInt (Z.of_nat (length (window_map c))));
           ("last_used", PStr (or_str (last_used_window c) "none"))].
Proof.
  unfold list_windows. rewrite sort_desc_partition, !filter_window_dicts.
  assert (∀ l : list (string * WindowInfo),
            filter (λ e, bool_decide (Some (fst e) = last_used_window c) = true) l
            = filter (λ e, Some (fst e) = last_used_window c) l) as Hyes.
  { intros l. apply list_filter_iff. intros e. apply bool_decide_eq_true. }
  assert (∀ l : list (string * WindowInfo),
            filter (λ e, bool_decide (Some (fst e) = last_used_window c) = false) l
            = filter (λ e, Some (fst e) ≠ last_used_window c) l) as Hno.
  { intros l. apply list_filter_iff. intros e. apply bool_decide_eq_false. }
  rewrite Hyes, Hno, <- map_app. do 4 f_equal.
  rewrite length_map.
  by rewrite (Permutation_length (filter_app_complement _ (window_map c))).
Qed.

End WindowFacts.

Lemma has_key_assoc_get {A : Type} (k : string) (d : list (string * A)) :
  has_key k d = true ↔ is_Some (assoc_get k d).
Proof.
  unfold has_key, keys. induction d as [|[k' v] d IH]; cbn.
  - split; [done|]. by intros [? ?].
  - rewrite (String.eqb_sym k k'). destruct (String.eqb k' k); cbn; [|done].
    split; [by eexists|done].
Qed.

Section WindowCalls.
Context {W : Type} `{WindowController W} `{WindowCapture W}.

(** X3.  [remember_window] strips the name.  A blank name fails without a
    call on the controller.  Otherwise the controller is asked once, for
    the stripped name, and success is reported exactly when it answered
    true and the name is in its window map afterwards. *)
Theorem remember_window_contract (name : string) (wait_seconds : Z) (c : W) :
  (strip name = "" →
   remember_window name wait_seconds c = (failure "Window name cannot be empty", c))
  ∧ (strip name ≠ "" →
     snd (remember_window name wait_seconds c)
     = snd (ctl_remember_window (strip name) wait_seconds c)
     ∧ (py_success (fst (remember_window name wait_seconds c)) = true
        ↔ fst (ctl_remember_window (strip name) wait_seconds c) = Ret true
          ∧ has_key (strip name)
              (window_map (snd (ctl_remember_window (strip name) wait_seconds c)))
            = true)).
Proof.
  unfold remember_window. split; intros Hname.
  - by rewrite bool_decide_true.
  - rewrite bool_decide_false by done.
    destruct (ctl_remember_window (strip name) wait_seconds c) as [[ok|e] c1];
      cbn [fst snd]; [|split; [done|]; split; [done|by intros [? _]]].
    rewrite has_key_assoc_get. destruct ok.
    + destruct (assoc_get (strip name) (window_map c1)) as [info|]; cbn.
      * split; [done|]. split; [by eauto|done].
      * split; [done|]. split; [done|]. by intros [_ [? ?]].
    + split; [done|]. split; [done|]. by intros [? _].
Qed.

(** X4.  [focus_window] makes no call on the controller when no window is
    remembered or the named window is unknown, and fails.  Otherwise it
    asks the controller once to focus the window as named, and reports
    success exactly when the controller answered true. *)
Theorem focus_window_contract (window_name : option string) (c : W) :
  (window_map c = [] ∨ known_window window_name c = false →
   snd (focus_window window_name c) = c
   ∧ py_success (fst (focus_window window_name c)) = false)
  ∧ (window_map c ≠ [] → known_window window_name c = true →
     snd (focus_window window_name c) = snd (ctl_focus_window window_name c)
     ∧ (py_success (fst (focus_window window_name c)) = true
        ↔ fst (ctl_focus_window window_name c) = Ret true)).
Proof.
  unfold focus_window. split.
  - unfold known_window. intros [Hm|Hk].
    + by rewrite bool_decide_true.
    + case_bool_decide; [done|].
      apply orb_false_iff in Hk as [Hs Hk]. apply negb_false_iff in Hs.
      by rewrite Hs, Hk.
  - intros Hm Hk. rewrite bool_decide_false by done.
    rewrite (known_window_passes _ _ Hk).
    by destruct (ctl_focus_window window_name c) as [[[]|e] c1].
Qed.

End WindowCalls.

(** The contract of [remember_window] at work: a blank name is refused;
    the name term, padded with blanks, is remembered as term. *)
Lemma remember_window_contract_witness :
  strip "   " = ""
  ∧ remember_window "   " 3 editor_desk
    = (failure "Window name cannot be empty", editor_desk)
  ∧ strip " term " ≠ ""
  ∧ py_success (fst (remember_window " term " 3 editor_desk)) = true
  ∧ desk_windows (snd (remember_window " term " 3 editor_desk))
    = [("editor", no_info); ("term", no_info)].
Proof.
  destruct (remember_window_contract "   " 3 editor_desk) as [Hblank _].
  destruct (remember_window_contract " term " 3 editor_desk) as [_ Hname].
  destruct (Hname ltac:(by vm_compute)) as [Hstate Hok].
  split_and!; [reflexivity|by apply Hblank|by vm_compute| |].
  - apply Hok. by vm_compute.
  - rewrite Hstate. reflexivity.
Defined.

(** The contract of [focus_window] at work: an unknown window is not
    focused, the editor is. *)
Lemma focus_window_contract_witness :
  known_window (Some "browser") editor_desk = false
  ∧ snd (focus_window (Some "browser") editor_desk) = editor_desk
  ∧ window_map editor_desk ≠ [] ∧ known_window (Some "editor") editor_desk = true
  ∧ py_success (fst (focus_window (Some "editor") editor_desk)) = true
  ∧ desk_log (snd (focus_window (Some "editor") editor_desk))
    = [InCall (CallFocus (Some "editor"))].
Proof.
  destruct (focus_window_contract (Some "browser") editor_desk) as [Hguard _].
  destruct (focus_window_contract (Some "editor") editor_desk) as [_ Hcall].
  destruct (Hguard (or_intror eq_refl)) as [Hsame _].
  destruct (Hcall ltac:(done) eq_refl) as [Hstate Hok].
  split_and!; [reflexivity|exact Hsame|done|reflexivity| |].
  - apply Hok. reflexivity.
  - rewrite Hstate. reflexivity.
Defined.

(* ================================================================== *)
(** * Sequence files                                                   *)
(* ================================================================== *)

Section FileFacts.
Context {W : Type} `{WindowController W} `{InputInjector W}.


End FileFacts.

(* ================================================================== *)
(** * The sequences index                                              *)
(* ================================================================== *)

Lemma assoc_get_set_eq {A : Type} (k : string) (v : A) (d : list (string * A)) :
  assoc_get k (assoc_set k v d) = Some v.
Proof.
  induction d as [|[k' v'] d IH]; cbn; [by rewrite String.eqb_refl|].
  destruct (String.eqb k' k) eqn:Hk; cbn; [by rewrite String.eqb_refl|].
  by rewrite Hk.
Qed.

Lemma assoc_get_set_ne {A : Type} (k k' : string) (v : A) (d : list (string * A)) :
  k ≠ k' → assoc_get k (assoc_set k' v d) = assoc_get k d.
Proof.
  intros Hne.
  assert (String.eqb k' k = false) as Hf by (apply String.eqb_neq; congruence).
  induction d as [|[k0 v0] d IH]; cbn; [by rewrite Hf|].
  destruct (String.eqb k0 k') eqn:Hk; cbn.
  - apply String.eqb_eq in Hk as ->. by rewrite !Hf.
  - by rewrite IH.
Qed.

Lemma assoc_get_del_eq {A : Type} (k : string) (d : list (string * A)) :
  assoc_get k (assoc_del k d) = None.
Proof.
  induction d as [|[k' v'] d IH]; cbn; [done|].
  destruct (String.eqb k' k) eqn:Hk; cbn; [done|]. by rewrite Hk.
Qed.

Lemma assoc_get_del_ne {A : Type} (k k' : string) (d : list (string * A)) :
  k ≠ k' → assoc_get k (assoc_del k' d) = assoc_get k d.
Proof.
  intros Hne.
  assert (String.eqb k' k = false) as Hf by (apply String.eqb_neq; congruence).
  induction d as [|[k0 v0] d IH]; cbn; [done|].
  destruct (String.eqb k0 k') eqn:Hk; cbn; [|by rewrite IH].
  apply String.eqb_eq in Hk as ->. by rewrite Hf.
Qed.

Section IndexFacts.
Variable CACHE_DIR : string.

#[local] Abbreviation INDEX := (SEQUENCES_INDEX_FILE CACHE_DIR).

(** What is loaded from an index file that holds a document. *)
Lemma load_index_file (now : string) (fs0 : FileSystem) (v : pyval) :
  files fs0 !! INDEX = Some (JsonFile v) →
  _load_sequences_index CACHE_DIR now fs0 = v.
Proof.
  intros Hf. unfold _load_sequences_index, path_exists, read_json.
  rewrite Hf. by rewrite bool_decide_true by (by eexists).
Qed.

(** The index does not depend on files other than the index file. *)
Lemma load_index_insert (now path : string) (x : file_data) (fs0 : FileSystem) :
  path ≠ INDEX →
  _load_sequences_index CACHE_DIR now
    (mkFS (<[path := x]> (files fs0)) (denied fs0))
  = _load_sequences_index CACHE_DIR now fs0.
Proof.
  intros Hne. unfold _load_sequences_index, path_exists, read_json. cbn.
  by rewrite lookup_insert_ne.
Qed.

Lemma save_index_inv (data : list (string * pyval)) (now : string)
    (fs0 fs1 : FileSystem) :
  _save_sequences_index CACHE_DIR data now fs0 = (Ret (), fs1) →
  (CACHE_DIR ∉ denied fs0) ∧ (INDEX ∉ denied fs0)
  ∧ fs1 = mkFS (<[INDEX := JsonFile (PDict (assoc_set "updated" (PStr now) data))]>
                  (files fs0)) (denied fs0).
Proof.
  unfold _save_sequences_index, mkdir, write_json.
  repeat case_bool_decide; try done. by intros [= <-].
Qed.

Lemma save_index_ok (data : list (string * pyval)) (now : string) (fs0 : FileSystem) :
  CACHE_DIR ∉ denied fs0 → INDEX ∉ denied fs0 →
  _save_sequences_index CACHE_DIR data now fs0
  = (Ret (),
     mkFS (<[INDEX := JsonFile (PDict (assoc_set "updated" (PStr now) data))]>
             (files fs0)) (denied fs0)).
Proof.
  intros Hc Hi. unfold _save_sequences_index, mkdir, write_json.
  by rewrite !bool_decide_false by done.
Qed.

(** An index update that returns: the index was a dict of dicts, and
    the index file now holds it with the entry of the name set. *)
Lemma update_index_inv (name path now : string) (fs0 fs1 : FileSystem) :
  update_index CACHE_DIR name path now fs0 = (Ret (), fs1) →
  ∃ idx seqs e,
    _load_sequences_index CACHE_DIR now fs0 = PDict idx
    ∧ default (PDict []) (assoc_get "sequences" idx) = PDict seqs
    ∧ assoc_get "file" e = Some (PStr path)
    ∧ assoc_get "updated" e = Some (PStr now)
    ∧ assoc_get "created" e = created_after (assoc_get name seqs) now
    ∧ (CACHE_DIR ∉ denied fs0) ∧ (INDEX ∉ denied fs0)
    ∧ fs1 = mkFS (<[INDEX := JsonFile
                      (PDict (assoc_set "updated" (PStr now)
                                (assoc_set "sequences"
                                   (PDict (assoc_set name (PDict e) seqs)) idx)))]>
                    (files fs0)) (denied fs0).
Proof.
  unfold update_index.
  destruct (_load_sequences_index CACHE_DIR now fs0) as [| | | | |idx]; try done.
  destruct (default (PDict []) (assoc_get "sequences" idx))
    as [| | | | |seqs] eqn:Hseqs; try done.
  destruct (assoc_get name seqs) as [old|] eqn:Hold; cbn [default from_option id].
  - destruct (py_truthy old) eqn:Htruthy; cbn [negb].
    + destruct old as [| | | | |olde]; try done.
      destruct olde as [|kv olde]; [done|].
      intros (Hc & Hi & ->)%save_index_inv.
      eexists idx, seqs, _. split_and!; try done.
      * rewrite assoc_get_set_ne by done. apply assoc_get_set_eq.
      * apply assoc_get_set_eq.
      * rewrite !assoc_get_set_ne by done. by rewrite Hold.
    + intros (Hc & Hi & ->)%save_index_inv.
      eexists idx, seqs, _. split_and!; try done.
      all: try reflexivity. rewrite Hold. by destruct old as [| | | | |[|]].
  - cbn [py_truthy bool_decide negb].
    intros (Hc & Hi & ->)%save_index_inv.
    eexists idx, seqs, _. split_and!; try done; try reflexivity. by rewrite Hold.
Qed.

(** The entry of a name in an index file written by an update. *)
Lemma index_entry_written (name now now' : string) (files0 : gmap string file_data)
    (den : gset string) (idx seqs : list (string * pyval)) (e : pyval) :
  index_entry CACHE_DIR name now'
    (mkFS (<[INDEX := JsonFile
               (PDict (assoc_set "updated" (PStr now)
                         (assoc_set "sequences" (PDict (assoc_set name e seqs)) idx)))]>
             files0) den)
  = Some e.
Proof.
  unfold index_entry. rewrite (load_index_file _ _ _ (lookup_insert_eq _ _ _)).
  rewrite assoc_get_set_ne by done. rewrite assoc_get_set_eq. cbn.
  apply assoc_get_set_eq.
Qed.

End IndexFacts.

Lemma path_join_not_empty (dir name : string) : path_join dir name ≠ "".
Proof.
  unfold path_join. intros Heq%(f_equal String.length).
  rewrite !string_length_app in Heq. cbn in Heq. lia.
Qed.

Lemma default_path_not_empty (dir name : string) (overwrite : bool)
    (fs0 : FileSystem) :
  default_path dir name overwrite fs0 ≠ "".
Proof.
  unfold default_path.
  destruct (path_exists _ fs0 && negb overwrite); apply path_join_not_empty.
Qed.

Section SaveFacts.
Variable CACHE_DIR : string.
Variable SEQUENCES_DIR : string.

#[local] Abbreviation INDEX := (SEQUENCES_INDEX_FILE CACHE_DIR).

(** What a [save_sequence] that reports success has done: it chose a
    file, wrote the actions there if it had any, and set the entry of
    the stripped name in the index. *)
Lemma save_sequence_success_inv (name : string) (actions : option (list pyval))
    (file_path : option string) (overwrite : bool) (now : string)
    (p p' : Process) (resp : pyval) :
  save_sequence CACHE_DIR SEQUENCES_DIR name actions file_path overwrite now p
  = (Ret resp, p') →
  py_success resp = true →
  ∃ path fs1 idx seqs e,
    path ≠ ""
    ∧ resp = saved_response (strip name) path (saved_count path (fs p'))
    ∧ (fs1 = fs p
       ∨ ∃ a, path ≠ INDEX ∧ (path ∉ denied (fs p))
              ∧ fs1 = mkFS (<[path := JsonFile (PList a)]> (files (fs p)))
                        (denied (fs p)))
    ∧ (∀ a, actions = Some a →
         path ≠ INDEX ∧ (path ∉ denied (fs p))
         ∧ fs1 = mkFS (<[path := JsonFile (PList a)]> (files (fs p))) (denied (fs p)))
    ∧ _load_sequences_index CACHE_DIR now (fs p) = PDict idx
    ∧ default (PDict []) (assoc_get "sequences" idx) = PDict seqs
    ∧ assoc_get "file" e = Some (PStr path)
    ∧ assoc_get "updated" e = Some (PStr now)
    ∧ assoc_get "created" e = created_after (assoc_get (strip name) seqs) now
    ∧ (CACHE_DIR ∉ denied (fs p)) ∧ (INDEX ∉ denied (fs p))
    ∧ fs p' = mkFS (<[INDEX := JsonFile
                        (PDict (assoc_set "updated" (PStr now)
                                  (assoc_set "sequences"
                                     (PDict (assoc_set (strip name) (PDict e) seqs))
                                     idx)))]>
                      (files fs1)) (denied (fs p)).
Proof.
  unfold save_sequence. case_bool_decide as Hname; [by intros [= <- _]|].
  destruct (match actions with
            | Some a => Ret (Some a)
            | None => _
            end) as [acts|err] eqn:Hchosen; [|by intros [= <- _]].
  destruct (if str_truthy file_path then _ else _) as [path|err] eqn:Htarget;
    [|done].
  assert (path ≠ "") as Hpath.
  { destruct (str_truthy file_path) eqn:Htruthy.
    - injection Htarget as <-. destruct file_path as [s|]; [|done]. cbn in *.
      by case_bool_decide.
    - destruct (mkdir SEQUENCES_DIR (fs p)); [|done]. injection Htarget as <-.
      apply default_path_not_empty. }
  destruct (match acts with
            | Some a => write_json path (PList a) (fs p)
            | None => (Ret (), fs p)
            end) as [[[]|err] fs1] eqn:Hwritten; [|by intros [= <- _]].
  destruct (update_index CACHE_DIR (strip name) path now fs1) as [[[]|err] fs2]
    eqn:Hupdate; [|done].
  intros [= <- <-] _. cbn [fs].
  destruct (update_index_inv _ _ _ _ _ _ Hupdate)
    as (idx & seqs & e & Hload & Hseqs & Hfile & Hupd & Hcre & Hc & Hi & ->).
  assert (fs1 = fs p ∧ acts = None
          ∨ ∃ a, acts = Some a ∧ path ≠ INDEX ∧ (path ∉ denied (fs p))
                 ∧ fs1 = mkFS (<[path := JsonFile (PList a)]> (files (fs p)))
                           (denied (fs p))) as Hfs1.
  { destruct acts as [a|]; [|left; by injection Hwritten as <-].
    right. exists a. unfold write_json in Hwritten.
    case_bool_decide as Hden; [done|]. injection Hwritten as <-.
    split_and!; try done. intros ->.
    rewrite (load_index_file _ _ _ _ (lookup_insert_eq _ _ _)) in Hload. done. }
  exists path, fs1, idx, seqs, e.
  assert (denied fs1 = denied (fs p)) as Hden.
  { by destruct Hfs1 as [[-> _]|(a & _ & _ & _ & ->)]. }
  assert (_load_sequences_index CACHE_DIR now (fs p) = PDict idx) as Hload0.
  { destruct Hfs1 as [[-> _]|(a & _ & Hne & _ & ->)]; [done|].
    by rewrite load_index_insert in Hload. }
  rewrite Hden in *. split_and!; try done.
  - destruct Hfs1 as [[-> _]|(a & _ & Hne & Hd & ->)]; [by left|].
    right. by exists a.
  - intros a ->. injection Hchosen as <-.
    by destruct Hfs1 as [[_ ?]|(a' & [= <-] & ? & ? & ->)].
Qed.

(** X6.  When [save_sequence] reports a failure in its response, the
    sessions and the last recording are as they were and no file but
    the one it was to write the actions to has changed: the index is
    not touched.  Unless the failure is that of the write, nothing has
    changed at all. *)
Theorem save_sequence_failure_frame (name : string)
    (actions : option (list pyval)) (file_path : option string)
    (overwrite : bool) (now : string) (p p' : Process) (resp : pyval) :
  save_sequence CACHE_DIR SEQUENCES_DIR name actions file_path overwrite now p
  = (Ret resp, p') →
  py_success resp = false →
  sessions p' = sessions p
  ∧ _recorder p' = _recorder p
  ∧ _last_recorded_actions p' = _last_recorded_actions p
  ∧ (∀ q, q ≠ save_target SEQUENCES_DIR name file_path overwrite (fs p) →
          files (fs p') !! q = files (fs p) !! q)
  ∧ ((∀ err, resp ≠ failure ("Failed to write file: " +:+ err)) → p' = p).
Proof.
  unfold save_sequence. case_bool_decide as Hname; [by intros [= _ <-]|].
  destruct (match actions with
            | Some a => Ret (Some a)
            | None => _
            end) as [acts|err]; [|by intros [= _ <-]].
  destruct (if str_truthy file_path then _ else _) as [path|err]; [|done].
  destruct (match acts with
            | Some a => write_json path (PList a) (fs p)
            | None => (Ret (), fs p)
            end) as [[[]|err] fs1]; [|by intros [= _ <-]].
  destruct (update_index CACHE_DIR (strip name) path now fs1) as [[[]|err] fs2];
    [|done].
  by intros [= <- <-].
Qed.

(** X7.  With no path given and no leave to overwrite, [save_sequence]
    leaves every file that exists alone, the index apart: whatever it
    writes goes to a file that did not exist. *)
Theorem save_sequence_keeps_files (name : string) (actions : option (list pyval))
    (file_path : option string) (now : string) (p : Process) (q : string) :
  str_truthy file_path = false → q ≠ INDEX → path_exists q (fs p) = true →
  files (fs (snd (save_sequence CACHE_DIR SEQUENCES_DIR name actions file_path
                    false now p))) !! q
  = files (fs p) !! q.
Proof.
  intros Hpath Hq Hex. unfold save_sequence. rewrite Hpath.
  case_bool_decide as Hname; [done|].
  destruct (match actions with
            | Some a => Ret (Some a)
            | None => _
            end) as [acts|err]; [|done].
  destruct (mkdir SEQUENCES_DIR (fs p)) as [made|err]; [|done].
  set (path := default_path SEQUENCES_DIR (strip name) false (fs p)).
  assert (q ≠ path) as Hne.
  { intros ->. unfold path in Hex. by rewrite default_path_fresh in Hex. }
  destruct (match acts with
            | Some a => write_json path (PList a) (fs p)
            | None => (Ret (), fs p)
            end) as [[[]|err] fs1] eqn:Hwritten; [|done].
  assert (files fs1 !! q = files (fs p) !! q) as Hfs1.
  { destruct acts as [a|]; [|by injection Hwritten as <-].
    apply write_json_inv in Hwritten as ->. cbn. by rewrite lookup_insert_ne. }
  pose proof (update_index_other CACHE_DIR (strip name) path now fs1 q Hq) as Hup.
  destruct (update_index CACHE_DIR (strip name) path now fs1) as [[[]|err] fs2];
    cbn in *; congruence.
Qed.

(** X8.  A [save_sequence] that reports success has set the entry of the
    stripped name in the index: the entry names the file of the
    response, is updated at the time of the call, and keeps the creation
    time of the entry it replaces, or is created at the time of the call
    when there was none. *)
Theorem save_sequence_indexes (name : string) (actions : option (list pyval))
    (file_path : option string) (overwrite : bool) (now : string)
    (p p' : Process) (resp : pyval) :
  save_sequence CACHE_DIR SEQUENCES_DIR name actions file_path overwrite now p
  = (Ret resp, p') →
  py_success resp = true →
  ∃ file e,
    response_get "file" resp = Some (PStr file)
    ∧ (∀ now', index_entry CACHE_DIR (strip name) now' (fs p') = Some (PDict e))
    ∧ assoc_get "file" e = Some (PStr file)
    ∧ assoc_get "updated" e = Some (PStr now)
    ∧ assoc_get "created" e
      = created_after (index_entry CACHE_DIR (strip name) now (fs p)) now.
Proof.
  intros Hsave Hok.
  destruct (save_sequence_success_inv _ _ _ _ _ _ _ _ Hsave Hok)
    as (path & fs1 & idx & seqs & e & Hpath & -> & _ & _ & Hload & Hseqs
        & Hfile & Hupd & Hcre & _ & _ & Hfs).
  exists path, e. split_and!; try done.
  - intros now'. rewrite Hfs. apply index_entry_written.
  - unfold index_entry. by rewrite Hload, Hseqs.
Qed.

Section SaveAndRun.
Context {W : Type} `{WindowController W} `{InputInjector W}.

(** X9.  A sequence that [save_sequence] has saved runs under its stripped
    name: [run_sequence] finds the file in the index and runs the
    sequence itself. *)
Theorem save_then_run_sequence (s : list Action) (name : string)
    (file_path : option string) (overwrite : bool) (now : string)
    (p p' : Process) (resp : pyval)
    (variables : option (gmap string Point)) (now' : string) (c : W) :
  save_sequence CACHE_DIR SEQUENCES_DIR name (Some (records_of_actions s))
    file_path overwrite now p = (Ret resp, p') →
  py_success resp = true →
  run_sequence CACHE_DIR (strip name) variables now' (fs p') c
  = (Ret (inr (fst (run s (or_empty variables) c))),
     snd (run s (or_empty variables) c)).
Proof.
  intros Hsave Hok.
  destruct (save_sequence_success_inv _ _ _ _ _ _ _ _ Hsave Hok)
    as (path & fs1 & idx & seqs & e & Hpath & _ & _ & Hwritten & _ & _
        & Hfile & _ & _ & _ & _ & Hfs).
  destruct (Hwritten _ eq_refl) as (Hne & _ & ->).
  unfold run_sequence. rewrite Hfs.
  rewrite (load_index_file _ _ _ _ (lookup_insert_eq _ _ _)).
  rewrite assoc_get_set_ne by done. rewrite assoc_get_set_eq. cbn [default from_option id].
  rewrite assoc_get_set_eq. cbn [default from_option id].
  assert (py_truthy (PDict e) = true) as ->.
  { destruct e; [done|reflexivity]. }
  cbn [negb]. rewrite Hfile. cbn [default from_option id py_truthy].
  rewrite bool_decide_false by done. cbn [negb].
  rewrite (run_actions_file_records path s variables); [done|].
  cbn. rewrite lookup_insert_ne by done. by rewrite lookup_insert_eq.
Qed.

End SaveAndRun.
End SaveFacts.

Lemma demo_saved_response :
  save_sequence "cache" "sequences" " My Seq "
    (Some (records_of_actions demo_sequence)) None false "now"
    (initial_process (mkFS ∅ ∅))
  = (Ret (saved_response "My Seq" "sequences/my-seq.json" (PInt 2)), demo_saved).
Proof. vm_compute. reflexivity. Qed.


(** A failure of the write, at work: the file to write is protected,
    and the index is not written. *)
Lemma save_sequence_failure_frame_witness :
  fst (save_sequence "cache" "sequences" "demo" (Some (records_of_actions demo_sequence))
         (Some "out.json") false "now" protected_process)
  = Ret (failure "Failed to write file: PermissionError: out.json")
  ∧ files (fs (snd (save_sequence "cache" "sequences" "demo"
                      (Some (records_of_actions demo_sequence))
                      (Some "out.json") false "now" protected_process)))
      !! "cache/sequences_index.json"
    = None.
Proof.
  assert (save_sequence "cache" "sequences" "demo"
            (Some (records_of_actions demo_sequence))
            (Some "out.json") false "now" protected_process
          = (Ret (failure "Failed to write file: PermissionError: out.json"),
             snd (save_sequence "cache" "sequences" "demo"
                    (Some (records_of_actions demo_sequence))
                    (Some "out.json") false "now" protected_process))) as Hsave
      by (vm_compute; reflexivity).
  split; [by rewrite Hsave|].
  destruct (save_sequence_failure_frame _ _ _ _ _ _ _ _ _ _ Hsave eq_refl)
    as (_ & _ & _ & Hfiles & _).
  rewrite (Hfiles "cache/sequences_index.json") by (by vm_compute).
  reflexivity.
Defined.

(** Existing files are kept, at work: a second save under the same name
    goes to a second file and the first file still holds the demo
    sequence. *)
Lemma save_sequence_keeps_files_witness :
  path_exists "sequences/my-seq.json" (fs demo_saved) = true
  ∧ files (fs (snd (save_sequence "cache" "sequences" "my seq" (Some [])
                      None false "later" demo_saved)))
      !! "sequences/my-seq.json"
    = Some (JsonFile (PList (records_of_actions demo_sequence)))
  ∧ response_get "file"
      (saved_response "my seq" "sequences/my-seq-2.json" (PInt 0))
    = Some (PStr "sequences/my-seq-2.json")
  ∧ fst (save_sequence "cache" "sequences" "my seq" (Some []) None false "later"
           demo_saved)
    = Ret (saved_response "my seq" "sequences/my-seq-2.json" (PInt 0)).
Proof.
  assert (path_exists "sequences/my-seq.json" (fs demo_saved) = true) as Hex
      by (vm_compute; reflexivity).
  split_and!; [exact Hex| |reflexivity|vm_compute; reflexivity].
  rewrite (save_sequence_keeps_files "cache" "sequences" "my seq" (Some []) None
             "later" demo_saved "sequences/my-seq.json" eq_refl
             ltac:(by vm_compute) Hex).
  vm_compute. reflexivity.
Defined.

(** The index entry of a saved sequence, at work. *)
Lemma save_sequence_indexes_witness :
  ∃ e, index_entry "cache" "My Seq" "later" (fs demo_saved) = Some (PDict e)
       ∧ assoc_get "file" e = Some (PStr "sequences/my-seq.json")
       ∧ assoc_get "updated" e = Some (PStr "now")
       ∧ assoc_get "created" e = Some (PStr "now").
Proof.
  destruct (save_sequence_indexes "cache" "sequences" " My Seq " _ _ _ _ _ _ _
              demo_saved_response eq_refl)
    as (file & e & Hresp & Hentry & Hfile & Hupd & Hcre).
  injection Hresp as <-. exists e. split_and!; [|exact Hfile|exact Hupd|exact Hcre].
  exact (Hentry "later").
Defined.

(** A saved sequence runs under its name, at work. *)
Lemma save_then_run_sequence_witness :
  run_sequence "cache" "My Seq" None "later" (fs demo_saved) editor_desk
  = (Ret (inr (mkReport true
                 [mkStep 0 (action_to_record (FocusWindow "editor")) true None;
                  mkStep 1 (action_to_record (SendText "hi" None true)) true None]
                 None)),
     snd (run demo_sequence ∅ editor_desk)).
Proof.
  exact (save_then_run_sequence "cache" "sequences" demo_sequence " My Seq "
           None false "now" _ _ _ None "later" editor_desk
           demo_saved_response eq_refl).
Defined.

(* ================================================================== *)
(** * Deleting a named sequence                                        *)
(* ================================================================== *)

Section DeleteFacts.
Variable CACHE_DIR : string.
Variable locked : gset string.

#[local] Abbreviation INDEX := (SEQUENCES_INDEX_FILE CACHE_DIR).

(** An index that cannot be saved leaves the files as they are. *)
Lemma save_index_raise (data : list (string * pyval)) (now err : string)
    (fs0 fs1 : FileSystem) :
  _save_sequences_index CACHE_DIR data now fs0 = (Raise err, fs1) → fs1 = fs0.
Proof.
  unfold _save_sequences_index, mkdir, write_json.
  repeat case_bool_decide; congruence.
Qed.

#[local] Ltac stops :=
  left; split; [done|cbn; intros ? ?; by simplify_eq].

(** The ways through [delete_sequence]: it stops before it has written
    anything; or it has written the index without the entry, and then
    either leaves it at that, or fails to remove the file of the entry,
    or removes it. *)
Lemma delete_sequence_cases (name : string) (remove_file : bool) (now : string)
    (fs0 : FileSystem) :
  (snd (delete_sequence CACHE_DIR locked name remove_file now fs0) = fs0
   ∧ ∀ resp, fst (delete_sequence CACHE_DIR locked name remove_file now fs0) = Ret resp →
             resp = failure ("No sequence named '" +:+ name +:+ "'"))
  ∨ ∃ idx d entry fs1,
      _load_sequences_index CACHE_DIR now fs0 = PDict idx
      ∧ default (PDict []) (assoc_get "sequences" idx) = PDict d
      ∧ assoc_get name d = Some entry
      ∧ fs1 = mkFS (<[INDEX := JsonFile
                        (PDict (assoc_set "updated" (PStr now)
                                  (assoc_set "sequences" (PDict (assoc_del name d))
                                     idx)))]> (files fs0)) (denied fs0)
      ∧ ((snd (delete_sequence CACHE_DIR locked name remove_file now fs0) = fs1
          ∧ ∀ resp, fst (delete_sequence CACHE_DIR locked name remove_file now fs0) = Ret resp →
                    resp = deleted_response name PNone)
         ∨ ∃ e path,
             entry = PDict e ∧ assoc_get "file" e = Some (PStr path)
             ∧ remove_file = true
             ∧ ((path_exists path fs1 = true ∧ path ∈ locked
                 ∧ delete_sequence CACHE_DIR locked name remove_file now fs0
                   = (Ret (failure ("Failed to delete file: PermissionError: " +:+ path)),
                      fs1))
                ∨ ((path_exists path fs1 = false ∨ path ∉ locked)
                   ∧ delete_sequence CACHE_DIR locked name remove_file now fs0
                     = (Ret (deleted_response name (PStr path)),
                        mkFS (delete path (files fs1)) (denied fs0))))).
Proof.
  unfold delete_sequence.
  destruct (_load_sequences_index CACHE_DIR now fs0) as [| | | | |idx] eqn:Hload;
    try (stops).
  destruct (default (PDict []) (assoc_get "sequences" idx))
    as [| | |s|l|d] eqn:Hseqs; cbn [py_contains]; try (stops).
  - destruct (occurs name s); stops.
  - destruct (existsb _ l); stops.
  - destruct (has_key name d) eqn:Hkey; [|stops].
    apply has_key_assoc_get in Hkey as [entry Hentry].
    destruct (_save_sequences_index CACHE_DIR _ now fs0) as [[[]|err] fs1] eqn:Hsave.
    2:{ apply save_index_raise in Hsave as ->. stops. }
    apply save_index_inv in Hsave as (_ & _ & ->).
    right. eexists idx, d, entry, _. split_and!; try done.
    rewrite Hentry. cbn [default from_option id].
    destruct remove_file; [|left; split; [done|by intros ? [= <-]]].
    destruct entry as [| | | | |e]; try stops.
    destruct (assoc_get "file" e) as [file|] eqn:Hfile; cbn [default from_option id];
      [|left; split; [done|by intros ? [= <-]]].
    destruct (py_truthy file) eqn:Htruthy; [|left; split; [done|by intros ? [= <-]]].
    destruct file as [| | |path| |]; try stops.
    right. exists e, path. split_and!; try done.
    destruct (path_exists path _) eqn:Hex.
    + unfold unlink. cbn [denied]. case_bool_decide.
      * by left.
      * right. split; [by right|done].
    + right. split; [by left|]. do 2 f_equal. cbn [files].
      symmetry. apply delete_id. unfold path_exists in Hex. cbn [files] in Hex.
      apply bool_decide_eq_false in Hex. by apply eq_None_not_Some.
Qed.

Section DeleteAndRun.
Context {W : Type} `{WindowController W} `{InputInjector W}.

(** With no index file, or an index file written without the entry of a
    name, the index has no entry of the name and [run_sequence] does
    not know the name. *)
Lemma entry_gone (name now' : string) (fs1 : FileSystem)
    (variables : option (gmap string Point)) (c : W) :
  files fs1 !! INDEX = None
  ∨ (∃ now idx d,
       files fs1 !! INDEX
       = Some (JsonFile
                 (PDict (assoc_set "updated" (PStr now)
                           (assoc_set "sequences" (PDict (assoc_del name d)) idx))))) →
  index_entry CACHE_DIR name now' fs1 = None
  ∧ run_sequence CACHE_DIR name variables now' fs1 c
    = (Ret (inl (failure ("No sequence named '" +:+ name +:+ "'"))), c).
Proof.
  unfold index_entry, run_sequence. intros [Hnone|(now & idx & d & Hfile)].
  - unfold _load_sequences_index, path_exists. rewrite Hnone.
    rewrite bool_decide_false by (by intros [? ?]). done.
  - rewrite (load_index_file _ _ _ _ Hfile).
    rewrite assoc_get_set_ne by done. rewrite assoc_get_set_eq.
    cbn [default from_option id]. by rewrite assoc_get_del_eq.
Qed.

(** X10.  A [delete_sequence] that reports success has removed the
    name: the index has no entry of it any more, the file it reports as
    removed does not exist, and [run_sequence] answers that there is no
    sequence of that name. *)
Theorem delete_sequence_removes (name : string) (remove_file : bool)
    (now now' : string) (fs0 fs' : FileSystem) (resp : pyval)
    (variables : option (gmap string Point)) (c : W) :
  delete_sequence CACHE_DIR locked name remove_file now fs0 = (Ret resp, fs') →
  py_success resp = true →
  index_entry CACHE_DIR name now' fs' = None
  ∧ (∀ path, response_get "removed_file" resp = Some (PStr path) →
             path_exists path fs' = false)
  ∧ run_sequence CACHE_DIR name variables now' fs' c
    = (Ret (inl (failure ("No sequence named '" +:+ name +:+ "'"))), c).
Proof.
  intros Hdel Hok.
  destruct (delete_sequence_cases name remove_file now fs0)
    as [[_ Hresp]|(idx & d & entry & fs1 & _ & _ & _ & Hfs1 & Hrest)].
  { rewrite Hdel in Hresp. by rewrite (Hresp _ eq_refl) in Hok. }
  rewrite Hdel in Hrest. cbn [fst snd] in Hrest.
  destruct Hrest as [[-> Hresp]|(e & path & _ & _ & _ & [(_ & _ & [= -> _])|[_ [= -> ->]]])].
  - rewrite (Hresp _ eq_refl).
    destruct (entry_gone name now' fs1 variables c) as [Hentry Hrun].
    { right. exists now, idx, d. rewrite Hfs1. apply lookup_insert_eq. }
    by split_and!.
  - done.
  - assert (path_exists path (mkFS (delete path (files fs1)) (denied fs0)) = false)
      as Hgone.
    { unfold path_exists. apply bool_decide_eq_false. cbn [files].
      rewrite lookup_delete_eq. by intros [? ?]. }
    destruct (entry_gone name now' (mkFS (delete path (files fs1)) (denied fs0))
                variables c) as [Hentry Hrun].
    { cbn [files]. destruct (decide (path = INDEX)) as [->|Hne].
      - left. apply lookup_delete_eq.
      - right. exists now, idx, d. rewrite lookup_delete_ne by done.
        rewrite Hfs1. apply lookup_insert_eq. }
    split_and!; [done| |done]. by intros ? [= <-].
Qed.

End DeleteAndRun.


(** X12.  [delete_sequence] touches no file but the sequences index and
    the file named by the entry it deletes; told not to remove the
    file, it touches the index only. *)
Theorem delete_sequence_keeps_files (name : string) (remove_file : bool)
    (now : string) (fs0 : FileSystem) (q : string) :
  q ≠ INDEX →
  remove_file = false
  ∨ (∀ e, index_entry CACHE_DIR name now fs0 = Some (PDict e) →
          assoc_get "file" e = Some (PStr q) → False) →
  files (snd (delete_sequence CACHE_DIR locked name remove_file now fs0)) !! q
  = files fs0 !! q.
Proof.
  intros Hq Hother.
  destruct (delete_sequence_cases name remove_file now fs0)
    as [[-> _]|(idx & d & entry & fs1 & Hload & Hseqs & Hentry & Hfs1 & Hrest)];
    [done|].
  assert (files fs1 !! q = files fs0 !! q) as Hkept.
  { rewrite Hfs1. cbn [files]. by rewrite lookup_insert_ne. }
  destruct Hrest
    as [[-> _]|(e & path & -> & Hfile & -> & [(_ & _ & ->)|[_ ->]])]; try done.
  cbn [snd files]. destruct Hother as [?|Hother]; [done|].
  rewrite lookup_delete_ne; [done|]. intros ->.
  apply (Hother e); [|done]. unfold index_entry. by rewrite Hload, Hseqs.
Qed.

End DeleteFacts.

Section SaveAndDelete.
Variable CACHE_DIR : string.
Variable SEQUENCES_DIR : string.
Variable locked : gset string.

#[local] Abbreviation INDEX := (SEQUENCES_INDEX_FILE CACHE_DIR).

(** X13.  Deleting a sequence that [save_sequence] has just written
    undoes the save but for the index, provided the saved file may be
    removed: the deletion succeeds and reports the saved file as
    removed, that file is gone, and every file other than it and the
    index is as it was before the save. *)
Theorem save_then_delete (name : string) (a : list pyval)
    (file_path : option string) (overwrite : bool) (now now' : string)
    (p p' : Process) (resp : pyval) (file : string) :
  save_sequence CACHE_DIR SEQUENCES_DIR name (Some a) file_path overwrite now p
  = (Ret resp, p') →
  py_success resp = true →
  response_get "file" resp = Some (PStr file) →
  file ∉ locked →
  ∃ fs'',
    delete_sequence CACHE_DIR locked (strip name) true now' (fs p')
    = (Ret (deleted_response (strip name) (PStr file)), fs'')
    ∧ files fs'' !! file = None
    ∧ ∀ q, q ≠ INDEX → q ≠ file → files fs'' !! q = files (fs p) !! q.
Proof.
  intros Hsave Hok Hresp Hremovable.
  destruct (save_sequence_success_inv _ _ _ _ _ _ _ _ _ _ Hsave Hok)
    as (path & fs1 & idx & seqs & e & Hpath & -> & _ & Hwritten & _ & _
        & Hfile & _ & _ & Hcache & Hindex & Hfs).
  injection Hresp as <-.
  destruct (Hwritten _ eq_refl) as (Hne & Hfree & ->).
  eexists. unfold delete_sequence. rewrite Hfs.
  rewrite (load_index_file _ _ _ _ (lookup_insert_eq _ _ _)).
  rewrite assoc_get_set_ne by done. rewrite assoc_get_set_eq.
  cbn [default from_option id py_contains].
  assert (has_key (strip name) (assoc_set (strip name) (PDict e) seqs) = true) as ->.
  { apply has_key_assoc_get. rewrite assoc_get_set_eq. by eexists. }
  rewrite assoc_get_set_eq. cbn [default from_option id].
  rewrite save_index_ok by done. cbn [files denied].
  rewrite Hfile. cbn [default from_option id py_truthy].
  rewrite bool_decide_false by done. cbn [negb].
  assert (path_exists path
            (mkFS (<[INDEX := JsonFile
                       (PDict (assoc_set "updated" (PStr now')
                                 (assoc_set "sequences"
                                    (PDict (assoc_del (strip name)
                                              (assoc_set (strip name) (PDict e) seqs)))
                                    (assoc_set "updated" (PStr now)
                                       (assoc_set "sequences"
                                          (PDict (assoc_set (strip name) (PDict e) seqs))
                                          idx)))))]>
                     (<[INDEX := JsonFile
                          (PDict (assoc_set "updated" (PStr now)
                                    (assoc_set "sequences"
                                       (PDict (assoc_set (strip name) (PDict e) seqs))
                                       idx)))]>
                        (<[path := JsonFile (PList a)]> (files (fs p)))))
                  (denied (fs p))) = true) as ->.
  { unfold path_exists. apply bool_decide_eq_true. cbn [files].
    rewrite !lookup_insert_ne by done. rewrite lookup_insert_eq. by eexists. }
  unfold unlink. rewrite bool_decide_false by done.
  split; [reflexivity|]. cbn [files]. split; [apply lookup_delete_eq|].
  intros q Hq Hq'. rewrite lookup_delete_ne by done.
  by rewrite !lookup_insert_ne by done.
Qed.

End SaveAndDelete.

(** Deleting the saved demo sequence, at work. *)
Lemma delete_sequence_removes_witness :
  index_entry "cache" "My Seq" "after"
    (snd (delete_sequence "cache" ∅ "My Seq" true "later" (fs demo_saved))) = None
  ∧ path_exists "sequences/my-seq.json"
      (snd (delete_sequence "cache" ∅ "My Seq" true "later" (fs demo_saved))) = false
  ∧ run_sequence "cache" "My Seq" None "after"
      (snd (delete_sequence "cache" ∅ "My Seq" true "later" (fs demo_saved)))
      editor_desk
    = (Ret (inl (failure "No sequence named 'My Seq'")), editor_desk).
Proof.
  assert (delete_sequence "cache" ∅ "My Seq" true "later" (fs demo_saved)
          = (Ret (deleted_response "My Seq" (PStr "sequences/my-seq.json")),
             snd (delete_sequence "cache" ∅ "My Seq" true "later" (fs demo_saved))))
    as Hdel by (vm_compute; reflexivity).
  destruct (delete_sequence_removes "cache" ∅ "My Seq" true "later" "after" _ _ _
              None editor_desk Hdel eq_refl) as (Hentry & Hfile & Hrun).
  split_and!; [exact Hentry|exact (Hfile _ eq_refl)|exact Hrun].
Defined.


(** Deleting one of two saved sequences keeps the file of the other. *)
Lemma delete_sequence_keeps_files_witness :
  files (snd (delete_sequence "cache" ∅ "My Seq" true "after" (fs two_saved)))
    !! "sequences/my-seq-2.json"
  = Some (JsonFile (PList [])).
Proof.
  rewrite (delete_sequence_keeps_files "cache" ∅ "My Seq" true "after" (fs two_saved)
             "sequences/my-seq-2.json" ltac:(by vm_compute)).
  - vm_compute. reflexivity.
  - right. intros e Hentry Hfile. vm_compute in Hentry. injection Hentry as <-.
    vm_compute in Hfile. discriminate Hfile.
Defined.

(** Saving and then deleting the demo sequence, at work. *)
Lemma save_then_delete_witness :
  ∃ fs'',
    delete_sequence "cache" ∅ "My Seq" true "later" (fs demo_saved)
    = (Ret (deleted_response "My Seq" (PStr "sequences/my-seq.json")), fs'')
    ∧ files fs'' !! "sequences/my-seq.json" = None.
Proof.
  destruct (save_then_delete "cache" "sequences" ∅ " My Seq " _ None false "now"
              "later" _ _ _ "sequences/my-seq.json" demo_saved_response eq_refl
              eq_refl ltac:(set_solver))
    as (fs'' & Hdel & Hgone & _).
  exists fs''. split; [exact Hdel|exact Hgone].
Defined.

(* ================================================================== *)
(** * Appending a recording to a file                                  *)
(* ================================================================== *)

(** A stop that appends to a file holding a JSON document. *)
Lemma stop_append_written (path : string) (p : Process) (i : nat)
    (r : SequenceRecorder) (v : pyval) :
  _recorder p = Some i → sessions p !! i = Some r → is_running r = true →
  path ≠ "" → path ∉ denied (fs p) →
  files (fs p) !! path = Some (JsonFile v) →
  stop_action_recording (Some path) true p
  = (Ret (PDict [("success", PBool true);
                 ("count", PInt (Z.of_nat (length (recorded r))));
                 ("actions", PList (recorded r));
                 ("file", PStr path)]),
     mkProcess
       (<[i := mkRecorder (config r) Idle (init_coalescer (config r))]> (sessions p))
       None (Some (recorded r))
       (mkFS (<[path := JsonFile (PList (existing_list v ++ recorded r))]>
                (files (fs p))) (denied (fs p)))).
Proof.
  intros Hi Hr Hrun Hpath Hfree Hfile. unfold stop_action_recording, current_recorder.
  rewrite Hi. cbn. rewrite Hr, Hrun, (recorder_stop_running _ Hrun).
  rewrite bool_decide_false by done. cbn [negb].
  unfold path_exists, read_json. rewrite Hfile.
  rewrite bool_decide_true by (by eexists).
  destruct v; cbn [existing_list]; by rewrite write_json_ok by done.
Qed.

(** X14.  A stop that appends to a file holding a JSON list writes the
    list followed by the recording; a JSON document that is not a list
    is replaced by the recording alone.  The count it reports is that
    of the recording, and no other file changes. *)
Theorem stop_append_file (path : string) (p : Process) (i : nat)
    (r : SequenceRecorder) (v : pyval) :
  _recorder p = Some i → sessions p !! i = Some r → is_running r = true →
  path ≠ "" → path ∉ denied (fs p) →
  files (fs p) !! path = Some (JsonFile v) →
  ∃ resp p',
    stop_action_recording (Some path) true p = (Ret resp, p')
    ∧ py_success resp = true
    ∧ response_get "count" resp = Some (PInt (Z.of_nat (length (recorded r))))
    ∧ response_get "file" resp = Some (PStr path)
    ∧ files (fs p') !! path
      = Some (JsonFile (PList (existing_list v ++ recorded r)))
    ∧ ∀ q, q ≠ path → files (fs p') !! q = files (fs p) !! q.
Proof.
  intros Hi Hr Hrun Hpath Hfree Hfile.
  rewrite (stop_append_written path p i r v) by done.
  eexists _, _. split; [reflexivity|]. split_and!; try reflexivity.
  - cbn [fs files]. apply lookup_insert_eq.
  - intros q Hq. cbn [fs files]. by rewrite lookup_insert_ne.
Qed.

Section AppendAndRun.
Context {W : Type} `{WindowController W} `{InputInjector W}.

(** X15.  After a stop that appends to the file of a sequence, the
    file runs that sequence followed by the recorded actions. *)
Theorem append_then_run (path : string) (p : Process) (i : nat)
    (r : SequenceRecorder) (s : list Action)
    (variables : option (gmap string Point)) (c : W) :
  _recorder p = Some i → sessions p !! i = Some r → is_running r = true →
  path ≠ "" → path ∉ denied (fs p) →
  files (fs p) !! path = Some (JsonFile (PList (records_of_actions s))) →
  run_actions_file path variables
    (fs (snd (stop_action_recording (Some path) true p))) c
  = (inr (fst (run (s ++ emitted (flush (coalescer r))) (or_empty variables) c)),
     snd (run (s ++ emitted (flush (coalescer r))) (or_empty variables) c)).
Proof.
  intros Hi Hr Hrun Hpath Hfree Hfile.
  rewrite (stop_append_written path p i r _ Hi Hr Hrun Hpath Hfree Hfile).
  apply run_actions_file_records. cbn [snd fs files existing_list].
  rewrite lookup_insert_eq. unfold recorded, records_of_actions.
  by rewrite map_app.
Qed.

End AppendAndRun.

Lemma recording_after_save_session :
  _recorder recording_after_save = Some 0%nat
  ∧ sessions recording_after_save !! 0%nat = Some demo_recorder
  ∧ files (fs recording_after_save) !! "sequences/my-seq.json"
    = Some (JsonFile (PList (records_of_actions demo_sequence))).
Proof. vm_compute. done. Qed.

(** An appending stop, at work. *)
Lemma stop_append_file_witness :
  ∃ resp p',
    stop_action_recording (Some "sequences/my-seq.json") true recording_after_save
    = (Ret resp, p')
    ∧ response_get "count" resp = Some (PInt 1)
    ∧ files (fs p') !! "sequences/my-seq.json"
      = Some (JsonFile (PList (records_of_actions demo_sequence
                                 ++ recorded demo_recorder))).
Proof.
  destruct recording_after_save_session as (Hi & Hr & Hfile).
  destruct (stop_append_file "sequences/my-seq.json" recording_after_save 0
              demo_recorder _ Hi Hr eq_refl ltac:(done) ltac:(by vm_compute) Hfile)
    as (resp & p' & Hstop & _ & Hcount & _ & Hheld & _).
  exists resp, p'. split_and!; [exact Hstop|exact Hcount|exact Hheld].
Defined.

(** Running the file after an appending stop, at work. *)
Lemma append_then_run_witness :
  fst (run_actions_file "sequences/my-seq.json" None
         (fs (snd (stop_action_recording (Some "sequences/my-seq.json") true
                     recording_after_save)))
         editor_desk)
  = inr (fst (run (demo_sequence ++ emitted (flush (coalescer demo_recorder)))
                ∅ editor_desk)).
Proof.
  destruct recording_after_save_session as (Hi & Hr & Hfile).
  by rewrite (append_then_run "sequences/my-seq.json" recording_after_save 0
                demo_recorder demo_sequence None editor_desk
                Hi Hr eq_refl ltac:(done) ltac:(by vm_compute) Hfile).
Defined.

(* ================================================================== *)
(** * The last recording                                               *)
(* ================================================================== *)

Section LastRecording.
Variable CACHE_DIR : string.
Variable SEQUENCES_DIR : string.

Lemma apply_op_last_recording (op : Op) (p : Process) :
  is_stop op = false →
  _last_recorded_actions (apply_op CACHE_DIR SEQUENCES_DIR p op)
  = _last_recorded_actions p.
Proof.
  destruct op as [dw hk mw dcw| |name actions file_path overwrite now|ev];
    [|done| |done]; intros _; cbn [apply_op].
  - destruct (recording p) eqn:Hrec.
    + by rewrite start_when_recording.
    + by rewrite start_when_idle.
  - by destruct (save_sequence_fs CACHE_DIR SEQUENCES_DIR name actions file_path
                   overwrite now p) as [fs' ->].
Qed.

(** X16.  The last recording stays what it is through every start,
    every save and every input event: only a stop replaces it. *)
Theorem last_recording_kept (ops : list Op) (p : Process) :
  forallb (fun op => negb (is_stop op)) ops = true →
  _last_recorded_actions (fold_left (apply_op CACHE_DIR SEQUENCES_DIR) ops p)
  = _last_recorded_actions p.
Proof.
  revert p. induction ops as [|op ops IH]; intros p; [done|].
  cbn [forallb fold_left]. intros [Hop Hops]%andb_true_iff.
  rewrite IH by done. apply apply_op_last_recording.
  by apply negb_true_iff.
Qed.

#[local] Abbreviation INDEX := (SEQUENCES_INDEX_FILE CACHE_DIR).

(** X17.  When the sequences index cannot be opened for writing, a
    [save_sequence] with actions and a writable file does not answer
    with a failure: it raises, and the file has been written with the
    actions already. *)
Theorem save_sequence_index_error (name : string) (a : list pyval)
    (path : string) (overwrite : bool) (now : string) (p : Process) :
  strip name ≠ "" → path ≠ "" →
  path ∉ denied (fs p) → INDEX ∈ denied (fs p) →
  ∃ err,
    save_sequence CACHE_DIR SEQUENCES_DIR name (Some a) (Some path) overwrite now p
    = (Raise err,
       mkProcess (sessions p) (_recorder p) (_last_recorded_actions p)
         (mkFS (<[path := JsonFile (PList a)]> (files (fs p))) (denied (fs p)))).
Proof.
  intros Hname Hpath Hfree Hindex. unfold save_sequence.
  rewrite bool_decide_false by done. cbn [str_truthy default from_option id].
  rewrite bool_decide_false by done. cbn [negb].
  rewrite write_json_ok by done.
  unfold update_index, _save_sequences_index, mkdir, write_json. cbn [denied].
  rewrite (bool_decide_true (INDEX ∈ denied (fs p))) by done.
  repeat case_match; simplify_eq; by eexists.
Qed.

Section ExactName.
Context {W : Type} `{WindowController W} `{InputInjector W}.

(** X18.  [save_sequence] files a sequence under the stripped name and
    [run_sequence] looks the name up as it is given: a name with blanks
    around it, unknown to the index before, is not found after the
    save, and the controller is left alone. *)
Theorem run_sequence_exact_name (name : string) (actions : option (list pyval))
    (file_path : option string) (overwrite : bool) (now now' : string)
    (p p' : Process) (resp : pyval)
    (variables : option (gmap string Point)) (c : W) :
  save_sequence CACHE_DIR SEQUENCES_DIR name actions file_path overwrite now p
  = (Ret resp, p') →
  py_success resp = true →
  strip name ≠ name →
  index_entry CACHE_DIR name now (fs p) = None →
  run_sequence CACHE_DIR name variables now' (fs p') c
  = (Ret (inl (failure ("No sequence named '" +:+ name +:+ "'"))), c).
Proof.
  intros Hsave Hok Hname Hnone.
  destruct (save_sequence_success_inv _ _ _ _ _ _ _ _ _ _ Hsave Hok)
    as (path & fs1 & idx & seqs & e & _ & _ & _ & _ & Hload & Hseqs
        & _ & _ & _ & _ & _ & Hfs).
  unfold index_entry in Hnone. rewrite Hload, Hseqs in Hnone.
  unfold run_sequence. rewrite Hfs.
  rewrite (load_index_file _ _ _ _ (lookup_insert_eq _ _ _)).
  rewrite assoc_get_set_ne by done. rewrite assoc_get_set_eq.
  cbn [default from_option id].
  rewrite assoc_get_set_ne by done. by rewrite Hnone.
Qed.

End ExactName.
End LastRecording.

(** The last recording through a start and a save, at work. *)
Lemma last_recording_kept_witness :
  _last_recorded_actions
    (fold_left (apply_op "cache" "sequences")
       [OpStart None None 250 350;
        OpEvent (mkEvent (KeyDown (NamedKey "tab")) 20);
        OpSave "again" None None false "now"]
       stopped_demo)
  = Some (recorded demo_recorder).
Proof.
  rewrite (last_recording_kept "cache" "sequences"
             [OpStart None None 250 350;
              OpEvent (mkEvent (KeyDown (NamedKey "tab")) 20);
              OpSave "again" None None false "now"]
             stopped_demo eq_refl).
  vm_compute. reflexivity.
Defined.

(** A save that raises after it has written the file, at work. *)
Lemma save_sequence_index_error_witness :
  ∃ err,
    save_sequence "cache" "sequences" "demo" (Some (records_of_actions demo_sequence))
      (Some "out.json") false "now" index_protected
    = (Raise err,
       mkProcess [] None None
         (mkFS {["out.json" := JsonFile (PList (records_of_actions demo_sequence))]}
            {["cache/sequences_index.json"]})).
Proof.
  destruct (save_sequence_index_error "cache" "sequences" "demo"
              (records_of_actions demo_sequence) "out.json" false "now"
              index_protected ltac:(by vm_compute) ltac:(done)
              ltac:(cbn; set_solver) ltac:(cbn; set_solver)) as [err Herr].
  exists err. exact Herr.
Defined.

(** The saved demo sequence is not found under the unstripped name. *)
Lemma run_sequence_exact_name_witness :
  run_sequence "cache" " My Seq " None "later" (fs demo_saved) editor_desk
  = (Ret (inl (failure "No sequence named ' My Seq '")), editor_desk).
Proof.
  exact (run_sequence_exact_name "cache" "sequences" " My Seq " _ None false
           "now" "later" _ _ _ None editor_desk demo_saved_response eq_refl
           ltac:(by vm_compute) eq_refl).
Defined.
